(** * WhoopCoach: retrieval, forecasting and goal progress

    A shallow embedding of the analytical core of the repository:

    - class [GoalSetting] (src/services/goalSetting.ts): goal progress
      and trend;
    - component [Goals] (unnamed/part_003): the progress of a goal card;
    - class [RAGService] (unnamed/part_000): knowledge-base build and
      keyword retrieval;
    - class [PredictiveAnalytics] (unnamed/part_001): the four forecasts
      and their helpers.

    JavaScript numbers are IEEE-754 binary64 values. They are modelled by
    [spec_float] of the standard library with precision 53 and maximal
    exponent 1024, so that [NaN], the infinities, signed zeros and
    rounding behave as they do in the running program. [Math.pow(x, 2)]
    is taken to be the correctly rounded product [x * x]. Strings are
    byte strings; case folding and white space are those of ASCII.
    Writes to the console and to local storage are left out; the clock is
    an argument. *)

From Stdlib Require Import ZArith List Bool Ascii String Lia Sorted.
From Stdlib Require Import SpecFloat DecimalString.
Import ListNotations.

Local Open Scope string_scope.
Local Open Scope list_scope.
Local Open Scope Z_scope.

(** String concatenation, as [+] and template literals build strings. *)
Infix "+++" := String.append (right associativity, at level 60).

(* ================================================================== *)
(** * JavaScript numbers *)
(* ================================================================== *)

Module JSNumber.

Definition prec : Z := 53.
Definition emax : Z := 1024.

Definition number : Type := spec_float.

Definition NaN : number := S754_nan.
Definition pzero : number := S754_zero false.

(** The number nearest to an integer (exact below 2^53). *)
Definition ofZ (z : Z) : number := binary_normalize prec emax z 0 false.

(** The number nearest to the fraction [p / q], sign [s]. *)
Definition ofRatio (s : bool) (p q : positive) : number :=
  let '(mz, ez, lz) := SFdiv_core_binary prec emax (Zpos p) 0 (Zpos q) 0 in
  binary_round_aux prec emax s mz ez lz.

(** The number a decimal literal [m]e[e10] denotes, e.g. [dec 9 (-1)]
    for the literal 0.9. *)
Definition dec (m e10 : Z) : number :=
  match m with
  | Z0 => pzero
  | Zpos p =>
      if 0 <=? e10 then ofZ (m * 10 ^ e10)
      else ofRatio false p (Z.to_pos (10 ^ (- e10)))
  | Zneg p =>
      if 0 <=? e10 then ofZ (m * 10 ^ e10)
      else ofRatio true p (Z.to_pos (10 ^ (- e10)))
  end.

Definition add : number -> number -> number := SFadd prec emax.
Definition sub : number -> number -> number := SFsub prec emax.
Definition mul : number -> number -> number := SFmul prec emax.
Definition div : number -> number -> number := SFdiv prec emax.
Definition abs : number -> number := SFabs.
Definition sqrt : number -> number := SFsqrt prec emax.

(** Comparison operators; every comparison with [NaN] is false. *)
Definition ltb (x y : number) : bool := SFltb x y.
Definition gtb (x y : number) : bool := SFltb y x.
Definition leb (x y : number) : bool := SFleb x y.
Definition geb (x y : number) : bool := SFleb y x.
(** [===] on two numbers. *)
Definition strictEq (x y : number) : bool := SFeqb x y.

Definition isNaN (x : number) : bool :=
  match x with S754_nan => true | _ => false end.

(** ToBoolean on a number: [0], [-0] and [NaN] are falsy. *)
Definition truthy (x : number) : bool :=
  match x with S754_nan | S754_zero _ => false | _ => true end.

(** [x || d] when [x] is a number. *)
Definition orNum (x d : number) : number := if truthy x then x else d.

(** [Math.max] and [Math.min] of two arguments. *)
Definition max (x y : number) : number :=
  match SFcompare x y with
  | None => NaN
  | Some Lt => y
  | Some Gt => x
  | Some Eq => match x with S754_zero true => y | _ => x end
  end.

Definition min (x y : number) : number :=
  match SFcompare x y with
  | None => NaN
  | Some Lt => x
  | Some Gt => y
  | Some Eq => match x with S754_zero false => y | _ => x end
  end.

(** [Math.floor]. *)
Definition floor (x : number) : number :=
  match x with
  | S754_finite s m e =>
      if 0 <=? e then x
      else
        let q := Z.shiftr (Zpos m) (- e) in
        let exact := Z.shiftl q (- e) =? Zpos m in
        if s then binary_normalize prec emax (- (if exact then q else q + 1)) 0 true
        else binary_normalize prec emax q 0 false
  | _ => x
  end.

(** [Math.round]: the nearest integer, ties towards +Infinity. *)
Definition round (x : number) : number :=
  match x with
  | S754_finite s m e =>
      if 0 <=? e then x
      else
        let d := Z.shiftl 1 (- e) in
        let v := if s then Zneg m else Zpos m in
        binary_normalize prec emax ((2 * v + d) / (2 * d)) 0 s
  | _ => x
  end.

(** The remainder operator [x % y]; its sign is that of [x]. *)
Definition rem (x y : number) : number :=
  match x, y with
  | S754_nan, _ | _, S754_nan => NaN
  | S754_infinity _, _ => NaN
  | _, S754_zero _ => NaN
  | S754_zero _, _ => x
  | _, S754_infinity _ => x
  | S754_finite sx mx ex, S754_finite sy my ey =>
      let e := Z.min ex ey in
      let a := Z.shiftl (Zpos mx) (ex - e) in
      let b := Z.shiftl (Zpos my) (ey - e) in
      let r := a mod b in
      binary_normalize prec emax (if sx then - r else r) e sx
  end.

(** [Math.pow(x, 2)], the only power the program takes. *)
Definition square (x : number) : number := mul x x.

(** [a.reduce((s, v) => s + v, 0)]. *)
Definition sum (l : list number) : number := fold_left add l pzero.

End JSNumber.

(* ================================================================== *)
(** * JavaScript strings *)
(* ================================================================== *)

Module JSString.

(** White space as [\s] and [trim] see it in ASCII text: tab, line
    feed, vertical tab, form feed, carriage return and space. The other
    Unicode spaces are not covered. *)
Definition isWhite (c : ascii) : bool :=
  let n := N_of_ascii c in
  ((9 <=? n) && (n <=? 13) || (n =? 32))%N.

(** The lower-case form of an ASCII letter; every other character is
    kept. *)
Definition lowerChar (c : ascii) : ascii :=
  let n := N_of_ascii c in
  if ((65 <=? n) && (n <=? 90))%N then ascii_of_N (n + 32) else c.

(** [s.toLowerCase()]. *)
Fixpoint toLowerCase (s : string) : string :=
  match s with
  | EmptyString => EmptyString
  | String c r => String (lowerChar c) (toLowerCase r)
  end.

(** [s.includes(t)]. *)
Fixpoint includes (s t : string) : bool :=
  if String.prefix t s then true
  else match s with
       | EmptyString => false
       | String _ r => includes r t
       end.

Fixpoint trimStart (s : string) : string :=
  match s with
  | EmptyString => EmptyString
  | String c r => if isWhite c then trimStart r else s
  end.

(** Drops the trailing white space; [None] stands for a string that is
    white space only. *)
Fixpoint trimEndAux (s : string) : option string :=
  match s with
  | EmptyString => None
  | String c r =>
      match trimEndAux r with
      | Some r' => Some (String c r')
      | None => if isWhite c then None else Some (String c EmptyString)
      end
  end.

Definition trimEnd (s : string) : string :=
  match trimEndAux s with Some r => r | None => EmptyString end.

(** [s.trim()]. *)
Definition trim (s : string) : string := trimEnd (trimStart s).

(** [s.split(/\s+/)]. The head of the result of [splitGo] is the rest of
    the token being read; [inGap] tells that the previous character was
    white space. *)
Fixpoint splitGo (inGap : bool) (s : string) : list string :=
  match s with
  | EmptyString => [EmptyString]
  | String c r =>
      if isWhite c then
        if inGap then splitGo true r else EmptyString :: splitGo true r
      else
        match splitGo false r with
        | t :: ts => String c t :: ts
        | [] => [String c EmptyString]
        end
  end.

Definition splitWhite (s : string) : list string := splitGo false s.

(** [a.includes(w)] on an array of strings. *)
Definition mem (w : string) (a : list string) : bool :=
  existsb (String.eqb w) a.

(** [[...new Set(a)]]: first occurrences, in order. *)
Fixpoint dedupFrom (seen a : list string) : list string :=
  match a with
  | [] => []
  | w :: r => if mem w seen then dedupFrom seen r
              else w :: dedupFrom (w :: seen) r
  end.

Definition dedup (a : list string) : list string := dedupFrom [] a.

(** Decimal digits of an integer, as [String] of an integral number
    prints them. *)
Definition ofZ (z : Z) : string := NilZero.string_of_int (Z.to_int z).

Definition ofNat (n : nat) : string := ofZ (Z.of_nat n).

Fixpoint repeat0 (n : nat) : string :=
  match n with O => EmptyString | S k => String "0" (repeat0 k) end.

End JSString.

(* ================================================================== *)
(** * Conversions between numbers and strings *)
(* ================================================================== *)

Module JSConv.
Import JSNumber.

(** ** Number::toString *)

(** The exact value of a positive finite number as a fraction. *)
Definition fraction (m : positive) (e : Z) : Z * Z :=
  if 0 <=? e then (Zpos m * 2 ^ e, 1) else (Zpos m, 2 ^ (- e)).

(** Scaling a fraction by [10 ^ k]. *)
Definition scale10 (pq : Z * Z) (k : Z) : Z * Z :=
  let '(p, q) := pq in
  if 0 <=? k then (p * 10 ^ k, q) else (p, q * 10 ^ (- k)).

(** The decimal exponent [n] of [p / q]: [10 ^ (n - 1) <= p / q < 10 ^ n]. *)
Fixpoint countUp (fuel : nat) (p q n : Z) : Z :=
  match fuel with
  | O => n
  | S f => if p <? q then n else countUp f p (q * 10) (n + 1)
  end.

Fixpoint countDown (fuel : nat) (p q n : Z) : Z :=
  match fuel with
  | O => n
  | S f => if q <=? p then n else countDown f (p * 10) q (n - 1)
  end.

Definition decExponent (pq : Z * Z) : Z :=
  let '(p, q) := pq in
  if q <=? p then countUp 400 p q 0 else countDown 400 (p * 10) q 0.

(** The number a decimal [s * 10 ^ k] rounds to. *)
Definition ofDecimal (s k : Z) : number :=
  match s with
  | Zpos p =>
      if 0 <=? k then ofZ (s * 10 ^ k)
      else ofRatio false p (Z.to_pos (10 ^ (- k)))
  | _ => pzero
  end.

(** The shortest digit string: the least [k] for which some [k]-digit
    [s] has [s * 10 ^ (n - k)] round to [x]; of two such [s] the closer
    to [x], the even one on a tie. Returns [(s, n)]. *)
Fixpoint shortest (fuel : nat) (x : number) (pq : Z * Z) (n k : Z) : Z * Z :=
  let '(p, q) := scale10 pq (k - n) in
  let lo := p / q in
  let hi := lo + 1 in
  let okLo := (10 ^ (k - 1) <=? lo) && SFeqb (ofDecimal lo (n - k)) x in
  let okHi := SFeqb (ofDecimal hi (n - k)) x in
  let norm := fun s => if s =? 10 ^ k then (10 ^ (k - 1), n + 1) else (s, n) in
  let dLo := p - lo * q in
  let dHi := hi * q - p in
  match okLo, okHi with
  | true, true =>
      if dLo <? dHi then (lo, n)
      else if dHi <? dLo then norm hi
      else if Z.even lo then (lo, n) else norm hi
  | true, false => (lo, n)
  | false, true => norm hi
  | false, false =>
      match fuel with
      | O => (lo, n)
      | S f => shortest f x pq n (k + 1)
      end
  end.

Definition digitsOf (s : Z) : string := JSString.ofZ s.

Definition splitAt (n : nat) (s : string) : string * string :=
  (substring 0 n s, substring n (String.length s - n) s).

(** The layout of the digits [s] (there are [k] of them) with decimal
    exponent [n]. *)
Definition layout (s n : Z) : string :=
  let ds := digitsOf s in
  let k := Z.of_nat (String.length ds) in
  if (k <=? n) && (n <=? 21) then ds +++ JSString.repeat0 (Z.to_nat (n - k))
  else if (0 <? n) && (n <=? 21) then
    let '(a, b) := splitAt (Z.to_nat n) ds in a +++ "." +++ b
  else if (-6 <? n) && (n <=? 0) then
    "0." +++ JSString.repeat0 (Z.to_nat (- n)) +++ ds
  else
    let ex := n - 1 in
    let sg := if ex <? 0 then "-" else "+" in
    let '(a, b) := splitAt 1 ds in
    (if k =? 1 then a else a +++ "." +++ b) +++ "e" +++ sg +++ digitsOf (Z.abs ex).

Definition toStringPos (m : positive) (e : Z) : string :=
  let pq := fraction m e in
  let n := decExponent pq in
  let '(s, n') := shortest 17 (S754_finite false m e) pq n 1 in
  layout s n'.

(** [String(x)], [x.toString()] and [`${x}`] for a number [x]. *)
Definition toString (x : number) : string :=
  match x with
  | S754_nan => "NaN"
  | S754_zero _ => "0"
  | S754_infinity s => if s then "-Infinity" else "Infinity"
  | S754_finite s m e =>
      (if s then "-" else "") +++ toStringPos m e
  end.

(** ** Number.prototype.toFixed *)

(** [x.toFixed(f)]: the integer [n] nearest to [|x| * 10 ^ f], the larger
    one on a tie, printed with [f] decimals. *)
Definition toFixed (f : nat) (x : number) : string :=
  match x with
  | S754_finite s m e =>
      if SFleb (ofZ (10 ^ 21)) (SFabs x) then toString x
      else
        let '(p, q) := scale10 (fraction m e) (Z.of_nat f) in
        let n := (2 * p + q) / (2 * q) in
        let ds := digitsOf n in
        let ds := JSString.repeat0 (S f - String.length ds) +++ ds in
        let '(a, b) := splitAt (String.length ds - f) ds in
        (if s then "-" else "") +++
        (match f with O => a | _ => a +++ "." +++ b end)
  | S754_zero _ =>
      (match f with O => "0" | _ => "0." +++ JSString.repeat0 f end)
  | _ => toString x
  end.

End JSConv.

(* ================================================================== *)
(** * parseFloat and the values a row holds *)
(* ================================================================== *)

Module JSValue.
Import JSNumber.

Definition isDigit (c : ascii) : bool :=
  let n := N_of_ascii c in ((48 <=? n) && (n <=? 57))%N.

Definition digitVal (c : ascii) : Z := Z.of_N (N_of_ascii c) - 48.

(** Reads a run of decimal digits after the digits already in [acc];
    returns the value, the number of digits read and the rest. *)
Fixpoint digitsRun (s : string) (acc cnt : Z) : Z * Z * string :=
  match s with
  | String c r =>
      if isDigit c then digitsRun r (10 * acc + digitVal c) (cnt + 1)
      else (acc, cnt, s)
  | EmptyString => (acc, cnt, s)
  end.

Definition readSign (s : string) : bool * string :=
  match s with
  | String "-" r => (true, r)
  | String "+" r => (false, r)
  | _ => (false, s)
  end.

(** The number nearest to [m * 10 ^ k], sign [sg]. The two guards cut
    off exponents far outside the range of binary64, where the result
    is an infinity or a zero whatever the digits are. *)
Definition mkDecimal (sg : bool) (m k : Z) : number :=
  match m with
  | Zpos p =>
      let lg := Z.log2 m in
      if (0 <? k) && (1100 <? lg + 3 * k) then S754_infinity sg
      else if (k <? 0) && (lg + 1 + 3 * k <? -1100) then S754_zero sg
      else if 0 <=? k then binary_normalize prec emax (if sg then - (m * 10 ^ k) else m * 10 ^ k) 0 sg
      else ofRatio sg p (Z.to_pos (10 ^ (- k)))
  | _ => S754_zero sg
  end.

Definition exponentPart (s : string) : Z :=
  match s with
  | String c r =>
      if (Ascii.eqb c "e" || Ascii.eqb c "E")%bool then
        let '(sgE, r') := readSign r in
        let '(v, nv, _) := digitsRun r' 0 0 in
        if nv =? 0 then 0 else if sgE then - v else v
      else 0
  | EmptyString => 0
  end.

(** [parseFloat(s)] on a string: the longest prefix of the trimmed string
    that is a decimal literal, [NaN] when there is none. *)
Definition parseFloatString (s : string) : number :=
  let '(sg, s0) := readSign (JSString.trimStart s) in
  if String.prefix "Infinity" s0 then S754_infinity sg
  else
    let '(i, ni, s1) := digitsRun s0 0 0 in
    let '(f, nf, s2) :=
      match s1 with
      | String "." r => digitsRun r i 0
      | _ => (i, 0, s1)
      end in
    if ni + nf =? 0 then NaN
    else mkDecimal sg f (exponentPart s2 - nf).

(** What a row of the metric table holds under a key: a string or a
    number from the CSV, [null] for a blank cell, [undefined] for a key
    the row does not have. *)
Inductive jsval : Type :=
| VUndefined
| VNull
| VNumber (x : number)
| VString (s : string).

(** ToBoolean. *)
Definition truthy (v : jsval) : bool :=
  match v with
  | VUndefined | VNull => false
  | VNumber x => JSNumber.truthy x
  | VString s => negb (String.eqb s "")
  end.

(** ToString, as template literals, [parseFloat] and (for a value that
    is neither [null] nor [undefined]) [v.toString()] apply it. *)
Definition toString (v : jsval) : string :=
  match v with
  | VUndefined => "undefined"
  | VNull => "null"
  | VNumber x => JSConv.toString x
  | VString s => s
  end.

(** [parseFloat(v)]: the argument is first converted to a string. *)
Definition parseFloat (v : jsval) : number := parseFloatString (toString v).

(** [v || d]. *)
Definition orVal (v d : jsval) : jsval := if truthy v then v else d.

(** [v === 'lit'] for a string literal. *)
Definition isString (v : jsval) (lit : string) : bool :=
  match v with VString s => String.eqb s lit | _ => false end.

(** A row: the own keys of the object in the order [Object.keys] lists
    them, each with its value. Keys are pairwise distinct, as in any
    object. *)
Definition object : Type := list (string * jsval).

Definition keys (o : object) : list string := map fst o.

(** [o[k]]. *)
Fixpoint get (o : object) (k : string) : jsval :=
  match o with
  | [] => VUndefined
  | (k', v) :: r => if String.eqb k' k then v else get r k
  end.

End JSValue.

(* ================================================================== *)
(** * GoalSetting (src/services/goalSetting.ts) *)
(* ================================================================== *)

Module GoalSetting.
Import JSNumber JSValue.

Inductive GoalType : Type := recovery | sleep | strain | hrv | custom.
Inductive Timeframe : Type := daily | weekly | monthly.
Inductive Trend : Type := improving | declining | stable.

Record Goal : Type := mkGoal {
  id : string;
  type : GoalType;
  title : string;
  description : string;
  targetValue : number;
  currentValue : number;
  unit : string;
  timeframe : Timeframe;
  targetDate : option string;
  isActive : bool;
  progress : number;
  trend : Trend;
  recommendations : list string;
  createdDate : string;
  lastUpdated : string
}.

Section WithData.
(** [this.data]: the metric table, most recent row first. *)
Variable data : list object.

Definition getCurrentValue (t : GoalType) : number :=
  match data with
  | [] => pzero
  | latest :: _ =>
      match t with
      | recovery => orNum (parseFloat (get latest "recovery score %")) pzero
      | sleep => orNum (parseFloat (get latest "sleep performance %")) pzero
      | strain => orNum (parseFloat (get latest "day strain")) pzero
      | hrv => orNum (parseFloat (get latest "heart rate variability (ms)")) pzero
      | custom => pzero
      end
  end.

Definition getBaselineValue (t : GoalType) : number :=
  match t with
  | recovery => ofZ 30
  | sleep => ofZ 60
  | strain => ofZ 20
  | hrv => ofZ 20
  | custom => pzero
  end.

(** The progress computed by [updateGoalProgress]. *)
Definition computeProgress (t : GoalType) (target current : number) : number :=
  match t with
  | strain =>
      max pzero (min (ofZ 100)
        (mul (div (sub target current) (sub target (getBaselineValue t)))
             (ofZ 100)))
  | _ =>
      max pzero (min (ofZ 100) (mul (div current target) (ofZ 100)))
  end.

Definition computeTrend (t : GoalType) (current previous : number) : Trend :=
  if ltb (abs (sub current previous)) (ofZ 1) then stable
  else
    let isImproving :=
      match t with
      | strain => ltb current previous
      | _ => gtb current previous
      end in
    if isImproving then improving else declining.

Definition generateRecommendations (t : GoalType) (p : number) : list string :=
  match t with
  | recovery =>
      if ltb p (ofZ 50) then
        [ "Focus on sleep quality - aim for 7-9 hours nightly";
          "Reduce training intensity for 2-3 days";
          "Prioritize stress management and relaxation";
          "Stay hydrated and maintain good nutrition" ]
      else if ltb p (ofZ 80) then
        [ "You're making good progress! Stay consistent";
          "Monitor strain vs recovery balance";
          "Consider adding recovery protocols (stretching, meditation)" ]
      else
        [ "Excellent progress! Maintain current habits";
          "You're in the green zone consistently";
          "Consider setting a more ambitious target" ]
  | sleep =>
      if ltb p (ofZ 50) then
        [ "Establish a consistent bedtime routine";
          "Optimize sleep environment (cool, dark, quiet)";
          "Avoid screens 1 hour before bed";
          "Limit caffeine after 2 PM" ]
      else if ltb p (ofZ 80) then
        [ "Good improvement in sleep patterns";
          "Focus on sleep consistency and timing";
          "Track what affects your sleep quality" ]
      else
        [ "Outstanding sleep performance!";
          "Your sleep hygiene is excellent";
          "Consider helping others with sleep optimization" ]
  | hrv =>
      if ltb p (ofZ 50) then
        [ "Incorporate stress reduction techniques";
          "Ensure adequate recovery between workouts";
          "Consider breath work or meditation";
          "Focus on sleep quality and consistency" ]
      else
        [ "HRV is improving - great progress!";
          "Continue current recovery practices";
          "Your autonomic nervous system is adapting well" ]
  | strain =>
      if ltb p (ofZ 50) then
        [ "Plan more recovery days in your training";
          "Reduce intensity rather than volume initially";
          "Listen to your body's recovery signals";
          "Consider periodized training approach" ]
      else
        [ "Good balance of strain and recovery";
          "Your training load is becoming more sustainable";
          "Continue monitoring recovery metrics" ]
  | custom => []
  end.

(** [updateGoalProgress(goal)]. [now] is the time stamp the call reads
    from the clock; the write to local storage that ends the method
    leaves the goal as it is. *)
Definition updateGoalProgress (now : string) (goal : Goal) : Goal :=
  let current := getCurrentValue (type goal) in
  let previous := currentValue goal in
  let p := computeProgress (type goal) (targetValue goal) current in
  {| id := id goal;
     type := type goal;
     title := title goal;
     description := description goal;
     targetValue := targetValue goal;
     currentValue := current;
     unit := unit goal;
     timeframe := timeframe goal;
     targetDate := targetDate goal;
     isActive := isActive goal;
     progress := p;
     trend := computeTrend (type goal) current previous;
     recommendations := generateRecommendations (type goal) p;
     createdDate := createdDate goal;
     lastUpdated := now |}.

End WithData.

End GoalSetting.

(* ================================================================== *)
(** * Goals component (unnamed/part_003) *)
(* ================================================================== *)

Module GoalsComponent.
Import JSNumber.

Inductive ImprovementType : Type := higher | lower.
Inductive Confidence : Type := high | medium | low.

(** [SmartGoal], without the two fields that only style the card
    ([color] and [icon]). *)
Record SmartGoal : Type := mkSmartGoal {
  id : string;
  name : string;
  current : number;
  baseline : number;
  target : number;
  unit : string;
  timeline : number;
  enabled : bool;
  improvementType : ImprovementType;
  suggestion : string;
  confidence : Confidence
}.

(** [calculateProgress], the progress the goal cards show. *)
Definition calculateProgress (goal : SmartGoal) : number :=
  match improvementType goal with
  | higher =>
      if leb (target goal) (baseline goal) then ofZ 100
      else max pzero (min (ofZ 100)
             (mul (div (sub (current goal) (baseline goal))
                       (sub (target goal) (baseline goal)))
                  (ofZ 100)))
  | lower =>
      if geb (target goal) (baseline goal) then ofZ 100
      else max pzero (min (ofZ 100)
             (mul (div (sub (baseline goal) (current goal))
                       (sub (baseline goal) (target goal)))
                  (ofZ 100)))
  end.

End GoalsComponent.

(* ================================================================== *)
(** * RAGService (unnamed/part_000) *)
(* ================================================================== *)

Module RAGService.
Import JSNumber JSValue.

(** [DataPoint] and its [metadata]. The optional [date] is [VUndefined]
    when absent; [source] holds whatever [row._source_file] held. *)
Record Metadata : Type := mkMetadata {
  date : jsval;
  metric : string;
  value : string;
  source : jsval;
  recency : option Z
}.

Record DataPoint : Type := mkDataPoint {
  content : string;
  metadata : Metadata
}.

(** The fields of a dashboard metric that the build reads. *)
Record DynamicMetric : Type := mkDynamicMetric {
  dm_title : string;
  dm_value : string;
  dm_subtitle : string
}.

(** ** buildKnowledgeBase *)

Definition timeContextOf (index : nat) : string :=
  if (index =? 0)%nat then "most recently"
  else if (index =? 1)%nat then "recently"
  else if (index <? 7)%nat then "in recent days"
  else "".

(** The test on [keyLower] that selects the fields printed as hours and
    minutes. *)
Definition isDurationKey (key : string) : bool :=
  let keyLower := JSString.toLowerCase key in
  (JSString.includes keyLower "sleep" && JSString.includes keyLower "duration")
  || JSString.includes keyLower "asleep duration"
  || JSString.includes keyLower "awake duration"
  || JSString.includes keyLower "in bed duration"
  || JSString.includes keyLower "light sleep"
  || JSString.includes keyLower "deep"
  || JSString.includes keyLower "rem"
  || JSString.includes keyLower "sleep need"
  || JSString.includes keyLower "sleep debt".

(** [`${hours}h ${mins}m`] for a number of minutes. *)
Definition hoursMinutes (minutes : number) : string :=
  let hours := floor (div minutes (ofZ 60)) in
  let mins := round (rem minutes (ofZ 60)) in
  JSConv.toString hours +++ "h " +++ JSConv.toString mins +++ "m".

Definition formatValue (key : string) (v : jsval) : string :=
  if isDurationKey key then
    let minutes := parseFloat v in
    if isNaN minutes then toString v else hoursMinutes minutes
  else toString v.

(** [row.date || `day ${index + 1}`]. *)
Definition dateLabel (index : nat) (row : object) : jsval :=
  orVal (get row "date") (VString ("day " +++ JSString.ofNat (index + 1))).

Definition fieldContent (index : nat) (row : object) (key formatted : string)
  : string :=
  let timeContext := timeContextOf index in
  if negb (String.eqb timeContext "") then
    timeContext +++ ", your " +++ key +++ " was " +++ formatted
  else
    "On " +++ toString (dateLabel index row) +++ ", your " +++ key
      +++ " was " +++ formatted.

(** The body of the inner [forEach]: what one key of one row adds. *)
Definition fieldFact (index : nat) (row : object) (key : string)
  : option DataPoint :=
  if String.eqb key "_source_file" then None
  else
    let v := get row key in
    if truthy v && negb (String.eqb (JSString.trim (toString v)) "") then
      let formattedValue := formatValue key v in
      Some {| content := fieldContent index row key formattedValue;
              metadata := {| date := dateLabel index row;
                             metric := key;
                             value := formattedValue;
                             source := orVal (get row "_source_file")
                                             (VString "csv_data");
                             recency := Some (Z.of_nat index) |} |}
    else None.

Definition optList {A : Type} (o : option A) : list A :=
  match o with Some a => [a] | None => [] end.

Definition rowFacts (index : nat) (row : object) : list DataPoint :=
  flat_map (fun key => optList (fieldFact index row key)) (keys row).

(** The outer [forEach], rows numbered from [index]. *)
Fixpoint csvFactsFrom (index : nat) (csvData : list object) : list DataPoint :=
  match csvData with
  | [] => []
  | row :: rest => rowFacts index row ++ csvFactsFrom (S index) rest
  end.

Definition csvFacts (csvData : list object) : list DataPoint :=
  csvFactsFrom 0 csvData.

Definition dynamicFact (m : DynamicMetric) : DataPoint :=
  {| content := "Your current " +++ dm_title m +++ " is " +++ dm_value m
                  +++ " - " +++ dm_subtitle m;
     metadata := {| date := VUndefined;
                    metric := dm_title m;
                    value := dm_value m;
                    source := VString "current_metrics";
                    recency := Some (-1) |} |}.

(** The filter that selects the rows with a sleep-debt reading. *)
Definition hasSleepDebt (record : object) : bool :=
  match get record "sleep debt (min)" with
  | VUndefined | VNull => false
  | VString s => negb (String.eqb s "")
  | VNumber _ => true
  end.

Definition sleepDebtEntries (csvData : list object) : list object :=
  firstn 7 (filter hasSleepDebt csvData).

Definition debtOf (record : object) : number :=
  orNum (parseFloat (get record "sleep debt (min)")) pzero.

Definition debtStatus (debtMinutes : number) : string :=
  if gtb debtMinutes (ofZ 60) then "significant debt"
  else if gtb debtMinutes (ofZ 30) then "moderate debt"
  else if gtb debtMinutes (ofZ (-30)) then "balanced"
  else if gtb debtMinutes (ofZ (-60)) then "slight surplus"
  else "significant surplus".

Definition timeRef (index : nat) : string :=
  if (index =? 0)%nat then "most recent night"
  else JSString.ofNat index +++ " "
         +++ (if (index =? 1)%nat then "day" else "days") +++ " ago".

Definition trackingFact (index : nat) (record : object) : DataPoint :=
  let debtMinutes := debtOf record in
  let debtHours := div (abs debtMinutes) (ofZ 60) in
  {| content := "Sleep debt " +++ timeRef index +++ ": "
                  +++ (if geb debtMinutes pzero then "+" else "")
                  +++ JSConv.toFixed 1 debtHours +++ " hours ("
                  +++ debtStatus debtMinutes +++ ")";
     metadata := {| date := get record "date";
                    metric := "Sleep Debt Analysis";
                    value := JSConv.toString debtMinutes;
                    source := VString "sleep_debt_tracking";
                    recency := Some (Z.of_nat index) |} |}.

Fixpoint trackingFactsFrom (index : nat) (entries : list object)
  : list DataPoint :=
  match entries with
  | [] => []
  | record :: rest =>
      trackingFact index record :: trackingFactsFrom (S index) rest
  end.

Definition trendStatus (avgDailyDebt : number) : string :=
  if gtb avgDailyDebt (ofZ 30) then "accumulating debt"
  else if gtb avgDailyDebt (ofZ (-30)) then "maintaining balance"
  else "building surplus".

Definition analysisFact (entries : list object) : DataPoint :=
  let totalDebt := fold_left (fun sum record => add sum (debtOf record))
                             entries pzero in
  let avgDailyDebt := div totalDebt (ofZ (Z.of_nat (List.length entries))) in
  {| content := "Sleep debt 7-day trend: "
                  +++ JSConv.toFixed 1 (div totalDebt (ofZ 60))
                  +++ " hours total, "
                  +++ JSConv.toFixed 1 (div avgDailyDebt (ofZ 60))
                  +++ " hours average daily (" +++ trendStatus avgDailyDebt
                  +++ ")";
     metadata := {| date := VUndefined;
                    metric := "Sleep Debt Trend";
                    value := JSConv.toString totalDebt;
                    source := VString "sleep_debt_analysis";
                    recency := Some 0 |} |}.

Definition sleepDebtFacts (csvData : list object) : list DataPoint :=
  let entries := sleepDebtEntries csvData in
  match entries with
  | [] => []
  | _ => trackingFactsFrom 0 entries ++ [analysisFact entries]
  end.

(** The knowledge base the method leaves in [this.knowledgeBase]. *)
Definition buildKnowledgeBase (csvData : list object)
           (dynamicMetrics : list DynamicMetric) : list DataPoint :=
  csvFacts csvData ++ map dynamicFact dynamicMetrics ++ sleepDebtFacts csvData.

(** ** retrieveRelevantData *)

Definition anyIn (words cluster : list string) : bool :=
  existsb (fun w => JSString.mem w cluster) words.

(** [expandQuery]. *)
Definition expandQuery (query : string) : list string :=
  let words := JSString.splitWhite (JSString.toLowerCase query) in
  let e1 :=
    if anyIn words ["sleep"; "sleeping"; "slept"; "rest"; "bed"] then
      ["sleep"; "asleep"; "duration"; "efficiency"; "performance"; "rem";
       "deep"; "light"; "awake"; "bed"]
    else [] in
  let e2 :=
    if anyIn words ["debt"; "owe"; "deficit"; "behind"; "surplus"; "excess"] then
      ["debt"; "deficit"; "surplus"; "need"; "owe"; "behind"; "excess";
       "balance"]
    else [] in
  let e3 :=
    if anyIn words ["recovery"; "recover"; "readiness"; "ready"] then
      ["recovery"; "score"; "hrv"; "variability"; "resting"]
    else [] in
  let e4 :=
    if anyIn words ["strain"; "workout"; "exercise"; "activity"; "training"] then
      ["strain"; "day"; "exertion"; "calories"; "burned"; "energy"]
    else [] in
  let e5 :=
    if anyIn words ["heart"; "hr"; "bpm"; "pulse"] then
      ["heart"; "rate"; "bpm"; "resting"; "average"; "max"; "hrv";
       "variability"]
    else [] in
  JSString.dedup (words ++ e1 ++ e2 ++ e3 ++ e4 ++ e5).

Definition temporalReferences : list string :=
  ["last night"; "yesterday"; "today"; "most recent"; "latest"; "current";
   "now"].

Definition isTemporalQuery (queryLower : string) : bool :=
  existsb (fun ref => JSString.includes queryLower ref) temporalReferences.

Definition b2z (b : bool) (n : Z) : Z := if b then n else 0.

(** What one expanded term adds to the score of a data point. *)
Definition wordScore (content metric word : string) : Z :=
  b2z (JSString.includes content word) 2
  + b2z (JSString.includes metric word) 3
  + b2z (JSString.mem word (JSString.splitWhite content)) 1
  + b2z (JSString.mem word (JSString.splitWhite metric)) 2.

Definition keywordScore (expandedQuery : list string) (dp : DataPoint) : Z :=
  let content := JSString.toLowerCase (content dp) in
  let metric := JSString.toLowerCase (metric (metadata dp)) in
  fold_left (fun score word => score + wordScore content metric word)
            expandedQuery 0.

Definition temporalBoost (dp : DataPoint) : Z :=
  match recency (metadata dp) with
  | Some r => if r =? 0 then 20 else if r =? 1 then 10
              else if r =? 2 then 5 else 0
  | None => 0
  end.

(** The score the [map] over the knowledge base gives a data point. *)
Definition scoreOf (query : string) (dp : DataPoint) : Z :=
  let queryLower := JSString.toLowerCase query in
  let src := source (metadata dp) in
  keywordScore (expandQuery queryLower) dp
  + b2z (JSString.includes queryLower "sleep debt"
         && isString src "sleep_debt_tracking") 50
  + b2z (JSString.includes queryLower "sleep debt"
         && isString src "sleep_debt_analysis") 45
  + b2z (isString src "current_metrics") 5
  + b2z (match recency (metadata dp) with
         | Some r => r <? 3 | None => false end) 3
  + b2z (isTemporalQuery queryLower) (temporalBoost dp).

(** [Array.prototype.sort] with the comparator [b.score - a.score]: a
    stable sort by descending score. An item is put before the first
    item of the sorted rest that scores no more than it does. *)
Fixpoint insertByScore (x : DataPoint * Z) (l : list (DataPoint * Z))
  : list (DataPoint * Z) :=
  match l with
  | [] => [x]
  | y :: r => if snd y <=? snd x then x :: l else y :: insertByScore x r
  end.

Fixpoint sortByScore (l : list (DataPoint * Z)) : list (DataPoint * Z) :=
  match l with
  | [] => []
  | x :: r => insertByScore x (sortByScore r)
  end.

Definition scoredData (query : string) (knowledgeBase : list DataPoint)
  : list (DataPoint * Z) :=
  map (fun dp => (dp, scoreOf query dp)) knowledgeBase.

(** The scored items that pass the filter, in ranked order. *)
Definition ranked (query : string) (knowledgeBase : list DataPoint)
  : list (DataPoint * Z) :=
  sortByScore (filter (fun item => 0 <? snd item)
                      (scoredData query knowledgeBase)).

Definition retrieveRelevantData (knowledgeBase : list DataPoint)
           (query : string) (maxResults : nat) : list DataPoint :=
  map fst (firstn maxResults (ranked query knowledgeBase)).

End RAGService.

(* ================================================================== *)
(** * PredictiveAnalytics (unnamed/part_001) *)
(* ================================================================== *)

Module PredictiveAnalytics.
Import JSNumber JSValue.

Inductive PredictionType : Type :=
  recovery | sleep_debt | performance | injury_risk.

Record PredictionResult : Type := mkPrediction {
  type : PredictionType;
  prediction : number;
  confidence : number;
  timeframe : string;
  reasoning : string;
  recommendations : list string
}.

(** ** Helper methods *)

(** [data.slice(0, n)]. *)
Definition slice0 {A : Type} (n : nat) (l : list A) : list A := firstn n l.

Definition lengthOf {A : Type} (l : list A) : number :=
  ofZ (Z.of_nat (List.length l)).

(** [reduce] with the index as third argument of the callback. *)
Fixpoint reduceIdx (f : number -> number -> number -> number)
         (i : Z) (l : list number) (acc : number) : number :=
  match l with
  | [] => acc
  | v :: r => reduceIdx f (i + 1) r (f acc v (ofZ i))
  end.

Definition calculateTrend (data : list number) : number :=
  if (List.length data <? 3)%nat then pzero
  else
    let n := lengthOf data in
    let sumX := reduceIdx (fun s _ i => add s i) 0 data pzero in
    let sumY := reduceIdx (fun s v _ => add s v) 0 data pzero in
    let sumXY := reduceIdx (fun s v i => add s (mul i v)) 0 data pzero in
    let sumXX := reduceIdx (fun s _ i => add s (mul i i)) 0 data pzero in
    div (sub (mul n sumXY) (mul sumX sumY))
        (sub (mul n sumXX) (mul sumX sumX)).

Definition calculateVariance (data : list number) : number :=
  let mean := div (sum data) (lengthOf data) in
  div (fold_left (fun s v => add s (square (sub v mean))) data pzero)
      (lengthOf data).

(** The body of the [forEach] of [calculateConfidence]. *)
Definition varianceStep (confidence : number) (data : list number) : number :=
  if (3 <? List.length data)%nat then
    let variance := calculateVariance (slice0 7 data) in
    let mean := div (sum (slice0 7 data)) (lengthOf (slice0 7 data)) in
    let cv := div variance mean in
    if gtb cv (dec 3 (-1)) then mul confidence (dec 8 (-1)) else confidence
  else confidence.

Definition calculateConfidence (datasets : list (list number)) : number :=
  let totalDataPoints :=
    fold_left (fun s data => add s (lengthOf data)) datasets pzero in
  let avgDataPoints := div totalDataPoints (lengthOf datasets) in
  let confidence := min (dec 9 (-1)) (div avgDataPoints (ofZ 14)) in
  let confidence := fold_left varianceStep datasets confidence in
  max (dec 5 (-1)) (min (dec 95 (-2)) confidence).

Definition mean_n (n : nat) (l : list number) : number :=
  div (sum (slice0 n l)) (ofZ (Z.of_nat n)).

Definition signed (x : number) : string :=
  if geb x pzero then "+" else "".

Section WithData.
(** [this.data]: the constructor keeps the first 30 rows it is given. *)
Variable data : list object.

Definition getMetricData (metricName : string) : list number :=
  filter (fun val => negb (isNaN val))
         (map (fun row => parseFloat (get row metricName)) data).

(** The placeholder every forecast returns on too little data. *)
Definition insufficient (t : PredictionType) (tf why : string)
  : PredictionResult :=
  {| type := t; prediction := pzero; confidence := pzero;
     timeframe := tf; reasoning := why; recommendations := [] |}.

(** ** predictRecoveryScore *)

Definition predictRecoveryScore : PredictionResult :=
  let recoveryData := getMetricData "recovery score %" in
  let strainData := getMetricData "day strain" in
  let sleepData := getMetricData "sleep performance %" in
  if (List.length recoveryData <? 7)%nat then
    insufficient recovery "tomorrow" "Insufficient data"
  else
    let recentRecovery := mean_n 3 recoveryData in
    let weeklyAvg := mean_n 7 recoveryData in
    let recentStrain :=
      if (0 <? List.length strainData)%nat then mean_n 2 strainData
      else ofZ 10 in
    let recentSleep :=
      if (0 <? List.length sleepData)%nat then mean_n 2 sleepData
      else ofZ 80 in
    let predicted := weeklyAvg in
    let predicted :=
      if gtb recentStrain (ofZ 15) then sub predicted (ofZ 10)
      else if gtb recentStrain (ofZ 12) then sub predicted (ofZ 5)
      else if ltb recentStrain (ofZ 8) then add predicted (ofZ 3)
      else predicted in
    let predicted :=
      if ltb recentSleep (ofZ 70) then sub predicted (ofZ 8)
      else if gtb recentSleep (ofZ 85) then add predicted (ofZ 5)
      else predicted in
    let trendMomentum := mul (sub recentRecovery weeklyAvg) (dec 3 (-1)) in
    let predicted := add predicted trendMomentum in
    let predicted := max (ofZ 10) (min (ofZ 100) predicted) in
    let confidence :=
      calculateConfidence [recoveryData; strainData; sleepData] in
    let recommendations :=
      if ltb predicted (ofZ 50) then
        [ "Consider a rest day or light activity";
          "Prioritize quality sleep tonight";
          "Focus on hydration and nutrition" ]
      else if gtb predicted (ofZ 80) then
        [ "Good day for higher intensity training";
          "Your body is ready for challenge";
          "Maintain current recovery practices" ]
      else
        [ "Moderate training intensity recommended";
          "Monitor how you feel during activity";
          "Focus on recovery practices" ] in
    {| type := recovery;
       prediction := round predicted;
       confidence := confidence;
       timeframe := "tomorrow";
       reasoning :=
         "Based on your recent recovery trend ("
           +++ JSConv.toFixed 1 recentRecovery +++ "%), strain patterns ("
           +++ JSConv.toFixed 1 recentStrain +++ "), and sleep quality ("
           +++ JSConv.toFixed 1 recentSleep +++ "%)";
       recommendations := recommendations |}.

(** ** predictSleepDebt *)

(** The [for] loop that fills [weeklyDeficits]. *)
Fixpoint deficits (maxDays : nat) (need duration : list number)
  : list number :=
  match maxDays, need, duration with
  | S k, n :: need', d :: duration' => sub n d :: deficits k need' duration'
  | _, _, _ => []
  end.

Definition weeklyDeficits : list number :=
  let sleepNeedData := getMetricData "sleep need (min)" in
  let sleepDurationData := getMetricData "asleep duration (min)" in
  let maxDays := Nat.min 7 (Nat.min (List.length sleepNeedData)
                                    (List.length sleepDurationData)) in
  deficits maxDays sleepNeedData sleepDurationData.

(** [currentDebt]: the most recent recorded debt, 0 without one. *)
Definition currentDebt : number :=
  match getMetricData "sleep debt (min)" with
  | d :: _ => d
  | [] => pzero
  end.

Definition actualCurrentDebt : number :=
  if strictEq currentDebt pzero && (0 <? List.length weeklyDeficits)%nat
  then fold_left (fun total deficit => add total deficit) weeklyDeficits pzero
  else currentDebt.

Definition sleepDebtRecommendations (debt : number) : list string :=
  if ltb (abs debt) (ofZ 30) then
    [ "Excellent sleep balance! 🎯";
      "You're meeting your sleep needs consistently";
      "Maintain your current sleep schedule";
      "Continue prioritizing sleep quality" ]
  else if gtb debt (ofZ 120) then
    [ "Significant sleep debt accumulated ⚠️";
      "Prioritize earlier bedtime this week";
      "Consider catching up with longer weekend sleep";
      "Focus on sleep quality optimization" ]
  else if gtb debt (ofZ 60) then
    [ "Moderate sleep debt building up 📈";
      "Aim for 30-60 minutes earlier bedtime";
      "Maintain consistent sleep schedule";
      "Monitor sleep efficiency" ]
  else if ltb debt (ofZ (-60)) then
    [ "Great sleep surplus! 💪";
      "You're banking extra recovery time";
      "Maintain current excellent habits";
      "Consider how this affects your energy levels" ]
  else
    [ "Minor sleep debt - manageable 👍";
      "Small adjustments to bedtime can help";
      "Focus on sleep consistency";
      "Monitor for quality over quantity" ].

Definition predictSleepDebt : PredictionResult :=
  let sleepNeedData := getMetricData "sleep need (min)" in
  let sleepDurationData := getMetricData "asleep duration (min)" in
  if ((List.length sleepNeedData <? 5)
      || (List.length sleepDurationData <? 5))%nat then
    insufficient sleep_debt "current" "Insufficient sleep data"
  else
    let recentDeficit := div (sum (slice0 3 weeklyDeficits)) (ofZ 3) in
    let projectedDebtInWeek :=
      add actualCurrentDebt (mul recentDeficit (ofZ 7)) in
    let confidence :=
      calculateConfidence [sleepNeedData; sleepDurationData] in
    let currentDebtHours := div actualCurrentDebt (ofZ 60) in
    let projectedDebtHours := div projectedDebtInWeek (ofZ 60) in
    {| type := sleep_debt;
       prediction := round projectedDebtInWeek;
       confidence := confidence;
       timeframe := "current & 1 week projection";
       reasoning :=
         "Current debt: " +++ signed currentDebtHours
           +++ JSConv.toFixed 1 currentDebtHours
           +++ "h. Recent avg deficit: "
           +++ JSConv.toFixed 1 (div recentDeficit (ofZ 60))
           +++ "h/day. Projected: " +++ signed projectedDebtHours
           +++ JSConv.toFixed 1 projectedDebtHours +++ "h";
       recommendations := sleepDebtRecommendations actualCurrentDebt |}.

(** ** predictPerformanceReadiness *)

Definition predictPerformanceReadiness : PredictionResult :=
  let recoveryData := getMetricData "recovery score %" in
  let hrvData := getMetricData "heart rate variability (ms)" in
  let strainData := getMetricData "day strain" in
  if (List.length recoveryData <? 5)%nat then
    insufficient performance "next 3 days" "Insufficient performance data"
  else
    let avgRecovery := mean_n 5 recoveryData in
    let hrvTrend :=
      if (5 <=? List.length hrvData)%nat
      then calculateTrend (slice0 5 hrvData) else pzero in
    let recentStrain := mean_n 3 strainData in
    let readiness := avgRecovery in
    let readiness :=
      if gtb hrvTrend (dec 1 (-1)) then add readiness (ofZ 5)
      else if ltb hrvTrend (dec (-1) (-1)) then sub readiness (ofZ 5)
      else readiness in
    let readiness :=
      if gtb recentStrain (ofZ 16) then sub readiness (ofZ 10)
      else if ltb recentStrain (ofZ 9) then add readiness (ofZ 5)
      else readiness in
    let readiness := max pzero (min (ofZ 100) readiness) in
    let confidence :=
      calculateConfidence [recoveryData; hrvData; strainData] in
    let recommendations :=
      if gtb readiness (ofZ 80) then
        [ "Excellent performance window";
          "Consider peak intensity training";
          "Your body is primed for performance" ]
      else if gtb readiness (ofZ 60) then
        [ "Good for moderate-high intensity";
          "Listen to your body during training";
          "Maintain current recovery practices" ]
      else
        [ "Focus on active recovery";
          "Avoid high intensity training";
          "Prioritize sleep and nutrition" ] in
    {| type := performance;
       prediction := round readiness;
       confidence := confidence;
       timeframe := "next 3 days";
       reasoning :=
         "Recovery trend: " +++ JSConv.toFixed 1 avgRecovery
           +++ "%, HRV trend: "
           +++ (if gtb hrvTrend pzero then "improving" else "stable")
           +++ ", Recent strain: " +++ JSConv.toFixed 1 recentStrain;
       recommendations := recommendations |}.

(** ** assessInjuryRisk *)

(** The state of the scan: [consecutiveRiskDays] and [riskScore]. *)
Definition ScanState : Type := (nat * number)%type.

(** One turn of the [for] loop, on day [i]. *)
Definition scanDay (st : ScanState) (strain_i recovery_i : number)
  : ScanState :=
  let '(consecutiveRiskDays, riskScore) := st in
  if gtb strain_i (ofZ 14) && ltb recovery_i (ofZ 50) then
    (S consecutiveRiskDays, add riskScore (ofZ 15))
  else (O, riskScore).

(** The loop over [i < Math.min(7, recoveryData.length,
    strainData.length)]. *)
Fixpoint scan (days : nat) (recoveryData strainData : list number)
         (st : ScanState) : ScanState :=
  match days, recoveryData, strainData with
  | S k, r :: recoveryData', s :: strainData' =>
      scan k recoveryData' strainData' (scanDay st s r)
  | _, _, _ => st
  end.

(** The score after the scan and the bonus that follows the loop. *)
Definition strainRecoveryRisk (recoveryData strainData : list number)
  : ScanState :=
  let days := Nat.min 7 (Nat.min (List.length recoveryData)
                                 (List.length strainData)) in
  let '(consecutiveRiskDays, riskScore) :=
    scan days recoveryData strainData (O, pzero) in
  if (3 <=? consecutiveRiskDays)%nat
  then (consecutiveRiskDays, add riskScore (ofZ 25))
  else (consecutiveRiskDays, riskScore).

Definition assessInjuryRisk : PredictionResult :=
  let recoveryData := getMetricData "recovery score %" in
  let strainData := getMetricData "day strain" in
  let hrvData := getMetricData "heart rate variability (ms)" in
  if ((List.length recoveryData <? 7)
      || (List.length strainData <? 7))%nat then
    insufficient injury_risk "next 2 weeks"
                 "Insufficient data for injury risk assessment"
  else
    let '(consecutiveRiskDays, riskScore) :=
      strainRecoveryRisk recoveryData strainData in
    let hrvTrend :=
      if (7 <=? List.length hrvData)%nat
      then calculateTrend (slice0 7 hrvData) else pzero in
    let riskScore :=
      if ltb hrvTrend (dec (-15) (-2)) then add riskScore (ofZ 20)
      else riskScore in
    let recentStrainAvg := mean_n 3 strainData in
    let weeklyStrainAvg := mean_n 7 strainData in
    let riskScore :=
      if gtb recentStrainAvg (mul weeklyStrainAvg (dec 13 (-1)))
      then add riskScore (ofZ 15) else riskScore in
    let riskScore := min (ofZ 100) riskScore in
    let confidence :=
      calculateConfidence [recoveryData; strainData; hrvData] in
    let recommendations :=
      if gtb riskScore (ofZ 70) then
        [ "HIGH INJURY RISK - Consider rest days";
          "Focus heavily on recovery protocols";
          "Avoid high-intensity training";
          "Consider consulting a healthcare provider" ]
      else if gtb riskScore (ofZ 40) then
        [ "Moderate injury risk detected";
          "Increase recovery focus";
          "Reduce training intensity temporarily";
          "Monitor for pain or unusual fatigue" ]
      else
        [ "Low injury risk";
          "Current training load appears sustainable";
          "Continue monitoring strain-recovery balance" ] in
    {| type := injury_risk;
       prediction := round riskScore;
       confidence := confidence;
       timeframe := "next 2 weeks";
       reasoning :=
         JSString.ofNat consecutiveRiskDays
           +++ " consecutive high-risk days, HRV trend: "
           +++ (if ltb hrvTrend pzero then "declining" else "stable")
           +++ ", strain pattern analysis";
       recommendations := recommendations |}.

(** ** generatePredictions *)

Definition allPredictions : list PredictionResult :=
  [ predictRecoveryScore; predictSleepDebt; predictPerformanceReadiness;
    assessInjuryRisk ].

Definition generatePredictions : list PredictionResult :=
  filter (fun p => gtb (confidence p) (dec 6 (-1))) allPredictions.

End WithData.

(** [new PredictiveAnalytics(data).generatePredictions()]. *)
Definition predictionsFor (data : list object) : list PredictionResult :=
  generatePredictions (slice0 30 data).

End PredictiveAnalytics.

(* ================================================================== *)
(** * PredictiveAnalytics.getTrendAnalysis (unnamed/part_001) *)
(* ================================================================== *)

Module TrendReport.
Import JSNumber JSValue PredictiveAnalytics.

Inductive TrendDirection : Type := improving | declining | stable.

Record TrendAnalysis : Type := mkTrendAnalysis {
  metric : string;
  trend : TrendDirection;
  changeRate : number;
  significance : number
}.

Definition metrics : list string :=
  [ "recovery score %"; "sleep performance %"; "heart rate variability (ms)";
    "day strain"; "resting heart rate (bpm)" ].

(** [Math.round(x * 10) / 10]. *)
Definition round1 (x : number) : number := div (round (mul x (ofZ 10))) (ofZ 10).

(** The callback of the [map] over the metric names. *)
Definition analyse (data : list object) (metricName : string) : TrendAnalysis :=
  let values := getMetricData data metricName in
  if (List.length values <? 7)%nat then
    {| metric := metricName; trend := stable;
       changeRate := pzero; significance := pzero |}
  else
    let slope := calculateTrend (slice0 14 values) in
    let recentAvg := div (sum (slice0 7 values)) (ofZ 7) in
    let change := mul (div (mul slope (ofZ 7)) recentAvg) (ofZ 100) in
    let signif := abs change in
    let direction :=
      if gtb signif (ofZ 5) then
        if JSString.mem metricName
             [ "recovery score %"; "sleep performance %";
               "heart rate variability (ms)" ]
        then (if gtb change pzero then improving else declining)
        else if JSString.mem metricName
                  [ "day strain"; "resting heart rate (bpm)" ]
        then (if ltb change pzero then improving else declining)
        else stable
      else stable in
    {| metric := metricName; trend := direction;
       changeRate := round1 change; significance := round1 signif |}.

Definition getTrendAnalysis (data : list object) : list TrendAnalysis :=
  filter (fun analysis => gtb (significance analysis) (ofZ 2))
         (map (analyse data) metrics).

End TrendReport.


(* ================================================================== *)
(** * GoalSetting: suggestions, the goal list and the insights
      (src/services/goalSetting.ts) *)
(* ================================================================== *)

Module GoalStore.
Import JSNumber JSValue GoalSetting.

(** The fields a suggestion fills in of a [Partial<Goal>]. *)
Record Suggestion : Type := mkSuggestion {
  s_type : GoalType;
  s_title : string;
  s_description : string;
  s_targetValue : number;
  s_unit : string;
  s_timeframe : Timeframe
}.

Record GoalProgress : Type := mkGoalProgress {
  goalId : string;
  date : string;
  value : number;
  notes : option string
}.

(** [this.goals] and [this.progress]. *)
Record Store : Type := mkStore {
  goals : list Goal;
  progress : list GoalProgress
}.

Definition lengthOf {A : Type} (l : list A) : number :=
  ofZ (Z.of_nat (List.length l)).

Definition calculateVariance (data : list number) : number :=
  let mean := div (sum data) (lengthOf data) in
  div (fold_left (fun s val => add s (square (sub val mean))) data pzero)
      (lengthOf data).

Definition trendEqb (a b : Trend) : bool :=
  match a, b with
  | improving, improving | declining, declining | stable, stable => true
  | _, _ => false
  end.

(** [a.findIndex(p)], [None] for -1, and [a.splice(i, 1)]. *)
Fixpoint findIndex {A : Type} (p : A -> bool) (l : list A) : option nat :=
  match l with
  | [] => None
  | x :: r => if p x then Some O else option_map S (findIndex p r)
  end.

Definition splice1 {A : Type} (i : nat) (l : list A) : list A :=
  firstn i l ++ skipn (S i) l.

Section WithData.
Variable data : list object.

Definition getMetricData (metricName : string) : list number :=
  filter (fun val => negb (isNaN val))
         (map (fun row => parseFloat (get row metricName)) data).

(** ** getSuggestedGoals *)

Definition recoverySuggestion (currentRecovery : number) : Suggestion :=
  {| s_type := recovery;
     s_title := "Improve Recovery Score";
     s_description := "Reach green recovery zone more consistently";
     s_targetValue := min (ofZ 80) (add currentRecovery (ofZ 15));
     s_unit := "%";
     s_timeframe := weekly |}.

Definition sleepSuggestion (currentSleep : number) : Suggestion :=
  {| s_type := sleep;
     s_title := "Optimize Sleep Performance";
     s_description := "Improve sleep efficiency and quality";
     s_targetValue := min (ofZ 90) (add currentSleep (ofZ 10));
     s_unit := "%";
     s_timeframe := weekly |}.

Definition hrvSuggestion (currentHRV : number) : Suggestion :=
  {| s_type := hrv;
     s_title := "Increase HRV";
     s_description := "Build cardiovascular resilience";
     s_targetValue := round (mul currentHRV (dec 11 (-1)));
     s_unit := "ms";
     s_timeframe := monthly |}.

Definition consistencySuggestion : Suggestion :=
  {| s_type := sleep;
     s_title := "Sleep Consistency";
     s_description := "Maintain more consistent sleep schedule";
     s_targetValue := ofZ 85;
     s_unit := "% consistency";
     s_timeframe := weekly |}.

Definition strainSuggestion : Suggestion :=
  {| s_type := strain;
     s_title := "Manage Training Load";
     s_description := "Balance high strain with adequate recovery";
     s_targetValue := ofZ 13;
     s_unit := "avg strain";
     s_timeframe := weekly |}.

(** The suggestions are pushed in this order. *)
Definition getSuggestedGoals : list Suggestion :=
  let currentRecovery := getCurrentValue data recovery in
  let currentSleep := getCurrentValue data sleep in
  let currentHRV := getCurrentValue data hrv in
  let sleepData := getMetricData "sleep performance %" in
  let strainData := getMetricData "day strain" in
  (if ltb currentRecovery (ofZ 70)
   then [recoverySuggestion currentRecovery] else [])
  ++ (if ltb currentSleep (ofZ 85)
      then [sleepSuggestion currentSleep] else [])
  ++ [hrvSuggestion currentHRV]
  ++ (if (7 <=? List.length sleepData)%nat then
        if gtb (calculateVariance (firstn 7 sleepData)) (ofZ 100)
        then [consistencySuggestion] else []
      else [])
  ++ (if (7 <=? List.length strainData)%nat then
        let avgStrain := div (sum (firstn 7 strainData)) (ofZ 7) in
        if gtb avgStrain (ofZ 15) then [strainSuggestion] else []
      else []).

(** ** createGoal *)

(** [newId] is what [generateId] draws, [created] and [now] the time
    stamps read from the clock. The goal is pushed first and updated in
    place afterwards, so the list holds the updated goal. *)
Definition createGoal (newId created now : string)
    (t : GoalType) (ttl descr : string) (target : number) (u : string)
    (tf : Timeframe) (due : option string) (st : Store) : Store * Goal :=
  let goal :=
    {| id := newId; type := t; title := ttl; description := descr;
       targetValue := target; currentValue := getCurrentValue data t;
       unit := u; timeframe := tf; targetDate := due; isActive := true;
       GoalSetting.progress := pzero; trend := stable; recommendations := [];
       createdDate := created; lastUpdated := created |} in
  let goal := updateGoalProgress data now goal in
  ({| goals := goals st ++ [goal]; progress := progress st |}, goal).

(** ** Reading and deleting goals *)

Definition getActiveGoals (st : Store) : list Goal :=
  filter isActive (goals st).

Definition getGoal (i : string) (st : Store) : option Goal :=
  find (fun goal => String.eqb (id goal) i) (goals st).

Definition deleteGoal (i : string) (st : Store) : Store * bool :=
  match findIndex (fun goal => String.eqb (id goal) i) (goals st) with
  | None => (st, false)
  | Some goalIndex =>
      ({| goals := splice1 goalIndex (goals st);
          progress :=
            filter (fun p => negb (String.eqb (goalId p) i)) (progress st) |},
       true)
  end.

(** ** updateAllGoals *)

(** The [forEach]: every active goal is updated in place. [clock i] is
    the time stamp read while the goal at position [i] is updated. *)
Fixpoint refreshFrom (i : nat) (clock : nat -> string) (l : list Goal)
  : list Goal :=
  match l with
  | [] => []
  | goal :: r =>
      (if isActive goal then updateGoalProgress data (clock i) goal else goal)
      :: refreshFrom (S i) clock r
  end.

Definition updateAllGoals (clock : nat -> string) (st : Store)
  : Store * list Goal :=
  let st' := {| goals := refreshFrom 0 clock (goals st);
                progress := progress st |} in
  (st', getActiveGoals st').

End WithData.

(** ** getGoalInsights *)

Record Insights : Type := mkInsights {
  totalGoals : nat;
  activeGoals : nat;
  completedGoals : nat;
  averageProgress : number;
  topPerformingGoal : option Goal;
  needsAttention : list Goal
}.

Definition better (top : option Goal) (goal : Goal) : option Goal :=
  match top with
  | None => Some goal
  | Some t =>
      if gtb (GoalSetting.progress goal) (GoalSetting.progress t)
      then Some goal else top
  end.

Definition getGoalInsights (st : Store) : Insights :=
  let active := getActiveGoals st in
  let completed :=
    filter (fun goal => geb (GoalSetting.progress goal) (ofZ 100)) active in
  let average :=
    if (0 <? List.length active)%nat
    then div (fold_left (fun s goal => add s (GoalSetting.progress goal))
                        active pzero)
             (lengthOf active)
    else pzero in
  {| totalGoals := List.length (goals st);
     activeGoals := List.length active;
     completedGoals := List.length completed;
     averageProgress := round average;
     topPerformingGoal := fold_left better active None;
     needsAttention :=
       filter (fun goal => ltb (GoalSetting.progress goal) (ofZ 30)
                           || trendEqb (trend goal) declining) active |}.

End GoalStore.

(* ================================================================== *)
(** * DataLoader.parseCSVLine (src/services/dataLoader.ts) *)
(* ================================================================== *)

Module DataLoader.
Import JSString.

Definition quoteChar : ascii := ascii_of_N 34.
Definition commaChar : ascii := ","%char.

(** [s.replace(/^"|"$/g, '')]: a quote that starts the string and a quote
    that ends it are removed. *)
Definition dropLeadingQuote (s : string) : string :=
  match s with
  | String c r => if Ascii.eqb c quoteChar then r else s
  | EmptyString => s
  end.

Fixpoint dropTrailingQuote (s : string) : string :=
  match s with
  | EmptyString => EmptyString
  | String c r =>
      match r with
      | EmptyString => if Ascii.eqb c quoteChar then EmptyString else s
      | String _ _ => String c (dropTrailingQuote r)
      end
  end.

(** What is pushed for the characters collected in [current]. *)
Definition field (current : string) : string :=
  dropTrailingQuote (dropLeadingQuote (trim current)).

(** The loop over the characters of the line, with its three variables,
    and the push that follows it. *)
Fixpoint scanLine (line current : string) (inQuotes : bool)
         (result : list string) : list string :=
  match line with
  | EmptyString => result ++ [field current]
  | String char rest =>
      if Ascii.eqb char quoteChar then
        scanLine rest current (negb inQuotes) result
      else if Ascii.eqb char commaChar && negb inQuotes then
        scanLine rest EmptyString inQuotes (result ++ [field current])
      else
        scanLine rest (current +++ String char EmptyString) inQuotes result
  end.

Definition parseCSVLine (line : string) : list string :=
  scanLine line EmptyString false [].

End DataLoader.

(* ================================================================== *)
(** * RAGService: the context summaries (unnamed/part_000) *)
(* ================================================================== *)

Module RAGContext.
Import JSNumber JSValue RAGService.

Definition nl : string := String (ascii_of_N 10) EmptyString.

(** ** The object [dataByMetric] *)

(** The own properties of the object, in the order of their creation. *)
Definition Groups : Type := list (string * list DataPoint).

(** What the object literal [{}] inherits from [Object.prototype]. Under
    each of these keys a read finds a function ([__proto__]: the
    prototype itself), which is truthy and has no [push]. *)
Definition inheritedKeys : list string :=
  [ "constructor"; "hasOwnProperty"; "isPrototypeOf"; "propertyIsEnumerable";
    "toLocaleString"; "toString"; "valueOf"; "__proto__";
    "__defineGetter__"; "__defineSetter__"; "__lookupGetter__";
    "__lookupSetter__" ].

Definition hasOwn (key : string) (acc : Groups) : bool :=
  existsb (fun kv => String.eqb (fst kv) key) acc.

(** [acc[key].push(data)] for an own property. *)
Fixpoint pushTo (key : string) (data : DataPoint) (acc : Groups) : Groups :=
  match acc with
  | [] => []
  | (k, points) :: r =>
      if String.eqb k key then (k, points ++ [data]) :: r
      else (k, points) :: pushTo key data r
  end.

(** The callback of the [reduce]; [None] is the [TypeError] of a [push]
    on something that is no array. *)
Definition groupStep (acc : Groups) (data : DataPoint) : option Groups :=
  let key := metric (metadata data) in
  if hasOwn key acc then Some (pushTo key data acc)
  else if JSString.mem key inheritedKeys then None
  else Some (acc ++ [(key, [data])]).

Fixpoint groupFrom (acc : Groups) (l : list DataPoint) : option Groups :=
  match l with
  | [] => Some acc
  | data :: r =>
      match groupStep acc data with
      | Some acc' => groupFrom acc' r
      | None => None
      end
  end.

Definition groupByMetric (relevantData : list DataPoint) : option Groups :=
  groupFrom [] relevantData.

(** ** Object.keys *)

(** The array index a key is, if it is one: a decimal numeral without a
    leading zero that is at most 2^32 - 2. *)
Fixpoint allDigits (s : string) : bool :=
  match s with
  | EmptyString => true
  | String c r => isDigit c && allDigits r
  end.

Fixpoint numeral (s : string) (acc : Z) : Z :=
  match s with
  | EmptyString => acc
  | String c r => numeral r (10 * acc + digitVal c)
  end.

Definition arrayIndex (key : string) : option Z :=
  match key with
  | EmptyString => None
  | String c r =>
      if allDigits key
         && (negb (Ascii.eqb c "0"%char) || String.eqb r EmptyString)
         && (String.length key <=? 10)%nat
         && (numeral key 0 <=? 4294967294)
      then Some (numeral key 0) else None
  end.

Fixpoint insertIndex (x : Z * string) (l : list (Z * string))
  : list (Z * string) :=
  match l with
  | [] => [x]
  | y :: r => if fst x <=? fst y then x :: l else y :: insertIndex x r
  end.

Definition indexKeys (keys : list string) : list (Z * string) :=
  fold_right (fun k acc => match arrayIndex k with
                           | Some i => insertIndex (i, k) acc
                           | None => acc
                           end) [] keys.

(** [Object.keys(o)]: the array indices in ascending order, then the other
    keys in the order of their creation. *)
Definition objectKeys (o : Groups) : list string :=
  map snd (indexKeys (map fst o))
  ++ filter (fun k => match arrayIndex k with Some _ => false | None => true end)
            (map fst o).

Definition lookup (key : string) (o : Groups) : list DataPoint :=
  match find (fun kv => String.eqb (fst kv) key) o with
  | Some kv => snd kv
  | None => []
  end.

(** ** The two summaries *)

(** The text that both methods build, given the heading of the summary
    and the line of a data point. *)
Definition sectionOf (lineOf : string -> DataPoint -> string)
           (o : Groups) (key : string) : string :=
  "**" +++ key +++ ":**" +++ nl
  +++ String.concat "" (map (lineOf key) (lookup key o)) +++ nl.

Definition summaryText (heading : string)
           (lineOf : string -> DataPoint -> string) (o : Groups) : string :=
  heading +++ String.concat "" (map (sectionOf lineOf o) (objectKeys o)).

Definition contextWith (heading : string)
           (lineOf : string -> DataPoint -> string)
           (knowledgeBase : list DataPoint) (query : string)
  : option (list DataPoint * string) :=
  let relevantData := retrieveRelevantData knowledgeBase query 8 in
  match groupByMetric relevantData with
  | Some o => Some (relevantData, JSString.trim (summaryText heading lineOf o))
  | None => None
  end.

(** *** generateRAGContext *)

Definition plainHeading : string :=
  "Relevant data from your health records:" +++ nl +++ nl.

(** The line without the line feed that ends it. *)
Definition plainEntry (point : DataPoint) : string :=
  "- " +++ content point +++ " (Source: "
       +++ toString (source (metadata point)) +++ ")".

Definition plainLine (key : string) (point : DataPoint) : string :=
  plainEntry point +++ nl.

Definition generateRAGContext (knowledgeBase : list DataPoint) (query : string)
  : option (list DataPoint * string) :=
  contextWith plainHeading plainLine knowledgeBase query.

(** *** analyzeMetricValue and generateEnhancedRAGContext *)

Definition analyzeMetricValue (metricName : string) (v : number) : string :=
  let metricLower := JSString.toLowerCase metricName in
  if JSString.includes metricLower "recovery" then
    if geb v (ofZ 67) then "Green (High Recovery - ready for higher strain)"
    else if geb v (ofZ 34)
    then "Yellow (Moderate Recovery - moderate activity recommended)"
    else "Red (Low Recovery - prioritize rest)"
  else if JSString.includes metricLower "sleep performance" then
    if geb v (ofZ 80) then "Good (meeting sleep needs)"
    else "Below optimal (sleep optimization recommended)"
  else if JSString.includes metricLower "strain" then
    if geb v (ofZ 18) then "All-out exertion (18-21)"
    else if geb v (ofZ 14) then "High exertion (14-17)"
    else if geb v (ofZ 10) then "Moderate exertion (10-13)"
    else "Light exertion (0-9)"
  else if JSString.includes metricLower "efficiency" then
    if geb v (ofZ 85) then "Optimal sleep efficiency"
    else "Room for sleep efficiency improvement"
  else if JSString.includes metricLower "oxygen" then
    if geb v (ofZ 95) then "Normal blood oxygen levels"
    else "Below optimal blood oxygen (may indicate sleep/breathing issues)"
  else JSConv.toString v.

Definition enhancedHeading : string :=
  "Your personal Whoop health data with metric interpretation (most recent data points listed first):"
  +++ nl +++ nl.

Definition interpretationOf (key : string) (point : DataPoint) : string :=
  let v := parseFloatString (value (metadata point)) in
  if negb (isNaN v) then analyzeMetricValue key v
  else value (metadata point).

Definition enhancedEntry (key : string) (point : DataPoint) : string :=
  "- " +++ content point +++ " [" +++ interpretationOf key point
       +++ "] (Source: " +++ toString (source (metadata point)) +++ ")".

Definition enhancedLine (key : string) (point : DataPoint) : string :=
  enhancedEntry key point +++ nl.

Definition generateEnhancedRAGContext (knowledgeBase : list DataPoint)
           (query : string) : option (list DataPoint * string) :=
  contextWith enhancedHeading enhancedLine knowledgeBase query.

End RAGContext.
(* ================================================================== *)
(** * Sample inputs *)
(* ================================================================== *)

Module Samples.
Import JSNumber JSValue.

(** A strain goal, the only lower-is-better kind, with its table. *)
Definition strainGoal (target previous : Z) : GoalSetting.Goal :=
  GoalSetting.mkGoal "g1" GoalSetting.strain "Manage Training Load"
    "Balance high strain with adequate recovery" (ofZ target) (ofZ previous)
    "avg strain" GoalSetting.weekly None true pzero GoalSetting.stable []
    "2025-03-01T08:00:00.000Z" "2025-03-01T08:00:00.000Z".

Definition strainTable (latest : Z) : list object :=
  [ [("day strain", VNumber (ofZ latest))] ].

(** A goal card for a lower-is-better metric. *)
Definition strainCard (current baseline target : Z) : GoalsComponent.SmartGoal :=
  GoalsComponent.mkSmartGoal "strain" "Day Strain" (ofZ current)
    (ofZ baseline) (ofZ target) "" (ofZ 30) true GoalsComponent.lower
    "Balance training load with recovery." GoalsComponent.medium.

Definition stamp : string := "2025-03-02T08:00:00.000Z".

(** Eight days of recovery scores; only the oldest row carries a date. *)
Definition plainRow (score : Z) : object :=
  [("recovery score %", VNumber (ofZ score))].

Definition datedRow (day : string) (score : Z) : object :=
  [("recovery score %", VNumber (ofZ score)); ("date", VString day)].

Definition eightDays : list object :=
  [ plainRow 71; plainRow 64; plainRow 58; plainRow 80; plainRow 77;
    plainRow 69; plainRow 52; datedRow "2024-01-15" 66 ].

(** Rows with a sleep surplus and with a fractional duration. *)
Definition surplusRow : object := [("sleep debt (min)", VNumber (ofZ (-30)))].
Definition shortNapRow : object :=
  [("asleep duration (min)", VNumber (dec 5975 (-2)))].




(** A table with a wordy column header, and a plain one. *)
Definition wordyRow : object :=
  [("sleep debt deficit surplus need owe behind excess balance",
    VNumber (ofZ 1));
   ("sleep debt (min)", VNumber (ofZ 45))].

Definition plainDebtRow : object :=
  [("sleep debt (min)", VNumber (ofZ 45));
   ("recovery score %", VNumber (ofZ 66))].

Definition wordyKB : list RAGService.DataPoint :=
  RAGService.buildKnowledgeBase [wordyRow] [].

Definition plainKB : list RAGService.DataPoint :=
  RAGService.buildKnowledgeBase [plainDebtRow] [].

(** The facts [plainKB] holds: the field fact of the sleep debt, the one
    of the recovery score, the tracking fact. *)
Definition plainDebtFact : RAGService.DataPoint :=
  RAGService.mkDataPoint "most recently, your sleep debt (min) was 0h 45m"
    (RAGService.mkMetadata (VString "day 1") "sleep debt (min)" "0h 45m"
       (VString "csv_data") (Some 0)).

Definition plainRecoveryFact : RAGService.DataPoint :=
  RAGService.mkDataPoint "most recently, your recovery score % was 66"
    (RAGService.mkMetadata (VString "day 1") "recovery score %" "66"
       (VString "csv_data") (Some 0)).

Definition plainTrackingFact : RAGService.DataPoint :=
  RAGService.trackingFact 0 plainDebtRow.

Definition plainTrendFact : RAGService.DataPoint :=
  RAGService.analysisFact [plainDebtRow].

(** The two facts [wordyKB] puts first on the query "sleep debt". *)
Definition wordyFieldFact : RAGService.DataPoint :=
  RAGService.mkDataPoint
    "most recently, your sleep debt deficit surplus need owe behind excess balance was 0h 1m"
    (RAGService.mkMetadata (VString "day 1")
       "sleep debt deficit surplus need owe behind excess balance" "0h 1m"
       (VString "csv_data") (Some 0)).

Definition wordyTrackingFact : RAGService.DataPoint :=
  RAGService.trackingFact 0 wordyRow.

(** Two weeks of readings, most recent first. *)
Definition numbers (l : list Z) : list number := map ofZ l.

Definition recovery14 : list number :=
  numbers [60; 70; 60; 70; 60; 70; 65; 65; 65; 65; 65; 65; 65; 65].

Definition strain14 : list number :=
  numbers [10; 10; 10; 10; 10; 10; 10; 10; 10; 10; 10; 10; 10; 10].

Definition sleep14 : list number :=
  numbers [80; 80; 80; 80; 80; 80; 80; 80; 80; 80; 80; 80; 80; 80].

(** A week of rows with recovery, strain and sleep readings. *)
Definition dayRow (recovery strain : Z) : object :=
  [("recovery score %", VNumber (ofZ recovery));
   ("day strain", VNumber (ofZ strain))].

(** Three hard days on a low recovery, the most recent ones, after four
    easy days. *)
Definition hardDaysLast : list object :=
  [ dayRow 40 15; dayRow 40 15; dayRow 40 15;
    dayRow 60 10; dayRow 60 10; dayRow 60 10; dayRow 60 10 ].

(** The same days in the opposite order: the hard days are the oldest. *)
Definition hardDaysFirst : list object :=
  [ dayRow 60 10; dayRow 60 10; dayRow 60 10; dayRow 60 10;
    dayRow 40 15; dayRow 40 15; dayRow 40 15 ].

(** Rows with sleep need, sleep duration and a recorded debt. *)
Definition sleepRow (need asleep debt : Z) : object :=
  [("sleep need (min)", VNumber (ofZ need));
   ("asleep duration (min)", VNumber (ofZ asleep));
   ("sleep debt (min)", VNumber (ofZ debt))].

Definition zeroDebtWeek : list object :=
  [ sleepRow 480 450 0; sleepRow 480 450 20; sleepRow 480 450 35;
    sleepRow 480 450 40; sleepRow 480 450 45; sleepRow 480 450 50;
    sleepRow 480 450 55 ].

Definition threeDays : list object :=
  [ dayRow 55 12; dayRow 61 9; dayRow 48 15 ].

End Samples.

(* ================================================================== *)
(** * More sample inputs *)
(* ================================================================== *)

Module MoreSamples.
Import JSNumber JSValue Samples.

Definition eightDaysKB : list RAGService.DataPoint :=
  RAGService.buildKnowledgeBase eightDays [].

(** A table whose newest row has no sleep-debt reading, and one whose
    reading is text. *)
Definition debtRow (debt : Z) : object :=
  [("sleep debt (min)", VNumber (ofZ debt))].

Definition skippedNight : list object :=
  [ Samples.plainRow 71; debtRow 45; debtRow 10 ].

Definition unreadableDebtRow : object :=
  [("sleep debt (min)", VString "n/a"); ("_source_file", VString "sleeps.csv")].

(** Two weeks of steady readings. *)
Definition steadyRow : object :=
  [("recovery score %", VNumber (ofZ 60)); ("day strain", VNumber (ofZ 10));
   ("sleep performance %", VNumber (ofZ 80))].

Definition steadyWeeks : list object := repeat steadyRow 14.

(** A recovery goal, an HRV goal whose target is 0, and stores of goals. *)
Definition recoveryGoal (target previous : Z) : GoalSetting.Goal :=
  GoalSetting.mkGoal "g2" GoalSetting.recovery "Improve Recovery Score"
    "Reach green recovery zone more consistently" (ofZ target) (ofZ previous)
    "%" GoalSetting.weekly None true pzero GoalSetting.stable []
    "2025-03-01T08:00:00.000Z" "2025-03-01T08:00:00.000Z".

Definition emptyStore : GoalStore.Store := GoalStore.mkStore [] [].

Definition twoGoals : GoalStore.Store :=
  GoalStore.mkStore
    [ Samples.strainGoal 12 18; recoveryGoal 80 60 ]
    [ GoalStore.mkGoalProgress "g1" "2025-03-01" (ofZ 18) None;
      GoalStore.mkGoalProgress "g2" "2025-03-01" (ofZ 60) None ].

Definition stalledStore : GoalStore.Store :=
  fst (GoalStore.createGoal Samples.eightDays "g3" Samples.stamp Samples.stamp
         GoalSetting.hrv "Increase HRV" "Build cardiovascular resilience"
         pzero "ms" GoalSetting.monthly None emptyStore).

Definition stalledGoal : GoalSetting.Goal :=
  snd (GoalStore.createGoal Samples.eightDays "g3" Samples.stamp Samples.stamp
         GoalSetting.hrv "Increase HRV" "Build cardiovascular resilience"
         pzero "ms" GoalSetting.monthly None emptyStore).

(** A table with a column named like a method every object inherits. *)
Definition inheritedRow : object := [("constructor", VNumber (ofZ 5))].

Definition inheritedKB : list RAGService.DataPoint :=
  RAGService.buildKnowledgeBase [inheritedRow] [].

(** The facts of a single row that is a week old. *)
Definition weekOldKB : list RAGService.DataPoint :=
  RAGService.csvFactsFrom 7 [Samples.datedRow "2024-01-15" 66].

End MoreSamples.

(* ================================================================== *)
(** * Shapes of the rendered facts *)
(* ================================================================== *)

Module Shapes.
Import JSNumber JSValue RAGService.

(** The phrases that stand for a row of the seven most recent ones and
    for a night of the sleep-debt pass. *)
Definition relativePhrase (index : nat) : string :=
  match index with
  | O => "most recently"
  | S O => "recently"
  | _ => "in recent days"
  end.

Definition nightPhrase (index : nat) : string :=
  match index with
  | O => "most recent night"
  | S O => "1 day ago"
  | _ => JSString.ofNat index +++ " days ago"
  end.

(** A field of a row that the pass over the rows turns into a fact. *)
Definition rendered (row : object) (key : string) : Prop :=
  In key (keys row) /\ key <> "_source_file"
  /\ truthy (get row key) = true
  /\ JSString.trim (toString (get row key)) <> "".

(** What a fact of the field [key] of the row [row] at [index] carries
    besides its content. *)
Definition fieldMetadata (index : nat) (row : object) (key : string)
  : Metadata :=
  {| date := dateLabel index row;
     metric := key;
     value := formatValue key (get row key);
     source := orVal (get row "_source_file") (VString "csv_data");
     recency := Some (Z.of_nat index) |}.

(** The wording of a sleep debt, and of the total and the average of the
    trend. *)
Definition debtWording (record : object) : string :=
  (if geb (debtOf record) pzero then "+" else "")
    +++ JSConv.toFixed 1 (div (abs (debtOf record)) (ofZ 60))
    +++ " hours (" +++ debtStatus (debtOf record) +++ ")".

Definition trendWording (entries : list object) : string :=
  let totalDebt :=
    fold_left (fun sum record => add sum (debtOf record)) entries pzero in
  let avgDailyDebt := div totalDebt (ofZ (Z.of_nat (List.length entries))) in
  JSConv.toFixed 1 (div totalDebt (ofZ 60)) +++ " hours total, "
    +++ JSConv.toFixed 1 (div avgDailyDebt (ofZ 60))
    +++ " hours average daily (" +++ trendStatus avgDailyDebt +++ ")".

(** The facts of the knowledge base with their wordings; [csvData] and
    [dynamicMetrics] are the two arguments of the build. Each fact is
    tied to the row, the dashboard metric or the sleep-debt entries it is
    built from: a fact of one of the seven most recent rows opens with
    the relative phrase of its own index, a fact of an older row with
    "On" and the date of its own row, or "day N" when the row has none. *)
Inductive FactForm (csvData : list object)
          (dynamicMetrics : list DynamicMetric) : DataPoint -> Prop :=
| form_relative index row key :
    nth_error csvData index = Some row ->
    rendered row key ->
    (index < 7)%nat ->
    FactForm csvData dynamicMetrics
      {| content := relativePhrase index +++ ", your " +++ key +++ " was "
                      +++ formatValue key (get row key);
         metadata := fieldMetadata index row key |}
| form_dated index row key :
    nth_error csvData index = Some row ->
    rendered row key ->
    (7 <= index)%nat ->
    truthy (get row "date") = true ->
    FactForm csvData dynamicMetrics
      {| content := "On " +++ toString (get row "date") +++ ", your " +++ key
                      +++ " was " +++ formatValue key (get row key);
         metadata := fieldMetadata index row key |}
| form_numbered index row key :
    nth_error csvData index = Some row ->
    rendered row key ->
    (7 <= index)%nat ->
    truthy (get row "date") = false ->
    FactForm csvData dynamicMetrics
      {| content := "On day " +++ JSString.ofNat (index + 1) +++ ", your "
                      +++ key +++ " was " +++ formatValue key (get row key);
         metadata := fieldMetadata index row key |}
| form_current m :
    In m dynamicMetrics ->
    FactForm csvData dynamicMetrics
      {| content := "Your current " +++ dm_title m +++ " is " +++ dm_value m
                      +++ " - " +++ dm_subtitle m;
         metadata := metadata (dynamicFact m) |}
| form_tracking index record :
    nth_error (filter hasSleepDebt csvData) index = Some record ->
    (index < 7)%nat ->
    FactForm csvData dynamicMetrics
      {| content := "Sleep debt " +++ nightPhrase index +++ ": "
                      +++ debtWording record;
         metadata := metadata (trackingFact index record) |}
| form_trend :
    filter hasSleepDebt csvData <> [] ->
    FactForm csvData dynamicMetrics
      {| content := "Sleep debt 7-day trend: "
                      +++ trendWording (firstn 7 (filter hasSleepDebt csvData));
         metadata :=
           metadata (analysisFact (firstn 7 (filter hasSleepDebt csvData))) |}.

(** The claim that no fact shows the date of a row: whatever non-empty
    date label a row of the table has, no [content] contains it. *)
Definition noCalendarDate (csvData : list object)
           (dynamicMetrics : list DynamicMetric) : Prop :=
  forall dp row d,
    In dp (buildKnowledgeBase csvData dynamicMetrics) ->
    In row csvData ->
    get row "date" = VString d -> d <> "" ->
    JSString.includes (content dp) d = false.


Definition isTracking (dp : DataPoint) : bool :=
  isString (source (metadata dp)) "sleep_debt_tracking".

Definition isDebtSource (dp : DataPoint) : bool :=
  isTracking dp || isString (source (metadata dp)) "sleep_debt_analysis".

(** The claim on the ranking: in a result list no sleep-debt tracking
    fact comes after a fact that has neither of the two sleep-debt
    sources. *)
Definition trackingFirst (results : list DataPoint) : Prop :=
  forall l1 g l2,
    results = l1 ++ g :: l2 ->
    isDebtSource g = false ->
    forall f, In f l2 -> isTracking f = false.

(** The order of a ranked list: no item scores more than one before it. *)
Definition descending (a b : DataPoint * Z) : Prop := snd b <= snd a.

End Shapes.

(* ================================================================== *)
(** * The helpers as the specification words them *)
(* ================================================================== *)

Module SpecWords.
Import JSNumber JSValue PredictiveAnalytics.

(** The confidence helper in the words of the specification: the
    coefficient of variation is the standard deviation divided by the
    mean. Everything else is as in [calculateConfidence]. *)
Definition varianceStepSpec (confidence : number) (data : list number)
  : number :=
  if (3 <? List.length data)%nat then
    let stdev := sqrt (calculateVariance (slice0 7 data)) in
    let mean := div (sum (slice0 7 data)) (lengthOf (slice0 7 data)) in
    let cv := div stdev mean in
    if gtb cv (dec 3 (-1)) then mul confidence (dec 8 (-1)) else confidence
  else confidence.

Definition calculateConfidenceSpec (datasets : list (list number)) : number :=
  let totalDataPoints :=
    fold_left (fun s data => add s (lengthOf data)) datasets pzero in
  let avgDataPoints := div totalDataPoints (lengthOf datasets) in
  let confidence := min (dec 9 (-1)) (div avgDataPoints (ofZ 14)) in
  let confidence := fold_left varianceStepSpec datasets confidence in
  max (dec 5 (-1)) (min (dec 95 (-2)) confidence).

(** The scan of the injury-risk assessment in the words of the
    specification: the state also records whether the counter has
    reached 3 at some point, and the bonus of 25 is given once for
    that. *)
Definition scanDaySpec (st : nat * number * bool)
           (strain_i recovery_i : number) : nat * number * bool :=
  let '(consecutiveRiskDays, riskScore, reached) := st in
  if gtb strain_i (ofZ 14) && ltb recovery_i (ofZ 50) then
    (S consecutiveRiskDays, add riskScore (ofZ 15),
     reached || (3 <=? S consecutiveRiskDays)%nat)
  else (O, riskScore, reached).

Fixpoint scanSpec (days : nat) (recoveryData strainData : list number)
         (st : nat * number * bool) : nat * number * bool :=
  match days, recoveryData, strainData with
  | S k, r :: recoveryData', s :: strainData' =>
      scanSpec k recoveryData' strainData' (scanDaySpec st s r)
  | _, _, _ => st
  end.

Definition strainRecoveryRiskSpec (recoveryData strainData : list number)
  : number :=
  let days := Nat.min 7 (Nat.min (List.length recoveryData)
                                 (List.length strainData)) in
  let '(_, riskScore, reached) :=
    scanSpec days recoveryData strainData (O, pzero, false) in
  let riskScore := if reached then add riskScore (ofZ 25) else riskScore in
  max pzero (min (ofZ 100) riskScore).

End SpecWords.

(* ================================================================== *)
(** * Closed forms and checks used by the further properties *)
(* ================================================================== *)

Module ClosedForms.
Import JSNumber JSValue PredictiveAnalytics.

(** Structural equality of two numbers. *)
Definition numEq (x y : number) : bool :=
  match x, y with
  | S754_zero s, S754_zero t => Bool.eqb s t
  | S754_infinity s, S754_infinity t => Bool.eqb s t
  | S754_nan, S754_nan => true
  | S754_finite s m e, S754_finite t n f =>
      Bool.eqb s t && Pos.eqb m n && Z.eqb e f
  | _, _ => false
  end.

(** The integers from 0 to 200. *)
Definition small : list Z := map Z.of_nat (seq 0 201).

(** The amounts the injury-risk assessment adds to its score. *)
Definition increments : list Z := [15; 20; 25].

(** Adding an increment to a small integer, the cap at 100 and the
    rounding of a small integer are exact. *)
Definition smallSumsExact : bool :=
  forallb (fun a => forallb (fun b => numEq (add (ofZ a) (ofZ b)) (ofZ (a + b)))
                            increments) small.

Definition smallCapExact : bool :=
  forallb (fun a => numEq (min (ofZ 100) (ofZ a)) (ofZ (Z.min 100 a))
                    && numEq (round (ofZ a)) (ofZ a)) small.

(** A scanned day of the injury-risk assessment, as the pair of its
    recovery and its strain, and the test the scan makes on it. *)
Definition riskyDay (day : number * number) : bool :=
  gtb (snd day) (ofZ 14) && ltb (fst day) (ofZ 50).

Definition scannedDays (recoveryData strainData : list number)
  : list (number * number) :=
  firstn 7 (combine recoveryData strainData).

Definition riskyCount (days : list (number * number)) : nat :=
  List.length (filter riskyDay days).

(** The length of the longest run of days that pass [p] at the head of a
    list. *)
Fixpoint leadingRun {A : Type} (p : A -> bool) (l : list A) : nat :=
  match l with
  | x :: r => if p x then S (leadingRun p r) else O
  | [] => O
  end.

(** The run of risky days that ends with the last scanned day, which is
    the oldest one. *)
Definition oldestRun (days : list (number * number)) : nat :=
  leadingRun riskyDay (rev days).

End ClosedForms.


(* ================================================================== *)
(** * Classes of numbers *)
(* ================================================================== *)

Module NumberClasses.
Import JSNumber.

(** Zero of either sign, a positive finite number or [+Infinity]. *)
Definition nonneg (x : number) : bool :=
  match x with
  | S754_nan => false
  | S754_zero _ => true
  | S754_infinity s | S754_finite s _ _ => negb s
  end.

(** A finite number that is not zero. *)
Definition finiteNonzero (x : number) : bool :=
  match x with S754_finite _ _ _ => true | _ => false end.

(** A positive finite number. *)
Definition finitePos (x : number) : bool :=
  match x with S754_finite false _ _ => true | _ => false end.

(** Zero or a finite number: [Number.isFinite]. *)
Definition isFinite (x : number) : bool :=
  match x with S754_zero _ | S754_finite _ _ _ => true | _ => false end.

(** [lo <= x <= hi]. *)
Definition within (lo hi x : number) : bool := leb lo x && leb x hi.

(** The sign a rounded result carries. *)
Definition hasSign (s : bool) (x : number) : Prop :=
  match x with
  | S754_zero t | S754_infinity t | S754_finite t _ _ => t = s
  | S754_nan => False
  end.

End NumberClasses.

(* ================================================================== *)
(** * Writing a CSV line *)
(* ================================================================== *)

Module CsvWriter.
Import DataLoader.

Fixpoint hasChar (c : ascii) (s : string) : bool :=
  match s with
  | EmptyString => false
  | String d r => Ascii.eqb d c || hasChar c r
  end.

(** A field that can be written: it holds no quote and has no white space
    at either end. *)
Definition writable (f : string) : bool :=
  negb (hasChar quoteChar f) && String.eqb (JSString.trim f) f.

(** A field of ASCII characters only. On such text the white space that
    [trim] removes is the tab, the line feed, the vertical tab, the form
    feed, the carriage return and the space, as in [JSString.isWhite]. *)
Fixpoint asciiOnly (s : string) : bool :=
  match s with
  | EmptyString => true
  | String c r => (N_of_ascii c <? 128)%N && asciiOnly r
  end.

(** A field between quotes, and a line of fields separated by commas. *)
Definition quoted (f : string) : string :=
  String quoteChar (f +++ String quoteChar EmptyString).

Definition joinFields (fields : list string) : string :=
  String.concat "," fields.

(** The commas of a line that lie outside quotes. *)
Fixpoint separators (inQuotes : bool) (line : string) : nat :=
  match line with
  | EmptyString => O
  | String c r =>
      if Ascii.eqb c quoteChar then separators (negb inQuotes) r
      else if Ascii.eqb c commaChar && negb inQuotes
           then S (separators inQuotes r)
           else separators inQuotes r
  end.

End CsvWriter.

(* ================================================================== *)
(** * Invariants of the loops over goals and data points *)
(* ================================================================== *)

Module LoopInvariants.
Import JSNumber JSValue GoalSetting GoalStore RAGService RAGContext.

(** What the scan for the best goal keeps: a goal that was seen and that
    none of the goals seen beats. *)
Definition unbeaten (seen : list Goal) (top : option Goal) : Prop :=
  match top with
  | None => seen = []
  | Some t =>
      In t seen
      /\ forall g, In g seen ->
           gtb (GoalSetting.progress g) (GoalSetting.progress t) = false
  end.

Definition keyOf (d : DataPoint) : string := metric (metadata d).

(** What the [reduce] keeps true of the object it builds from the data
    points [seen] so far. *)
Definition grouped (acc : Groups) (seen : list DataPoint) : Prop :=
  NoDup (map fst acc)
  /\ (forall k, lookup k acc
                = filter (fun d => String.eqb (keyOf d) k) seen)
  /\ (forall k, In k (map fst acc) <-> exists d, In d seen /\ keyOf d = k).

(** [t] occurs in [s]. *)
Definition occursIn (t s : string) : Prop :=
  exists pre post, s = pre +++ t +++ post.

End LoopInvariants.
(* ================================================================== *)
(** * Facts on numbers *)
(* ================================================================== *)

Module NumberFacts.
Import JSNumber.

(** ** Comparisons *)

Lemma SFcompare_antisym x y :
  SFcompare y x = option_map CompOpp (SFcompare x y).
Proof.
  destruct x as [sx|sx| |sx mx ex], y as [sy|sy| |sy my ey]; simpl;
    try reflexivity;
    try (destruct sx; reflexivity); try (destruct sy; reflexivity);
    try (destruct sx, sy; reflexivity).
  destruct sx, sy; simpl; try reflexivity;
    rewrite (Z.compare_antisym ex ey);
    destruct (ex ?= ey); simpl; try reflexivity;
    rewrite (Pos.compare_cont_antisym mx my Eq); reflexivity.
Qed.

(** [x > y] excludes [x <= y]. *)
Lemma gtb_not_leb x y : gtb x y = true -> leb x y = false.
Proof.
  unfold gtb, leb, SFltb, SFleb. rewrite (SFcompare_antisym y x).
  destruct (SFcompare y x) as [[| |]|]; simpl; congruence.
Qed.

(** The clamp [Math.max(0, Math.min(100, x))] yields [NaN] on [NaN] and a
    number from 0 to 100 on everything else. *)
Lemma clamp_NaN_or_in_range x :
  let p := max pzero (min (ofZ 100) x) in
  (x = NaN /\ p = NaN)
  \/ (leb pzero p = true /\ leb p (ofZ 100) = true).
Proof.
  cbv zeta.
  assert (Hh : ofZ 100 = S754_finite false 7036874417766400 (-46))
    by reflexivity.
  assert (Hmax : max pzero (ofZ 100) = ofZ 100) by reflexivity.
  assert (Hle : leb pzero (ofZ 100) = true /\ leb (ofZ 100) (ofZ 100) = true
                /\ leb pzero pzero = true)
    by (repeat split; reflexivity).
  unfold min. destruct (SFcompare (ofZ 100) x) as [[| |]|] eqn:E.
  - right. replace (match ofZ 100 with S754_zero false => x | _ => ofZ 100 end)
      with (ofZ 100) by (rewrite Hh; reflexivity).
    rewrite Hmax. tauto.
  - right. rewrite Hmax. tauto.
  - pose proof (SFcompare_antisym (ofZ 100) x) as Hx. rewrite E in Hx.
    cbn [option_map CompOpp] in Hx.
    unfold max. destruct (SFcompare pzero x) as [[| |]|] eqn:E0.
    + right. simpl. tauto.
    + right. unfold leb, SFleb. rewrite E0, Hx. tauto.
    + right. tauto.
    + destruct x; simpl in E0; discriminate.
  - left. destruct x as [s|s| |s m e]; try (split; reflexivity);
      rewrite Hh in E; simpl in E; try discriminate;
      destruct s; discriminate.
Qed.
End NumberFacts.

(* ================================================================== *)
(** * Properties of goal progress *)
(* ================================================================== *)

Module GoalProperties.
Import JSNumber JSValue GoalSetting Samples NumberFacts.

(** [progress] only depends on the type, the target and the current
    value read from the table. *)
Lemma progress_updateGoalProgress data now g :
  progress (updateGoalProgress data now g)
  = computeProgress (type g) (targetValue g) (getCurrentValue data (type g)).
Proof. reflexivity. Qed.

(** C1. For a lower-is-better (strain) goal, whose baseline is 20, with
    target 10: the progress computed at current value 10 is 0 and at
    current value 20 it is 100; only the midpoint 15 gives 50. The
    quotient [(target - current) / (target - baseline)] runs the wrong
    way: reaching the target yields 0, staying at the baseline 100. The
    goal cards compute [(baseline - current) / (baseline - target)] and
    show 100, 0 and 50 for the same three values. *)
Theorem strain_progress_runs_backwards data now g :
  type g = strain ->
  targetValue g = ofZ 10 ->
  getBaselineValue (type g) = ofZ 20
  /\ (getCurrentValue data strain = ofZ 10 ->
      progress (updateGoalProgress data now g) = pzero)
  /\ (getCurrentValue data strain = ofZ 20 ->
      progress (updateGoalProgress data now g) = ofZ 100)
  /\ (getCurrentValue data strain = ofZ 15 ->
      progress (updateGoalProgress data now g) = ofZ 50)
  /\ GoalsComponent.calculateProgress (strainCard 10 20 10) = ofZ 100
  /\ GoalsComponent.calculateProgress (strainCard 20 20 10) = pzero
  /\ GoalsComponent.calculateProgress (strainCard 15 20 10) = ofZ 50.
Proof.
  intros Ht Hv. rewrite progress_updateGoalProgress, Ht, Hv.
  repeat split; try (intros ->); vm_compute; reflexivity.
Qed.

Lemma strain_progress_runs_backwards_witness :
  progress (updateGoalProgress (strainTable 10) stamp (strainGoal 10 18))
  = pzero
  /\ progress (updateGoalProgress (strainTable 20) stamp (strainGoal 10 18))
     = ofZ 100.
Proof.
  split.
  - apply (strain_progress_runs_backwards (strainTable 10) stamp
             (strainGoal 10 18)); vm_compute; reflexivity.
  - apply (strain_progress_runs_backwards (strainTable 20) stamp
             (strainGoal 10 18)); vm_compute; reflexivity.
Defined.

(** C2. The clamp keeps every progress that is a number between 0 and
    100, but it lets [NaN] through: the progress is [NaN] or lies in
    [0, 100]. It is [NaN] for a strain goal whose target equals the
    baseline 20 on a day whose strain is 20 as well, where the quotient
    is 0/0; the same happens to a higher-is-better goal with target 0 and
    current value 0. The goal cards test [target >= baseline] before
    they divide and show 100 there. *)
Theorem progress_is_NaN_on_zero_by_zero data now g :
  (progress (updateGoalProgress data now g) = NaN
   \/ (leb pzero (progress (updateGoalProgress data now g)) = true
       /\ leb (progress (updateGoalProgress data now g)) (ofZ 100) = true))
  /\ (type g = strain -> targetValue g = ofZ 20 ->
      getCurrentValue data strain = ofZ 20 ->
      progress (updateGoalProgress data now g) = NaN)
  /\ (type g = recovery -> targetValue g = pzero ->
      getCurrentValue data recovery = pzero ->
      progress (updateGoalProgress data now g) = NaN)
  /\ GoalsComponent.calculateProgress (strainCard 20 20 20) = ofZ 100.
Proof.
  split; [|split; [|split]]; [| | |reflexivity].
  - rewrite progress_updateGoalProgress. unfold computeProgress.
    destruct (type g);
      match goal with
      | |- context [min (ofZ 100) ?x] =>
          destruct (clamp_NaN_or_in_range x) as [[_ H] | H]
      end; auto.
  - intros Ht Hv Hc.
    rewrite progress_updateGoalProgress, Ht, Hv, Hc. vm_compute. reflexivity.
  - intros Ht Hv Hc.
    rewrite progress_updateGoalProgress, Ht, Hv, Hc. vm_compute. reflexivity.
Qed.

Lemma progress_is_NaN_on_zero_by_zero_witness :
  progress (updateGoalProgress (strainTable 20) stamp (strainGoal 20 18)) = NaN
  /\ leb pzero NaN = false /\ leb NaN (ofZ 100) = false.
Proof.
  split; [ | split; reflexivity ].
  apply (proj1 (proj2 (progress_is_NaN_on_zero_by_zero (strainTable 20)
                         stamp (strainGoal 20 18))));
    vm_compute; reflexivity.
Defined.

End GoalProperties.
(* ================================================================== *)
(** * Properties of the knowledge-base build *)
(* ================================================================== *)

Module BuildProperties.
Import JSNumber JSValue RAGService Shapes Samples.

(** ** What one field adds *)

Lemma fieldFact_Some index row key dp :
  fieldFact index row key = Some dp ->
  key <> "_source_file"
  /\ truthy (get row key) = true
  /\ JSString.trim (toString (get row key)) <> ""
  /\ content dp
     = fieldContent index row key (formatValue key (get row key))
  /\ metric (metadata dp) = key
  /\ value (metadata dp) = formatValue key (get row key)
  /\ recency (metadata dp) = Some (Z.of_nat index).
Proof.
  unfold fieldFact.
  destruct (String.eqb_spec key "_source_file") as [|Hk]; [discriminate|].
  destruct (truthy (get row key)); simpl; [|discriminate].
  destruct (String.eqb_spec (JSString.trim (toString (get row key))) "")
    as [|Hb]; simpl; [discriminate|].
  intros [= <-]. simpl. repeat split; assumption.
Qed.

Lemma fieldFact_intro index row key :
  key <> "_source_file" ->
  truthy (get row key) = true ->
  JSString.trim (toString (get row key)) <> "" ->
  exists dp, fieldFact index row key = Some dp.
Proof.
  intros Hk Ht Hb. unfold fieldFact.
  destruct (String.eqb_spec key "_source_file"); [contradiction|].
  rewrite Ht.
  destruct (String.eqb_spec (JSString.trim (toString (get row key))) "");
    [contradiction|].
  simpl. eexists; reflexivity.
Qed.


Lemma In_rowFacts index row dp :
  In dp (rowFacts index row) <->
  exists key, In key (keys row) /\ fieldFact index row key = Some dp.
Proof.
  unfold rowFacts. rewrite in_flat_map.
  split; intros [key [Hk H]]; exists key; split; trivial.
  - destruct (fieldFact index row key) as [dp'|]; simpl in H.
    + destruct H as [->|[]]. reflexivity.
    + contradiction.
  - rewrite H. left. reflexivity.
Qed.

Lemma In_csvFactsFrom start csvData dp :
  In dp (csvFactsFrom start csvData) <->
  exists i row, nth_error csvData i = Some row
                /\ In dp (rowFacts (start + i) row).
Proof.
  revert start. induction csvData as [|row rest IH]; intros start; simpl.
  - split; [contradiction|]. intros [[|i] [r [H _]]]; discriminate.
  - rewrite in_app_iff, IH. split.
    + intros [H | [i [r [Hn H]]]].
      * exists 0%nat, row. rewrite Nat.add_0_r. split; trivial.
      * exists (S i), r. rewrite Nat.add_succ_r. split; trivial.
    + intros [[|i] [r [Hn H]]]; simpl in Hn.
      * injection Hn as <-. rewrite Nat.add_0_r in H. left; trivial.
      * right. exists i, r. rewrite Nat.add_succ_r in H. split; trivial.
Qed.

Lemma In_csvFacts csvData dp :
  In dp (csvFacts csvData) <->
  exists index row key,
    nth_error csvData index = Some row /\ In key (keys row)
    /\ fieldFact index row key = Some dp.
Proof.
  unfold csvFacts. rewrite In_csvFactsFrom. simpl.
  split.
  - intros [i [row [Hn H]]]. apply In_rowFacts in H as [key [Hk H]].
    exists i, row, key. auto.
  - intros [i [row [key [Hn [Hk H]]]]]. exists i, row. split; trivial.
    apply In_rowFacts. exists key. auto.
Qed.

(** ** Durations *)

(** C3. A duration-like field that holds a number of minutes [m] is
    rendered as [Math.floor(m / 60)], "h ", [Math.round(m % 60)], "m".
    The hours are as claimed, the minutes need not lie in 0..59: for a
    sleep surplus of 30 minutes, stored as -30, the fact reads
    "-1h -30m"; for 59.75 minutes it reads "0h 60m". *)
Theorem duration_minutes_leave_range index row :
  (forall key,
      isDurationKey key = true ->
      isNaN (parseFloat (get row key)) = false ->
      formatValue key (get row key)
      = JSConv.toString (floor (div (parseFloat (get row key)) (ofZ 60)))
          +++ "h "
          +++ JSConv.toString (round (rem (parseFloat (get row key)) (ofZ 60)))
          +++ "m")
  /\ (get row "sleep debt (min)" = VNumber (ofZ (-30)) ->
      exists dp, fieldFact index row "sleep debt (min)" = Some dp
                 /\ value (metadata dp) = "-1h -30m")
  /\ (get row "asleep duration (min)" = VNumber (dec 5975 (-2)) ->
      exists dp, fieldFact index row "asleep duration (min)" = Some dp
                 /\ value (metadata dp) = "0h 60m").
Proof.
  split; [|split]; [intros key Hk Hn | intros H | intros H].
  - unfold formatValue. rewrite Hk, Hn. reflexivity.
  - destruct (fieldFact_intro index row "sleep debt (min)") as [dp Hdp].
    + discriminate.
    + rewrite H. reflexivity.
    + rewrite H. vm_compute. discriminate.
    + exists dp. split; trivial.
      apply fieldFact_Some in Hdp as (_ & _ & _ & _ & _ & Hv & _).
      rewrite Hv, H. vm_compute. reflexivity.
  - destruct (fieldFact_intro index row "asleep duration (min)") as [dp Hdp].
    + discriminate.
    + rewrite H. reflexivity.
    + rewrite H. vm_compute. discriminate.
    + exists dp. split; trivial.
      apply fieldFact_Some in Hdp as (_ & _ & _ & _ & _ & Hv & _).
      rewrite Hv, H. vm_compute. reflexivity.
Qed.

Lemma duration_minutes_leave_range_witness :
  (exists dp, fieldFact 0 surplusRow "sleep debt (min)" = Some dp
              /\ value (metadata dp) = "-1h -30m")
  /\ (exists dp, fieldFact 0 shortNapRow "asleep duration (min)" = Some dp
                 /\ value (metadata dp) = "0h 60m").
Proof.
  split.
  - apply (proj1 (proj2 (duration_minutes_leave_range 0 surplusRow))).
    reflexivity.
  - apply (proj2 (proj2 (duration_minutes_leave_range 0 shortNapRow))).
    reflexivity.
Defined.

(** ** Falsy values *)

Lemma In_trackingFactsFrom start entries dp :
  In dp (trackingFactsFrom start entries) ->
  exists i record, nth_error entries i = Some record
                   /\ dp = trackingFact (start + i) record.
Proof.
  revert start. induction entries as [|record rest IH]; intros start; simpl.
  - contradiction.
  - intros [<- | H].
    + exists 0%nat, record. rewrite Nat.add_0_r. auto.
    + apply IH in H as (i & r & Hn & ->).
      exists (S i), r. rewrite Nat.add_succ_r. auto.
Qed.

Lemma trackingFactsFrom_nth entries : forall start i record,
  nth_error entries i = Some record ->
  In (trackingFact (start + i) record) (trackingFactsFrom start entries).
Proof.
  induction entries as [|e rest IH]; intros start [|i] record H;
    cbn [nth_error] in H; try discriminate; cbn [trackingFactsFrom].
  - injection H as <-. rewrite Nat.add_0_r. left. reflexivity.
  - right. rewrite Nat.add_succ_r. apply (IH (S start) i record H).
Qed.








(** ** Temporal wording *)

Lemma timeContextOf_recent index :
  (index < 7)%nat ->
  In (timeContextOf index) ["most recently"; "recently"; "in recent days"]
  /\ String.eqb (timeContextOf index) "" = false.
Proof.
  intros H.
  do 7 (destruct index as [|index]; [simpl; tauto|]). lia.
Qed.

Lemma timeContextOf_older index :
  (7 <= index)%nat -> timeContextOf index = "".
Proof.
  intros H.
  do 7 (destruct index as [|index]; [lia|]). reflexivity.
Qed.

Lemma sleepDebtEntries_length csvData :
  (List.length (sleepDebtEntries csvData) <= 7)%nat.
Proof. unfold sleepDebtEntries. apply firstn_le_length. Qed.

Lemma timeContextOf_relativePhrase index :
  (index < 7)%nat -> timeContextOf index = relativePhrase index.
Proof.
  intros H.
  do 7 (destruct index as [|index]; [reflexivity|]). lia.
Qed.

Lemma timeRef_nightPhrase index : timeRef index = nightPhrase index.
Proof.
  destruct index as [|[|index]]; reflexivity.
Qed.

(** A fact of the pass over the rows, spelled out. *)
Lemma fieldFact_eq index row key dp :
  fieldFact index row key = Some dp <->
  key <> "_source_file"
  /\ truthy (get row key) = true
  /\ JSString.trim (toString (get row key)) <> ""
  /\ dp = {| content := fieldContent index row key
                          (formatValue key (get row key));
             metadata := fieldMetadata index row key |}.
Proof.
  unfold fieldFact. cbv zeta.
  destruct (String.eqb_spec key "_source_file") as [Hk|Hk].
  - split; [discriminate|]. intros (H & _). contradiction.
  - destruct (truthy (get row key)); cbn [andb].
    + destruct (String.eqb_spec (JSString.trim (toString (get row key))) "")
        as [Hb|Hb]; cbn [negb].
      * split; [discriminate|]. intros (_ & _ & H & _). contradiction.
      * split.
        -- intros [= <-]. repeat split; assumption.
        -- intros (_ & _ & _ & ->). reflexivity.
    + split; [discriminate|]. intros (_ & H & _). discriminate.
Qed.

Lemma fieldContent_recent index row key formatted :
  (index < 7)%nat ->
  fieldContent index row key formatted
  = relativePhrase index +++ ", your " +++ key +++ " was " +++ formatted.
Proof.
  intros H. unfold fieldContent. cbv zeta.
  destruct (timeContextOf_recent index H) as [_ Hne]. rewrite Hne.
  rewrite (timeContextOf_relativePhrase index H). reflexivity.
Qed.

Lemma fieldContent_older index row key formatted :
  (7 <= index)%nat ->
  fieldContent index row key formatted
  = if truthy (get row "date")
    then "On " +++ toString (get row "date") +++ ", your " +++ key
           +++ " was " +++ formatted
    else "On day " +++ JSString.ofNat (index + 1) +++ ", your " +++ key
           +++ " was " +++ formatted.
Proof.
  intros H. unfold fieldContent. cbv zeta.
  rewrite (timeContextOf_older index H). cbn [String.eqb negb].
  unfold dateLabel, orVal. destruct (truthy (get row "date")); reflexivity.
Qed.

Lemma trackingFact_eq index record :
  trackingFact index record
  = {| content := "Sleep debt " +++ nightPhrase index +++ ": "
                    +++ debtWording record;
       metadata := metadata (trackingFact index record) |}.
Proof.
  unfold trackingFact, debtWording. cbv zeta. cbn [metadata].
  rewrite timeRef_nightPhrase. reflexivity.
Qed.

Lemma analysisFact_eq entries :
  analysisFact entries
  = {| content := "Sleep debt 7-day trend: " +++ trendWording entries;
       metadata := metadata (analysisFact entries) |}.
Proof. reflexivity. Qed.

Lemma firstn_nil_iff {A : Type} (l : list A) : firstn 7 l = [] <-> l = [].
Proof.
  destruct l; cbn; split; intros H; (reflexivity || discriminate).
Qed.

(** C4, as the build has it. The knowledge base holds exactly the facts
    of six forms, each tied to what it is built from. A fact of the field
    [key] of the row at an [index] below 7 reads "most recently, your
    [key] was [value]" for index 0, "recently, ..." for index 1 and "in
    recent days, ..." for the indices 2 to 6. A fact of a row at index 7
    or later reads "On [date], your [key] was [value]" with the literal
    date of that row when it has a truthy one, and "On day [index + 1],
    ..." otherwise. The facts of the dashboard metrics read "Your current
    ...", the tracking fact of the night at position [index] among the
    rows with a sleep-debt reading reads "Sleep debt most recent night",
    "Sleep debt 1 day ago" or "Sleep debt [index] days ago", and the trend
    fact "Sleep debt 7-day trend". Key and rendered value are copied into
    the content as they are. *)
Theorem content_wordings csvData dynamicMetrics dp :
  In dp (buildKnowledgeBase csvData dynamicMetrics)
  <-> FactForm csvData dynamicMetrics dp.
Proof.
  unfold buildKnowledgeBase. rewrite !in_app_iff. split.
  - intros [Hcsv | [Hdyn | Hdebt]].
    + apply In_csvFacts in Hcsv as (i & r & k & Hn & Hk & Hf).
      apply fieldFact_eq in Hf as (Hs & Ht & Hb & ->).
      assert (Hr : rendered r k) by (repeat split; assumption).
      destruct (Nat.lt_ge_cases i 7) as [Hlt | Hge].
      * rewrite (fieldContent_recent i r k _ Hlt).
        apply form_relative; assumption.
      * rewrite (fieldContent_older i r k _ Hge).
        destruct (truthy (get r "date")) eqn:Hd.
        -- apply form_dated; assumption.
        -- apply form_numbered; assumption.
    + apply in_map_iff in Hdyn as (m & <- & Hm).
      apply (form_current csvData dynamicMetrics m Hm).
    + unfold sleepDebtFacts, sleepDebtEntries in Hdebt. cbv zeta in Hdebt.
      destruct (firstn 7 (filter hasSleepDebt csvData)) as [|e es] eqn:He;
        [contradiction|].
      apply in_app_iff in Hdebt as [Ht | [<- | []]].
      * apply In_trackingFactsFrom in Ht as (i & record & Hn & ->).
        cbn [Nat.add]. rewrite trackingFact_eq.
        rewrite <- He, nth_error_firstn in Hn.
        destruct (i <? 7)%nat eqn:Hi; [|discriminate].
        apply Nat.ltb_lt in Hi. apply form_tracking; assumption.
      * rewrite <- He, analysisFact_eq. apply form_trend.
        intros Hnil. rewrite Hnil in He. discriminate.
  - intros H. destruct H as [index row key Hn (Hk & Hs & Ht & Hb) Hlt
                            |index row key Hn (Hk & Hs & Ht & Hb) Hge Hd
                            |index row key Hn (Hk & Hs & Ht & Hb) Hge Hd
                            |m Hm
                            |index record Hn Hlt
                            |Hne].
    + left. apply In_csvFacts. exists index, row, key.
      split; [exact Hn|]. split; [exact Hk|]. apply fieldFact_eq.
      rewrite (fieldContent_recent index row key _ Hlt). tauto.
    + left. apply In_csvFacts. exists index, row, key.
      split; [exact Hn|]. split; [exact Hk|]. apply fieldFact_eq.
      rewrite (fieldContent_older index row key _ Hge), Hd. tauto.
    + left. apply In_csvFacts. exists index, row, key.
      split; [exact Hn|]. split; [exact Hk|]. apply fieldFact_eq.
      rewrite (fieldContent_older index row key _ Hge), Hd. tauto.
    + right. left. apply in_map_iff. exists m. split; [reflexivity|exact Hm].
    + right. right. unfold sleepDebtFacts, sleepDebtEntries. cbv zeta.
      assert (Hf : nth_error (firstn 7 (filter hasSleepDebt csvData)) index
                   = Some record).
      { rewrite nth_error_firstn. apply Nat.ltb_lt in Hlt. rewrite Hlt.
        exact Hn. }
      destruct (firstn 7 (filter hasSleepDebt csvData)) as [|e es] eqn:He.
      * destruct index; discriminate.
      * apply in_or_app. left. rewrite <- trackingFact_eq.
        apply (trackingFactsFrom_nth (e :: es) 0 index record Hf).
    + right. right. unfold sleepDebtFacts, sleepDebtEntries. cbv zeta.
      destruct (firstn 7 (filter hasSleepDebt csvData)) as [|e es] eqn:He.
      * exfalso. apply Hne. apply firstn_nil_iff. exact He.
      * apply in_or_app. right. left. reflexivity.
Qed.

Lemma content_wordings_witness :
  FactForm eightDays []
    {| content := "On 2024-01-15, your recovery score % was 66";
       metadata := fieldMetadata 7 (datedRow "2024-01-15" 66)
                     "recovery score %" |}.
Proof.
  apply (proj1 (content_wordings eightDays [] _)).
  vm_compute. tauto.
Defined.

(** The claim of C4 fails on [eightDays]: the fact built from the
    eighth row shows the date of that row. *)
Lemma older_rows_show_their_date : ~ noCalendarDate eightDays [].
Proof.
  intros H.
  assert (Hin : In (mkDataPoint "On 2024-01-15, your recovery score % was 66"
                      (mkMetadata (VString "2024-01-15") "recovery score %"
                         "66" (VString "csv_data") (Some 7)))
                   (buildKnowledgeBase eightDays [])).
  { vm_compute. tauto. }
  specialize (H _ (datedRow "2024-01-15" 66) "2024-01-15" Hin).
  assert (Hfalse : JSString.includes
                     "On 2024-01-15, your recovery score % was 66"
                     "2024-01-15" = false).
  { apply H.
    - vm_compute. tauto.
    - reflexivity.
    - discriminate. }
  vm_compute in Hfalse. discriminate.
Qed.

End BuildProperties.
(* ================================================================== *)
(** * Properties of the retrieval *)
(* ================================================================== *)

Module RetrieveProperties.
Import JSNumber JSValue RAGService Shapes Samples.

(** ** The sort *)

Lemma In_insertByScore x y l :
  In y (insertByScore x l) <-> y = x \/ In y l.
Proof.
  induction l as [|z r IH]; simpl.
  - intuition.
  - destruct (snd z <=? snd x); simpl.
    + intuition.
    + rewrite IH. intuition.
Qed.

Lemma In_sortByScore y l : In y (sortByScore l) <-> In y l.
Proof.
  induction l as [|x r IH]; simpl.
  - reflexivity.
  - rewrite In_insertByScore, IH. intuition.
Qed.

Lemma insertByScore_sorted x l :
  StronglySorted descending l -> StronglySorted descending (insertByScore x l).
Proof.
  induction 1 as [|z r Hs IH Hall]; simpl.
  - constructor; constructor.
  - destruct (Z.leb_spec (snd z) (snd x)) as [Hle | Hgt].
    + constructor.
      * constructor; assumption.
      * constructor; [exact Hle|].
        eapply Forall_impl; [|exact Hall].
        unfold descending. intros a Ha. lia.
    + constructor; [exact IH|].
      apply Forall_forall. intros a Ha.
      apply In_insertByScore in Ha as [-> | Ha].
      * unfold descending. lia.
      * rewrite Forall_forall in Hall. apply Hall. exact Ha.
Qed.

Lemma sortByScore_sorted l : StronglySorted descending (sortByScore l).
Proof.
  induction l as [|x r IH]; simpl.
  - constructor.
  - apply insertByScore_sorted. exact IH.
Qed.

Lemma sorted_after l1 x l2 :
  StronglySorted descending (l1 ++ x :: l2) ->
  forall y, In y l2 -> snd y <= snd x.
Proof.
  induction l1 as [|z r IH]; simpl; intros Hs y Hy.
  - apply StronglySorted_inv in Hs as [_ Hall].
    rewrite Forall_forall in Hall. apply Hall. exact Hy.
  - apply StronglySorted_inv in Hs as [Hs _]. eapply IH; eauto.
Qed.

(** ** The ranked list *)

Lemma In_ranked query kb item :
  In item (ranked query kb) <->
  exists dp, In dp kb /\ item = (dp, scoreOf query dp)
             /\ 0 < scoreOf query dp.
Proof.
  unfold ranked, scoredData.
  rewrite In_sortByScore, filter_In, in_map_iff. split.
  - intros [[dp [<- Hin]] Hpos]. simpl in Hpos.
    exists dp. repeat split; trivial. lia.
  - intros [dp [Hin [-> Hpos]]]. split.
    + exists dp. auto.
    + simpl. lia.
Qed.

(** ** Scores *)

Lemma b2z_nonneg b n : 0 <= n -> 0 <= b2z b n.
Proof. destruct b; simpl; lia. Qed.

Lemma wordScore_nonneg content metric word :
  0 <= wordScore content metric word.
Proof.
  unfold wordScore.
  pose proof (b2z_nonneg (JSString.includes content word) 2).
  pose proof (b2z_nonneg (JSString.includes metric word) 3).
  pose proof (b2z_nonneg (JSString.mem word (JSString.splitWhite content)) 1).
  pose proof (b2z_nonneg (JSString.mem word (JSString.splitWhite metric)) 2).
  lia.
Qed.

Lemma keywordScore_from content metric words acc :
  acc <= fold_left (fun score word => score + wordScore content metric word)
                   words acc.
Proof.
  revert acc. induction words as [|w r IH]; intros acc; simpl.
  - lia.
  - pose proof (wordScore_nonneg content metric w).
    specialize (IH (acc + wordScore content metric w)). lia.
Qed.

Lemma keywordScore_nonneg words dp : 0 <= keywordScore words dp.
Proof. unfold keywordScore. apply keywordScore_from. Qed.

Lemma temporalBoost_nonneg dp : 0 <= temporalBoost dp.
Proof.
  unfold temporalBoost. destruct (recency (metadata dp)) as [r|]; [|lia].
  destruct (r =? 0); [lia|]. destruct (r =? 1); [lia|].
  destruct (r =? 2); lia.
Qed.

(** A tracking fact gets the boost of 50 on the query "sleep debt". *)
Lemma tracking_score f :
  isTracking f = true -> 50 <= scoreOf "sleep debt" f.
Proof.
  unfold isTracking, scoreOf. intros Ht. rewrite Ht.
  change (JSString.includes (JSString.toLowerCase "sleep debt") "sleep debt")
    with true.
  cbv beta iota zeta delta [andb].
  pose proof (keywordScore_nonneg
                (expandQuery (JSString.toLowerCase "sleep debt")) f).
  pose proof (b2z_nonneg
                (isString (source (metadata f)) "sleep_debt_analysis") 45).
  pose proof (b2z_nonneg
                (isString (source (metadata f)) "current_metrics") 5).
  pose proof (b2z_nonneg
                (match recency (metadata f) with
                 | Some r => r <? 3 | None => false end) 3).
  pose proof (b2z_nonneg (isTemporalQuery (JSString.toLowerCase "sleep debt"))
                (temporalBoost f) (temporalBoost_nonneg f)).
  change (b2z true 50) with 50. lia.
Qed.

(** In the result list a fact that scores more comes first, whatever
    the query and the cut-off. *)
Lemma higher_score_comes_first query kb maxResults l1 g l2 f :
  retrieveRelevantData kb query maxResults = l1 ++ g :: l2 ->
  In f kb ->
  0 < scoreOf query f ->
  scoreOf query g < scoreOf query f ->
  In f l1 /\ ~ In f (g :: l2).
Proof.
  intros Hout Hf Hpos Hlt.
  unfold retrieveRelevantData in Hout.
  apply map_eq_app in Hout as (r1 & r2' & Hfirst & Hl1 & Hr2).
  apply map_eq_cons in Hr2 as (x & r2 & -> & Hx & Hl2).
  set (R := ranked query kb) in *.
  assert (HR : R = r1 ++ x :: (r2 ++ skipn maxResults R)).
  { rewrite <- (firstn_skipn maxResults R) at 1. rewrite Hfirst.
    rewrite <- app_assoc. reflexivity. }
  assert (Hsorted : StronglySorted descending R)
    by apply sortByScore_sorted.
  rewrite HR in Hsorted.
  assert (Hxs : snd x = scoreOf query g).
  { assert (Hin : In x R) by (rewrite HR; apply in_elt).
    apply In_ranked in Hin as (dp & _ & -> & _).
    cbn [fst] in Hx. subst dp. reflexivity. }
  assert (Hlater : forall y, In y (r2 ++ skipn maxResults R) ->
                             snd y < scoreOf query f).
  { intros y Hy. pose proof (sorted_after _ _ _ Hsorted y Hy). lia. }
  assert (Hfin : In (f, scoreOf query f) R).
  { apply In_ranked. exists f. repeat split; trivial. }
  split.
  - rewrite HR in Hfin. apply in_app_iff in Hfin as [H1 | [H2 | H3]].
    + rewrite <- Hl1. apply in_map_iff.
      exists (f, scoreOf query f). auto.
    + rewrite H2 in Hxs. cbn [snd] in Hxs. lia.
    + apply Hlater in H3. cbn [snd] in H3. lia.
  - intros [Hgf | Hin].
    + rewrite Hgf in Hlt. lia.
    + rewrite <- Hl2 in Hin. apply in_map_iff in Hin as (y & Hy & Hyin).
      assert (HyR : In y R).
      { rewrite HR. apply in_or_app. right. right.
        apply in_or_app. left. exact Hyin. }
      apply In_ranked in HyR as (dp & _ & Hdp & _).
      subst y. cbn [fst] in Hy. subst dp.
      specialize (Hlater (f, scoreOf query f)).
      cbn [snd] in Hlater.
      assert (scoreOf query f < scoreOf query f).
      { apply Hlater. apply in_or_app. left. exact Hyin. }
      lia.
Qed.

(** C7, as the ranking has it. On the query "sleep debt" a fact with
    source "sleep_debt_tracking" scores at least 50, and it is ranked
    strictly above every fact that has neither sleep-debt source and
    scores less than 50: when such a fact [g] is returned, every tracking
    fact of the knowledge base is returned before it and none after it. *)
Theorem tracking_above_scores_below_50 kb maxResults l1 g l2 :
  retrieveRelevantData kb "sleep debt" maxResults = l1 ++ g :: l2 ->
  isDebtSource g = false ->
  scoreOf "sleep debt" g < 50 ->
  forall f, In f kb -> isTracking f = true ->
    50 <= scoreOf "sleep debt" f /\ In f l1 /\ ~ In f (g :: l2).
Proof.
  intros Hout _ Hg f Hf Ht.
  pose proof (tracking_score f Ht) as Hsf.
  split; [exact Hsf|].
  apply (higher_score_comes_first "sleep debt" kb maxResults l1 g l2 f);
    trivial.
  - eapply Z.lt_le_trans; [|exact Hsf]. reflexivity.
  - eapply Z.lt_le_trans; [exact Hg|exact Hsf].
Qed.

Lemma tracking_above_scores_below_50_witness :
  50 <= scoreOf "sleep debt" plainTrackingFact
  /\ In plainTrackingFact [plainTrackingFact; plainTrendFact]
  /\ ~ In plainTrackingFact [plainDebtFact; plainRecoveryFact].
Proof.
  apply (tracking_above_scores_below_50 plainKB 10
           [plainTrackingFact; plainTrendFact] plainDebtFact
           [plainRecoveryFact]).
  - vm_compute. reflexivity.
  - vm_compute. reflexivity.
  - vm_compute. reflexivity.
  - vm_compute. tauto.
  - vm_compute. reflexivity.
Defined.

Example wordy_scores :
  scoreOf "sleep debt" wordyFieldFact = 75
  /\ scoreOf "sleep debt" wordyTrackingFact = 69.
Proof. vm_compute. split; reflexivity. Qed.

(** The claim of C7 fails on [wordyKB]: the field fact of the wordy
    column matches nine expanded terms in full, scores 75 and is returned
    first, before the tracking fact, which scores 69. *)
Lemma wordy_column_outranks_tracking :
  ~ trackingFirst (retrieveRelevantData wordyKB "sleep debt" 10).
Proof.
  intros H.
  assert (Hout : retrieveRelevantData wordyKB "sleep debt" 10
                 = [] ++ wordyFieldFact
                      :: wordyTrackingFact
                      :: skipn 2 (retrieveRelevantData wordyKB "sleep debt" 10)).
  { vm_compute. reflexivity. }
  assert (Hg : isDebtSource wordyFieldFact = false) by reflexivity.
  unfold trackingFirst in H.
  pose proof (H [] wordyFieldFact _ Hout Hg wordyTrackingFact) as H1.
  assert (Hi : In wordyTrackingFact
                  (wordyTrackingFact
                     :: skipn 2 (retrieveRelevantData wordyKB "sleep debt" 10)))
    by (left; reflexivity).
  specialize (H1 Hi).
  vm_compute in H1. discriminate.
Qed.

End RetrieveProperties.
(* ================================================================== *)
(** * Properties of the forecasts *)
(* ================================================================== *)

Module PredictProperties.
Import JSNumber JSValue PredictiveAnalytics SpecWords Samples NumberFacts.

(** ** The scan and the confidence on sample data *)

(** C5. On two weeks of readings whose recovery alternates between 60
    and 70 the variance of the last seven values is 21.4 and their mean
    65: the quotient the code compares with 0.3 is variance / mean = 0.33,
    so the confidence 0.9 is multiplied by 0.8, although the coefficient
    of variation, standard deviation / mean, is 0.07. With the
    coefficient of variation the confidence stays 0.9. *)
Theorem confidence_compares_variance_over_mean :
  calculateConfidence [recovery14; strain14; sleep14]
  = mul (dec 9 (-1)) (dec 8 (-1))
  /\ calculateConfidenceSpec [recovery14; strain14; sleep14] = dec 9 (-1)
  /\ (let variance := calculateVariance (slice0 7 recovery14) in
      let mean := div (sum (slice0 7 recovery14)) (ofZ 7) in
      gtb (div variance mean) (dec 3 (-1)) = true
      /\ gtb (div (sqrt variance) mean) (dec 3 (-1)) = false).
Proof. vm_compute. repeat split; reflexivity. Qed.

(** C6. Three days of strain above 14 on a recovery below 50, followed
    in the scan by four easy days: the counter reaches 3 and is reset to
    0 by the fourth day; the bonus is decided after the loop, on the
    final counter, and is not given. The score is 45, where a bonus for
    a counter that reached 3 at some point gives 70. With the same days
    in the opposite order the final counter is 3 and the score is 70. *)
Theorem bonus_depends_on_final_counter :
  strainRecoveryRisk (getMetricData hardDaysLast "recovery score %")
                     (getMetricData hardDaysLast "day strain")
  = (O, ofZ 45)
  /\ prediction (assessInjuryRisk hardDaysLast) = ofZ 45
  /\ strainRecoveryRiskSpec (getMetricData hardDaysLast "recovery score %")
                            (getMetricData hardDaysLast "day strain")
     = ofZ 70
  /\ prediction (assessInjuryRisk hardDaysFirst) = ofZ 70.
Proof. vm_compute. repeat split; reflexivity. Qed.

(** ** Too little data *)

Lemma generatePredictions_In data p :
  In p (generatePredictions data) <->
  In p (allPredictions data) /\ gtb (confidence p) (dec 6 (-1)) = true.
Proof. unfold generatePredictions. apply filter_In. Qed.

(** C8. A forecast whose sample is too small returns, without failing,
    the placeholder of its kind: prediction 0, confidence 0, the time
    frame and the reasoning of that forecast, no recommendations. This
    holds of the recovery forecast on fewer than 7 recovery values, of
    the injury-risk forecast on fewer than 7 recovery values or fewer
    than 7 strain values, of the sleep-debt forecast on fewer than 5
    values of sleep need or of sleep duration, and of the performance
    forecast on fewer than 5 recovery values. Every prediction that
    [generatePredictions] returns is one of the four forecasts and has a
    confidence above 0.6, none has a confidence of 0.6 or less, and no
    placeholder is among them. *)
Theorem placeholders_and_threshold data :
  ((List.length (getMetricData data "recovery score %") < 7)%nat ->
   predictRecoveryScore data
   = {| type := recovery; prediction := pzero; confidence := pzero;
        timeframe := "tomorrow"; reasoning := "Insufficient data";
        recommendations := [] |})
  /\ ((List.length (getMetricData data "recovery score %") < 7)%nat
      \/ (List.length (getMetricData data "day strain") < 7)%nat ->
      assessInjuryRisk data
      = {| type := injury_risk; prediction := pzero; confidence := pzero;
           timeframe := "next 2 weeks";
           reasoning := "Insufficient data for injury risk assessment";
           recommendations := [] |})
  /\ ((List.length (getMetricData data "sleep need (min)") < 5)%nat
      \/ (List.length (getMetricData data "asleep duration (min)") < 5)%nat ->
      predictSleepDebt data
      = {| type := sleep_debt; prediction := pzero; confidence := pzero;
           timeframe := "current"; reasoning := "Insufficient sleep data";
           recommendations := [] |})
  /\ ((List.length (getMetricData data "recovery score %") < 5)%nat ->
      predictPerformanceReadiness data
      = {| type := performance; prediction := pzero; confidence := pzero;
           timeframe := "next 3 days";
           reasoning := "Insufficient performance data";
           recommendations := [] |})
  /\ (forall t tf why,
        insufficient t tf why
        = {| type := t; prediction := pzero; confidence := pzero;
             timeframe := tf; reasoning := why; recommendations := [] |})
  /\ (forall p, In p (generatePredictions data) ->
        In p [ predictRecoveryScore data; predictSleepDebt data;
               predictPerformanceReadiness data; assessInjuryRisk data ]
        /\ gtb (confidence p) (dec 6 (-1)) = true
        /\ leb (confidence p) (dec 6 (-1)) = false)
  /\ (forall p, In p (generatePredictions data) ->
        confidence p <> pzero
        /\ forall t tf why,
             p <> {| type := t; prediction := pzero; confidence := pzero;
                     timeframe := tf; reasoning := why;
                     recommendations := [] |}).
Proof.
  split; [|split; [|split; [|split; [|split; [|split]]]]].
  - intros H. apply Nat.ltb_lt in H.
    unfold predictRecoveryScore. cbv zeta. rewrite H. reflexivity.
  - intros H. unfold assessInjuryRisk. cbv zeta.
    destruct H as [H | H]; apply Nat.ltb_lt in H; rewrite H;
      [|rewrite orb_true_r]; reflexivity.
  - intros H. unfold predictSleepDebt. cbv zeta.
    destruct H as [H | H]; apply Nat.ltb_lt in H; rewrite H;
      [|rewrite orb_true_r]; reflexivity.
  - intros H. apply Nat.ltb_lt in H.
    unfold predictPerformanceReadiness. cbv zeta. rewrite H. reflexivity.
  - reflexivity.
  - intros p H. apply generatePredictions_In in H as [Hin Hc].
    split; [exact Hin|]. split; [exact Hc|]. apply gtb_not_leb. exact Hc.
  - intros p H. apply generatePredictions_In in H as [_ Hc]. split.
    + intros E. rewrite E in Hc. vm_compute in Hc. discriminate.
    + intros t tf why E. rewrite E in Hc. vm_compute in Hc. discriminate.
Qed.

Lemma placeholders_and_threshold_witness :
  predictRecoveryScore threeDays
  = {| type := recovery; prediction := pzero; confidence := pzero;
       timeframe := "tomorrow"; reasoning := "Insufficient data";
       recommendations := [] |}
  /\ assessInjuryRisk threeDays
     = {| type := injury_risk; prediction := pzero; confidence := pzero;
          timeframe := "next 2 weeks";
          reasoning := "Insufficient data for injury risk assessment";
          recommendations := [] |}
  /\ generatePredictions threeDays = [].
Proof.
  split; [|split].
  - apply (proj1 (placeholders_and_threshold threeDays)).
    change (3 < 7)%nat. lia.
  - apply (proj1 (proj2 (placeholders_and_threshold threeDays))).
    left. change (3 < 7)%nat. lia.
  - vm_compute. reflexivity.
Defined.

(** ** The sleep debt *)

Lemma deficits_combine k need asleep :
  deficits k need asleep
  = map (fun nd => sub (fst nd) (snd nd)) (firstn k (combine need asleep)).
Proof.
  revert need asleep.
  induction k as [|k IH]; intros [|n need] [|d asleep]; simpl;
    try reflexivity.
  f_equal. apply IH.
Qed.

Lemma firstn_min_length {A : Type} n (l : list A) :
  firstn (Nat.min n (List.length l)) l = firstn n l.
Proof.
  destruct (Nat.le_ge_cases n (List.length l)) as [H | H].
  - rewrite Nat.min_l by exact H. reflexivity.
  - rewrite Nat.min_r by exact H.
    rewrite firstn_all, firstn_all2 by exact H. reflexivity.
Qed.

(** [weeklyDeficits]: need minus duration, day by day, over the seven
    most recent days that have both (or over all of them when there are
    fewer). *)
Lemma weeklyDeficits_eq data :
  weeklyDeficits data
  = map (fun nd => sub (fst nd) (snd nd))
        (firstn 7 (combine (getMetricData data "sleep need (min)")
                           (getMetricData data "asleep duration (min)"))).
Proof.
  unfold weeklyDeficits. cbv zeta.
  rewrite deficits_combine, <- length_combine, firstn_min_length.
  reflexivity.
Qed.

Lemma weeklyDeficits_length data :
  List.length (weeklyDeficits data)
  = Nat.min 7 (Nat.min (List.length (getMetricData data "sleep need (min)"))
                       (List.length (getMetricData data "asleep duration (min)"))).
Proof.
  rewrite weeklyDeficits_eq, length_map, length_firstn, length_combine.
  reflexivity.
Qed.

(** C10. With at least five values of sleep need and of sleep duration:
    when the most recent recorded sleep debt is exactly 0 the current
    debt is not taken as 0 but recomputed as the sum of the deficits
    (need minus duration) of up to the seven most recent days, exactly as
    when no debt is recorded at all; a recorded debt other than 0 is
    taken as it is. The recommendation and the projection are made from
    that current debt. *)
Theorem zero_debt_is_recomputed data :
  let need := getMetricData data "sleep need (min)" in
  let asleep := getMetricData data "asleep duration (min)" in
  let recomputed :=
    sum (map (fun nd => sub (fst nd) (snd nd))
             (firstn 7 (combine need asleep))) in
  (5 <= List.length need)%nat ->
  (5 <= List.length asleep)%nat ->
  (forall d rest,
      getMetricData data "sleep debt (min)" = d :: rest ->
      strictEq d pzero = true ->
      actualCurrentDebt data = recomputed)
  /\ (getMetricData data "sleep debt (min)" = [] ->
      actualCurrentDebt data = recomputed)
  /\ (forall d rest,
        getMetricData data "sleep debt (min)" = d :: rest ->
        strictEq d pzero = false ->
        actualCurrentDebt data = d)
  /\ recommendations (predictSleepDebt data)
     = sleepDebtRecommendations (actualCurrentDebt data)
  /\ prediction (predictSleepDebt data)
     = round (add (actualCurrentDebt data)
                  (mul (div (sum (slice0 3 (weeklyDeficits data))) (ofZ 3))
                       (ofZ 7))).
Proof.
  intros need asleep recomputed Hn Ha.
  assert (Hlen : (0 <? List.length (weeklyDeficits data))%nat = true).
  { apply Nat.ltb_lt. rewrite weeklyDeficits_length.
    fold need asleep. lia. }
  assert (Hsum : fold_left (fun total deficit => add total deficit)
                           (weeklyDeficits data) pzero = recomputed).
  { rewrite weeklyDeficits_eq. reflexivity. }
  split; [|split; [|split; [|split]]].
  - intros d rest Hd Hz. unfold actualCurrentDebt, currentDebt.
    rewrite Hd, Hz, Hlen. exact Hsum.
  - intros Hd. unfold actualCurrentDebt, currentDebt.
    rewrite Hd, Hlen. exact Hsum.
  - intros d rest Hd Hz. unfold actualCurrentDebt, currentDebt.
    rewrite Hd, Hz. reflexivity.
  - unfold predictSleepDebt. cbv zeta. fold need asleep.
    replace (List.length need <? 5)%nat with false
      by (symmetry; apply Nat.ltb_ge; exact Hn).
    replace (List.length asleep <? 5)%nat with false
      by (symmetry; apply Nat.ltb_ge; exact Ha).
    reflexivity.
  - unfold predictSleepDebt. cbv zeta. fold need asleep.
    replace (List.length need <? 5)%nat with false
      by (symmetry; apply Nat.ltb_ge; exact Hn).
    replace (List.length asleep <? 5)%nat with false
      by (symmetry; apply Nat.ltb_ge; exact Ha).
    reflexivity.
Qed.

Lemma zero_debt_is_recomputed_witness :
  currentDebt zeroDebtWeek = pzero
  /\ actualCurrentDebt zeroDebtWeek = ofZ 210.
Proof.
  split; [reflexivity|].
  assert (Hn : (5 <= List.length (getMetricData zeroDebtWeek
                                                "sleep need (min)"))%nat)
    by (vm_compute; lia).
  assert (Ha : (5 <= List.length (getMetricData zeroDebtWeek
                                                "asleep duration (min)"))%nat)
    by (vm_compute; lia).
  rewrite (proj1 (zero_debt_is_recomputed zeroDebtWeek Hn Ha) pzero
             (skipn 1 (getMetricData zeroDebtWeek "sleep debt (min)"))).
  - vm_compute. reflexivity.
  - vm_compute. reflexivity.
  - reflexivity.
Defined.

End PredictProperties.
(* ================================================================== *)
(** * Facts on rounding: which operations can yield [NaN] *)
(* ================================================================== *)

Module RoundingFacts.
Import JSNumber NumberClasses NumberFacts.

Lemma shr_1_nonneg mrs : 0 <= shr_m mrs -> 0 <= shr_m (shr_1 mrs).
Proof.
  destruct mrs as [m r s]. cbn [shr_m]. intros H.
  destruct m as [|[p|p|]|p]; cbn; lia.
Qed.

Lemma iter_pos_nonneg p : forall mrs,
  0 <= shr_m mrs -> 0 <= shr_m (iter_pos shr_1 p mrs).
Proof.
  induction p as [p IH|p IH|]; intros mrs H; cbn [iter_pos].
  - apply IH, IH, shr_1_nonneg, H.
  - apply IH, IH, H.
  - apply shr_1_nonneg, H.
Qed.

Lemma shr_fexp_nonneg m e l :
  0 <= m -> 0 <= shr_m (fst (shr_fexp prec emax m e l)).
Proof.
  intros H. unfold shr_fexp, shr.
  assert (H0 : 0 <= shr_m (shr_record_of_loc m l))
    by (destruct l as [|[| |]]; exact H).
  destruct (fexp prec emax (Zdigits2 m + e) - e); cbn [fst]; auto.
  apply iter_pos_nonneg, H0.
Qed.

Lemma round_nearest_even_nonneg m l : 0 <= m -> 0 <= round_nearest_even m l.
Proof.
  intros H. destruct l as [|[| |]]; cbn; try lia.
  destruct (Z.even m); lia.
Qed.

(** Rounding a non-negative mantissa yields a zero, a finite number or an
    infinity of the requested sign, never [NaN]. *)
Lemma binary_round_aux_sign s m e l :
  0 <= m -> hasSign s (binary_round_aux prec emax s m e l).
Proof.
  intros H. unfold binary_round_aux.
  pose proof (shr_fexp_nonneg m e l H) as H1.
  destruct (shr_fexp prec emax m e l) as [mrs' e']. cbn [fst] in H1.
  pose proof (shr_fexp_nonneg
                (round_nearest_even (shr_m mrs') (loc_of_shr_record mrs'))
                e' loc_Exact (round_nearest_even_nonneg _ _ H1)) as H2.
  destruct (shr_fexp prec emax _ e' loc_Exact) as [mrs'' e'']. cbn [fst] in H2.
  destruct (shr_m mrs'') as [|p|p]; [reflexivity| |lia].
  destruct (e'' <=? emax - prec); reflexivity.
Qed.

Lemma binary_round_sign s m e : hasSign s (binary_round prec emax s m e).
Proof.
  unfold binary_round. destruct (shl_align _ _ _) as [mz ez].
  apply binary_round_aux_sign. lia.
Qed.

Lemma binary_normalize_num m e : isNaN (binary_normalize prec emax m e false) = false.
Proof.
  destruct m as [|p|p]; cbn [binary_normalize]; [reflexivity| |].
  - pose proof (binary_round_sign false p e) as H.
    destruct (binary_round prec emax false p e); [reflexivity..|contradiction|reflexivity].
  - pose proof (binary_round_sign true p e) as H.
    destruct (binary_round prec emax true p e); [reflexivity..|contradiction|reflexivity].
Qed.

Lemma hasSign_nonneg x : hasSign false x -> nonneg x = true.
Proof. destruct x; cbn; intros H; subst; (reflexivity || contradiction). Qed.

Lemma hasSign_num s x : hasSign s x -> isNaN x = false.
Proof. destruct x; cbn; intros H; (reflexivity || contradiction). Qed.

Lemma nonneg_num x : nonneg x = true -> isNaN x = false.
Proof. destruct x; cbn; congruence. Qed.

(** ** Integers *)

Lemma ofZ_nonneg z : 0 <= z -> nonneg (ofZ z) = true.
Proof.
  intros H. unfold ofZ. destruct z as [|p|p]; [reflexivity| |lia].
  apply hasSign_nonneg. cbn [binary_normalize]. apply binary_round_sign.
Qed.

(** ** Sums, products and quotients *)

Lemma add_nonneg x y :
  nonneg x = true -> nonneg y = true -> nonneg (add x y) = true.
Proof.
  destruct x as [sx|sx| |sx mx ex], y as [sy|sy| |sy my ey]; cbn;
    try congruence; try (destruct sx, sy; cbn; congruence).
  intros Hx Hy. destruct sx, sy; try discriminate.
  unfold add, SFadd. cbn [cond_Zopp]. apply hasSign_nonneg.
  cbn [Z.add binary_normalize]. apply binary_round_sign.
Qed.

(** A sum with a finite term is [NaN] only if the other term is. *)
Lemma add_finite_num x y :
  isNaN x = false -> isFinite y = true -> isNaN (add x y) = false.
Proof.
  destruct x as [sx|sx| |sx mx ex], y as [sy|sy| |sy my ey]; cbn;
    try congruence; try (destruct sx, sy; cbn; congruence).
  intros _ _. apply binary_normalize_num.
Qed.

Lemma mul_finite_num x y :
  isNaN x = false -> finiteNonzero y = true -> isNaN (mul x y) = false.
Proof.
  destruct x as [sx|sx| |sx mx ex], y as [sy|sy| |sy my ey]; cbn;
    try congruence.
  intros _ _. apply (hasSign_num (xorb sx sy)).
  apply binary_round_aux_sign. lia.
Qed.

Lemma mul_nonneg_pos x y :
  nonneg x = true -> finitePos y = true -> nonneg (mul x y) = true.
Proof.
  destruct x as [sx|sx| |sx mx ex], y as [sy|sy| |sy my ey]; cbn;
    try congruence; try (destruct sx, sy; cbn; congruence).
  intros Hx Hy. destruct sx, sy; try discriminate.
  apply hasSign_nonneg. apply (binary_round_aux_sign false). lia.
Qed.

Lemma div_core_nonneg mx ex my ey :
  0 <= fst (fst (SFdiv_core_binary prec emax (Zpos mx) ex (Zpos my) ey)).
Proof.
  unfold SFdiv_core_binary. cbv zeta.
  set (s := ex - ey - _).
  set (m' := match s with Z0 => Zpos mx | Zpos _ => Z.shiftl (Zpos mx) s
             | Zneg _ => 0 end).
  assert (Hm : 0 <= m').
  { unfold m'. destruct s; try lia. apply Z.shiftl_nonneg. lia. }
  pose proof (Z_div_mod m' (Zpos my) eq_refl) as H.
  destruct (Z.div_eucl m' (Zpos my)) as [q r]. cbn [fst].
  destruct H as [H1 H2]. nia.
Qed.

Lemma div_finite_num x y :
  isNaN x = false -> finiteNonzero y = true -> isNaN (div x y) = false.
Proof.
  destruct x as [sx|sx| |sx mx ex], y as [sy|sy| |sy my ey]; cbn;
    try congruence.
  intros _ _. unfold div, SFdiv.
  pose proof (div_core_nonneg mx ex my ey) as H.
  destruct (SFdiv_core_binary prec emax (Zpos mx) ex (Zpos my) ey)
    as [[mz ez] lz]. cbn [fst] in H.
  apply (hasSign_num (xorb sx sy)). apply binary_round_aux_sign, H.
Qed.

Lemma div_nonneg_pos x y :
  nonneg x = true -> finitePos y = true -> nonneg (div x y) = true.
Proof.
  destruct x as [sx|sx| |sx mx ex], y as [sy|sy| |sy my ey]; cbn;
    try congruence; try (destruct sx, sy; cbn; congruence).
  intros Hx Hy. destruct sx, sy; try discriminate.
  unfold div, SFdiv.
  pose proof (div_core_nonneg mx ex my ey) as H.
  destruct (SFdiv_core_binary prec emax (Zpos mx) ex (Zpos my) ey)
    as [[mz ez] lz]. cbn [fst] in H.
  apply hasSign_nonneg. apply (binary_round_aux_sign false), H.
Qed.

(** ** Minimum, maximum and clamps *)

Lemma min_num x y : isNaN x = false -> isNaN y = false -> isNaN (min x y) = false.
Proof.
  intros Hx Hy. unfold min.
  destruct (SFcompare x y) as [[| |]|] eqn:E; auto.
  - destruct x as [[|]| | |]; auto.
  - destruct x, y; cbn in *; congruence.
Qed.

Lemma min_nonneg x y :
  nonneg x = true -> nonneg y = true -> nonneg (min x y) = true.
Proof.
  intros Hx Hy. unfold min.
  destruct (SFcompare x y) as [[| |]|] eqn:E; auto.
  - destruct x as [[|]| | |]; auto.
  - destruct x, y; cbn in *; congruence.
Qed.

Lemma leb_refl_finite x : finiteNonzero x = true -> leb x x = true.
Proof.
  destruct x as [| | |s m e]; try discriminate. intros _.
  unfold leb, SFleb. cbn.
  rewrite Z.compare_refl.
  assert (H : Pos.compare_cont Eq m m = Eq) by apply Pos.compare_cont_refl.
  rewrite H. destruct s; reflexivity.
Qed.

(** A clamp between two finite bounds [lo < hi] yields a number from
    [lo] to [hi] on everything but [NaN]. *)
Lemma clamp_within lo hi x :
  finiteNonzero lo = true -> finiteNonzero hi = true ->
  ltb lo hi = true -> isNaN x = false ->
  within lo hi (max lo (min hi x)) = true.
Proof.
  intros Hlo Hhi Hlt Hx.
  assert (Hll := leb_refl_finite lo Hlo).
  assert (Hhh := leb_refl_finite hi Hhi).
  assert (Hlh : leb lo hi = true).
  { unfold ltb, SFltb in Hlt. unfold leb, SFleb.
    destruct (SFcompare lo hi) as [[| |]|]; congruence. }
  assert (Hmax : max lo hi = hi).
  { unfold ltb, SFltb in Hlt. unfold max.
    destruct (SFcompare lo hi) as [[| |]|]; congruence. }
  unfold within.
  unfold min. destruct (SFcompare hi x) as [[| |]|] eqn:E.
  - replace (match hi with S754_zero false => x | _ => hi end) with hi
      by (destruct hi; (reflexivity || discriminate)).
    rewrite Hmax, Hlh, Hhh. reflexivity.
  - rewrite Hmax, Hlh, Hhh. reflexivity.
  - pose proof (SFcompare_antisym hi x) as Ha. rewrite E in Ha.
    cbn [option_map CompOpp] in Ha.
    unfold max. destruct (SFcompare lo x) as [[| |]|] eqn:E0.
    + replace (match lo with S754_zero true => x | _ => lo end) with lo
        by (destruct lo; (reflexivity || discriminate)).
      rewrite Hll, Hlh. reflexivity.
    + unfold leb, SFleb. rewrite E0, Ha. reflexivity.
    + rewrite Hll, Hlh. reflexivity.
    + destruct lo, x; cbn in *; congruence.
  - destruct hi, x; cbn in *; congruence.
Qed.

(** ** The order on numbers *)

Lemma lex_lt_trans e1 e2 e3 m1 m2 m3 :
  match e1 ?= e2 with Lt => Lt | Gt => Gt | Eq => Pos.compare_cont Eq m1 m2 end = Lt ->
  match e2 ?= e3 with Lt => Lt | Gt => Gt | Eq => Pos.compare_cont Eq m2 m3 end = Lt ->
  match e1 ?= e3 with Lt => Lt | Gt => Gt | Eq => Pos.compare_cont Eq m1 m3 end = Lt.
Proof.
  change (Pos.compare_cont Eq m1 m2) with (m1 ?= m2)%positive.
  change (Pos.compare_cont Eq m2 m3) with (m2 ?= m3)%positive.
  change (Pos.compare_cont Eq m1 m3) with (m1 ?= m3)%positive.
  destruct (Z.compare_spec e1 e2), (Z.compare_spec e2 e3),
    (Z.compare_spec e1 e3); subst; try lia; try discriminate; try reflexivity.
  rewrite !Pos.compare_lt_iff. lia.
Qed.

Lemma lex_gt_trans e1 e2 e3 m1 m2 m3 :
  match e1 ?= e2 with Lt => Gt | Gt => Lt | Eq => CompOpp (Pos.compare_cont Eq m1 m2) end = Lt ->
  match e2 ?= e3 with Lt => Gt | Gt => Lt | Eq => CompOpp (Pos.compare_cont Eq m2 m3) end = Lt ->
  match e1 ?= e3 with Lt => Gt | Gt => Lt | Eq => CompOpp (Pos.compare_cont Eq m1 m3) end = Lt.
Proof.
  change (Pos.compare_cont Eq m1 m2) with (m1 ?= m2)%positive.
  change (Pos.compare_cont Eq m2 m3) with (m2 ?= m3)%positive.
  change (Pos.compare_cont Eq m1 m3) with (m1 ?= m3)%positive.
  destruct (Z.compare_spec e1 e2), (Z.compare_spec e2 e3),
    (Z.compare_spec e1 e3); subst; try lia; try discriminate; try reflexivity.
  destruct (Pos.compare_spec m1 m2), (Pos.compare_spec m2 m3),
    (Pos.compare_spec m1 m3); subst; cbn; try lia; try discriminate;
    try reflexivity.
Qed.

(** [<] is transitive and irreflexive. *)
Lemma ltb_trans a b c : ltb a b = true -> ltb b c = true -> ltb a c = true.
Proof.
  unfold ltb, SFltb.
  destruct a as [sa|sa| |sa ma ea], b as [sb|sb| |sb mb eb],
    c as [sc|sc| |sc mc ec]; cbn;
    try discriminate; try reflexivity;
    try (destruct sa; try discriminate; try (intros; reflexivity);
         destruct sb; try discriminate; try (intros; reflexivity);
         destruct sc; try discriminate; try (intros; reflexivity); fail);
    try (destruct sa, sb; try discriminate; try (intros; reflexivity); fail);
    try (destruct sa, sc; try discriminate; try (intros; reflexivity); fail);
    try (destruct sb, sc; try discriminate; try (intros; reflexivity); fail).
  destruct sa, sb, sc; try discriminate; try (intros; reflexivity).
  - intros H1 H2.
    pose proof (lex_gt_trans ea eb ec ma mb mc) as H.
    destruct (match ea ?= eb with Lt => Gt | Gt => Lt
              | Eq => CompOpp (Pos.compare_cont Eq ma mb) end);
      try discriminate.
    destruct (match eb ?= ec with Lt => Gt | Gt => Lt
              | Eq => CompOpp (Pos.compare_cont Eq mb mc) end);
      try discriminate.
    rewrite H; reflexivity.
  - intros H1 H2.
    pose proof (lex_lt_trans ea eb ec ma mb mc) as H.
    destruct (match ea ?= eb with Lt => Lt | Gt => Gt
              | Eq => Pos.compare_cont Eq ma mb end); try discriminate.
    destruct (match eb ?= ec with Lt => Lt | Gt => Gt
              | Eq => Pos.compare_cont Eq mb mc end); try discriminate.
    rewrite H; reflexivity.
Qed.

Lemma ltb_irrefl a : ltb a a = false.
Proof.
  unfold ltb, SFltb. destruct a as [s|s| |s m e]; cbn; try reflexivity.
  - destruct s; reflexivity.
  - rewrite Z.compare_refl.
    assert (H : Pos.compare_cont Eq m m = Eq) by apply Pos.compare_cont_refl.
    rewrite H. destruct s; reflexivity.
Qed.

(** The minimum with a finite bound does not exceed the bound. *)
Lemma min_leb_bound h y :
  finiteNonzero h = true -> isNaN y = false -> leb (min h y) h = true.
Proof.
  intros Hh Hy. pose proof (leb_refl_finite h Hh) as Hr.
  unfold min. destruct (SFcompare h y) as [[| |]|] eqn:E.
  - replace (match h with S754_zero false => y | _ => h end) with h
      by (destruct h; (reflexivity || discriminate)).
    exact Hr.
  - exact Hr.
  - pose proof (SFcompare_antisym h y) as Ha. rewrite E in Ha.
    cbn [option_map CompOpp] in Ha. unfold leb, SFleb. rewrite Ha. reflexivity.
  - destruct h, y; cbn in *; congruence.
Qed.

(** ** Differences and sums with [NaN] *)

(** A finite number minus itself is [+0]; an infinity minus itself is
    [NaN]. *)
Lemma sub_self x :
  sub x x = match x with
            | S754_zero _ | S754_finite _ _ _ => pzero
            | _ => NaN
            end.
Proof.
  destruct x as [[|]|[|]| |s m e]; try reflexivity.
  unfold sub, SFsub. cbv zeta. rewrite Z.sub_diag. reflexivity.
Qed.

Lemma add_NaN_l y : add NaN y = NaN.
Proof. reflexivity. Qed.

Lemma add_NaN_r x : add x NaN = NaN.
Proof. destruct x; reflexivity. Qed.

End RoundingFacts.
(* ================================================================== *)
(** * Facts on strings *)
(* ================================================================== *)

Module StringFacts.

Lemma append_assoc (a b c : string) : (a +++ b) +++ c = a +++ (b +++ c).
Proof. induction a as [|x a IH]; cbn; [reflexivity|rewrite IH; reflexivity]. Qed.

Lemma append_nil_r (a : string) : a +++ EmptyString = a.
Proof. induction a as [|x a IH]; cbn; [reflexivity|rewrite IH; reflexivity]. Qed.

End StringFacts.


(* ================================================================== *)
(** * Further properties of the retrieval *)
(* ================================================================== *)

Module RetrieveExtras.
Import JSNumber JSValue RAGService Shapes Samples MoreSamples RetrieveProperties.

(** ** Size and membership *)

Lemma sortByScore_length l : List.length (sortByScore l) = List.length l.
Proof.
  induction l as [|x r IH]; simpl; [reflexivity|].
  rewrite <- IH. generalize (sortByScore r). intros s.
  induction s as [|y t IHt]; simpl; [reflexivity|].
  destruct (snd y <=? snd x); simpl; [reflexivity|].
  rewrite IHt. reflexivity.
Qed.

Lemma In_firstn {A : Type} (x : A) n l : In x (firstn n l) -> In x l.
Proof.
  intros H. rewrite <- (firstn_skipn n l). apply in_or_app. left. exact H.
Qed.

(** X1. [retrieveRelevantData] returns at most [maxResults] facts; each
    is a fact of the knowledge base, and its score for the query is
    positive. *)
Theorem retrieve_bounded_and_relevant kb query maxResults :
  (List.length (retrieveRelevantData kb query maxResults) <= maxResults)%nat
  /\ forall f, In f (retrieveRelevantData kb query maxResults) ->
               In f kb /\ 0 < scoreOf query f.
Proof.
  unfold retrieveRelevantData. split.
  - rewrite length_map. apply firstn_le_length.
  - intros f Hin. apply in_map_iff in Hin as ([g s] & Hfst & Hin).
    simpl in Hfst. subst g. apply In_firstn in Hin.
    apply In_ranked in Hin as (dp & Hkb & Heq & Hpos).
    injection Heq as -> _. auto.
Qed.

(** ** Order *)

Lemma sorted_firstn {A : Type} (R : A -> A -> Prop) n l :
  StronglySorted R l -> StronglySorted R (firstn n l).
Proof.
  intros H. revert n. induction H as [|x l Hs IH Hall]; intros [|n]; simpl;
    try constructor.
  - apply IH.
  - rewrite Forall_forall in *. intros y Hy. apply Hall.
    apply In_firstn in Hy. exact Hy.
Qed.

(** X2. The facts are returned by descending score: no returned fact
    scores more than a fact returned before it. *)
Theorem retrieve_scores_descend kb query maxResults :
  StronglySorted (fun f g => scoreOf query g <= scoreOf query f)
                 (retrieveRelevantData kb query maxResults).
Proof.
  unfold retrieveRelevantData.
  assert (Hs : StronglySorted descending
                 (firstn maxResults (ranked query kb)))
    by (apply sorted_firstn, sortByScore_sorted).
  assert (Hsc : forall x, In x (firstn maxResults (ranked query kb)) ->
                          snd x = scoreOf query (fst x)).
  { intros x Hx. apply In_firstn in Hx.
    apply In_ranked in Hx as (dp & _ & -> & _). reflexivity. }
  induction Hs as [|x l Hsl IH Hall]; simpl; constructor.
  - apply IH. intros y Hy. apply Hsc. right. exact Hy.
  - rewrite Forall_forall in *. intros g Hg.
    apply in_map_iff in Hg as (y & <- & Hy).
    rewrite <- (Hsc x (or_introl eq_refl)), <- (Hsc y (or_intror Hy)).
    apply Hall. exact Hy.
Qed.

(** Inserting an item leaves the items of every score in their order; the
    new item comes first among those of its own score. *)
Lemma insertByScore_stable s x l :
  filter (fun y => snd y =? s) (insertByScore x l)
  = if snd x =? s then x :: filter (fun y => snd y =? s) l
    else filter (fun y => snd y =? s) l.
Proof.
  induction l as [|y r IH]; simpl.
  - reflexivity.
  - destruct (Z.leb_spec (snd y) (snd x)) as [Hle | Hgt]; simpl.
    + reflexivity.
    + rewrite IH.
      destruct (Z.eqb_spec (snd x) s) as [Hx | Hx];
        destruct (Z.eqb_spec (snd y) s) as [Hy | Hy]; try reflexivity.
      lia.
Qed.

Lemma sortByScore_stable s l :
  filter (fun y => snd y =? s) (sortByScore l)
  = filter (fun y => snd y =? s) l.
Proof.
  induction l as [|x r IH]; simpl; [reflexivity|].
  rewrite insertByScore_stable, IH. reflexivity.
Qed.

(** X3. The sort is stable: in the ranked list the facts that share a
    positive score stand in the order in which the knowledge base holds
    them. The result is the first [maxResults] items of that list. *)
Theorem ranking_keeps_order_of_ties kb query s :
  0 < s ->
  map fst (filter (fun y => snd y =? s) (ranked query kb))
  = filter (fun f => scoreOf query f =? s) kb.
Proof.
  intros Hs. unfold ranked. rewrite sortByScore_stable. unfold scoredData.
  induction kb as [|f r IH]; simpl; [reflexivity|].
  destruct (Z.ltb_spec 0 (scoreOf query f)) as [Hpos | Hnon]; simpl.
  - destruct (scoreOf query f =? s); simpl; rewrite IH; reflexivity.
  - destruct (Z.eqb_spec (scoreOf query f) s) as [He | He]; [lia|].
    exact IH.
Qed.

(** X4. When no more than [maxResults] facts score above 0, nothing is
    cut off: the facts returned are exactly the facts of the knowledge
    base with a positive score, each as often as the knowledge base
    holds it. *)
Theorem retrieve_complete_below_limit kb query maxResults :
  (List.length (filter (fun f => (0 <? scoreOf query f)%Z) kb)
   <= maxResults)%nat ->
  List.length (retrieveRelevantData kb query maxResults)
  = List.length (filter (fun f => 0 <? scoreOf query f) kb)
  /\ forall f, In f (retrieveRelevantData kb query maxResults) <->
               In f kb /\ 0 < scoreOf query f.
Proof.
  intros Hlen.
  assert (Hrl : List.length (ranked query kb)
                = List.length (filter (fun f => 0 <? scoreOf query f) kb)).
  { unfold ranked, scoredData. rewrite sortByScore_length.
    clear Hlen. induction kb as [|f r IH]; simpl; [reflexivity|].
    destruct (0 <? scoreOf query f); simpl; rewrite IH; reflexivity. }
  assert (Hall : firstn maxResults (ranked query kb) = ranked query kb).
  { apply firstn_all2. rewrite Hrl. exact Hlen. }
  unfold retrieveRelevantData. rewrite Hall, length_map. split; [exact Hrl|].
  intros f. rewrite in_map_iff. split.
  - intros ([g s] & Hfst & Hin). simpl in Hfst. subst g.
    apply In_ranked in Hin as (dp & Hkb & Heq & Hpos).
    injection Heq as -> _. auto.
  - intros [Hkb Hpos]. exists (f, scoreOf query f). split; [reflexivity|].
    apply In_ranked. exists f. auto.
Qed.

Lemma ranking_keeps_order_of_ties_witness :
  map fst (filter (fun y => snd y =? 3) (ranked "how is my strain" eightDaysKB))
  = filter (fun f => scoreOf "how is my strain" f =? 3) eightDaysKB.
Proof. apply (ranking_keeps_order_of_ties eightDaysKB). reflexivity. Defined.

Lemma retrieve_complete_below_limit_witness :
  List.length (retrieveRelevantData plainKB "sleep debt" 10) = 4%nat.
Proof.
  destruct (retrieve_complete_below_limit plainKB "sleep debt" 10) as [H _].
  - vm_compute. lia.
  - rewrite H. vm_compute. reflexivity.
Defined.

(** ** Facts that every query retrieves *)

(** X5. A fact of the three most recent rows, a current-metric fact (its
    recency is -1) and the sleep-debt trend fact (recency 0) score at
    least 3 on every query, also on one that matches no term. So a
    knowledge base that holds such a fact never gives an empty result
    when at least one fact is asked for. *)
Theorem recent_facts_always_retrieved kb query maxResults f r :
  In f kb ->
  recency (metadata f) = Some r -> r < 3 ->
  (0 < maxResults)%nat ->
  3 <= scoreOf query f
  /\ retrieveRelevantData kb query maxResults <> [].
Proof.
  intros Hin Hr Hlt Hn.
  assert (Hscore : 3 <= scoreOf query f).
  { unfold scoreOf. rewrite Hr.
    replace (r <? 3) with true by (symmetry; apply Z.ltb_lt; exact Hlt).
    pose proof (keywordScore_nonneg
                  (expandQuery (JSString.toLowerCase query)) f).
    pose proof (b2z_nonneg
                  (JSString.includes (JSString.toLowerCase query) "sleep debt"
                   && isString (source (metadata f)) "sleep_debt_tracking") 50).
    pose proof (b2z_nonneg
                  (JSString.includes (JSString.toLowerCase query) "sleep debt"
                   && isString (source (metadata f)) "sleep_debt_analysis") 45).
    pose proof (b2z_nonneg
                  (isString (source (metadata f)) "current_metrics") 5).
    pose proof (b2z_nonneg (isTemporalQuery (JSString.toLowerCase query))
                  (temporalBoost f) (temporalBoost_nonneg f)).
    change (b2z true 3) with 3. lia. }
  split; [exact Hscore|].
  assert (Hr' : In (f, scoreOf query f) (ranked query kb)).
  { apply In_ranked. exists f. repeat split; trivial. lia. }
  unfold retrieveRelevantData.
  destruct (ranked query kb) as [|x l]; [contradiction|].
  destruct maxResults as [|n]; [lia|]. simpl. discriminate.
Qed.

Lemma recent_facts_always_retrieved_witness :
  3 <= scoreOf "zzz" plainRecoveryFact
  /\ retrieveRelevantData plainKB "zzz" 1 <> [].
Proof.
  apply (recent_facts_always_retrieved plainKB "zzz" 1 plainRecoveryFact 0).
  - vm_compute. tauto.
  - reflexivity.
  - reflexivity.
  - lia.
Defined.

(** ** The expanded query *)

Lemma mem_In w a : JSString.mem w a = true <-> In w a.
Proof.
  unfold JSString.mem. rewrite existsb_exists. split.
  - intros (x & Hx & He). apply String.eqb_eq in He. subst x. exact Hx.
  - intros H. exists w. split; [exact H|]. apply String.eqb_refl.
Qed.

Lemma dedupFrom_spec seen a :
  NoDup (JSString.dedupFrom seen a)
  /\ forall w, In w (JSString.dedupFrom seen a) <-> In w a /\ ~ In w seen.
Proof.
  revert seen. induction a as [|x r IH]; intros seen; simpl.
  - split; [constructor|]. tauto.
  - destruct (JSString.mem x seen) eqn:Hm.
    + apply mem_In in Hm. destruct (IH seen) as [Hnd Hin].
      split; [exact Hnd|]. intros w. rewrite Hin. split.
      * tauto.
      * intros [[<- | Hw] Hs]; [contradiction|]. auto.
    + assert (Hx : ~ In x seen).
      { intros H. apply mem_In in H. congruence. }
      destruct (IH (x :: seen)) as [Hnd Hin]. split.
      * constructor; [|exact Hnd]. rewrite Hin. simpl. tauto.
      * intros w. simpl. rewrite Hin. simpl. split.
        -- intros [<- | [Hw Hs]]; [tauto|]. tauto.
        -- intros [[<- | Hw] Hs]; [tauto|].
           destruct (string_dec x w) as [-> | Hne]; [tauto|]. tauto.
Qed.

(** X6. The expanded query holds every word of the lower-cased query and
    holds no term twice, so that a term the query repeats, or one that
    two clusters add, is scored once. *)
Theorem expandQuery_has_each_term_once query :
  NoDup (expandQuery query)
  /\ forall w, In w (JSString.splitWhite (JSString.toLowerCase query)) ->
               In w (expandQuery query).
Proof.
  unfold expandQuery, JSString.dedup. cbv zeta.
  match goal with
  | |- context [JSString.dedupFrom [] ?a] =>
      destruct (dedupFrom_spec [] a) as [Hnd Hin]
  end.
  split; [exact Hnd|].
  intros w Hw. apply Hin. split; [|tauto].
  apply in_or_app. left. exact Hw.
Qed.

End RetrieveExtras.

(* ================================================================== *)
(** * Further properties of the knowledge-base build *)
(* ================================================================== *)

Module BuildExtras.
Import JSNumber JSValue RAGService Shapes Samples MoreSamples BuildProperties.

(** X7. Every fact of the pass over the rows can be traced: it names a
    key of one row, other than the provenance key "_source_file"; its
    recency is the index of that row; its source is the row's
    "_source_file" when that is truthy and "csv_data" otherwise; its date
    is the row's date or "day N". *)
Theorem field_facts_are_traceable csvData dp :
  In dp (csvFacts csvData) ->
  exists index row,
    nth_error csvData index = Some row
    /\ In (metric (metadata dp)) (keys row)
    /\ metric (metadata dp) <> "_source_file"
    /\ recency (metadata dp) = Some (Z.of_nat index)
    /\ source (metadata dp)
       = (if truthy (get row "_source_file") then get row "_source_file"
          else VString "csv_data")
    /\ date (metadata dp)
       = (if truthy (get row "date") then get row "date"
          else VString ("day " +++ JSString.ofNat (index + 1))).
Proof.
  intros Hin. apply In_csvFacts in Hin as (i & row & key & Hn & Hk & Hf).
  exists i, row. split; [exact Hn|].
  unfold fieldFact in Hf.
  destruct (String.eqb_spec key "_source_file") as [|Hne]; [discriminate|].
  destruct (truthy (get row key)
            && negb (String.eqb (JSString.trim (toString (get row key))) ""));
    [|discriminate].
  injection Hf as <-. simpl. auto.
Qed.

Lemma field_facts_are_traceable_witness :
  exists index row,
    nth_error [unreadableDebtRow] index = Some row
    /\ In "sleep debt (min)" (keys row)
    /\ "sleep debt (min)" <> "_source_file"
    /\ Some 0 = Some (Z.of_nat index)
    /\ VString "sleeps.csv"
       = (if truthy (get row "_source_file") then get row "_source_file"
          else VString "csv_data")
    /\ VString "day 1"
       = (if truthy (get row "date") then get row "date"
          else VString ("day " +++ JSString.ofNat (index + 1))).
Proof.
  apply (field_facts_are_traceable [unreadableDebtRow]
           (mkDataPoint "most recently, your sleep debt (min) was n/a"
              (mkMetadata (VString "day 1") "sleep debt (min)" "n/a"
                 (VString "sleeps.csv") (Some 0)))).
  vm_compute. tauto.
Defined.

(** ** The sleep-debt pass *)

Lemma trackingFactsFrom_length start entries :
  List.length (trackingFactsFrom start entries) = List.length entries.
Proof.
  revert start. induction entries as [|e es IH]; intros start; simpl;
    [reflexivity|]. rewrite IH. reflexivity.
Qed.

Lemma trackingFactsFrom_tracking start entries :
  Forall (fun f => isTracking f = true) (trackingFactsFrom start entries).
Proof.
  revert start. induction entries as [|e es IH]; intros start; simpl;
    constructor; [reflexivity|apply IH].
Qed.

(** X8. The sleep-debt pass adds nothing when no row has a sleep-debt
    reading. Otherwise it adds one tracking fact for each of the first
    rows that have one, seven at most, and after them exactly one trend
    fact, with source "sleep_debt_analysis" and recency 0. *)
Theorem sleep_debt_pass_shape csvData :
  let n := List.length (filter hasSleepDebt csvData) in
  (n = 0%nat -> sleepDebtFacts csvData = [])
  /\ ((0 < n)%nat ->
      exists tracking trend,
        sleepDebtFacts csvData = tracking ++ [trend]
        /\ List.length tracking = Nat.min 7 n
        /\ Forall (fun f => isTracking f = true) tracking
        /\ isString (source (metadata trend)) "sleep_debt_analysis" = true
        /\ recency (metadata trend) = Some 0).
Proof.
  cbv zeta. unfold sleepDebtFacts, sleepDebtEntries. split.
  - intros Hn. apply length_zero_iff_nil in Hn. rewrite Hn. reflexivity.
  - intros Hn.
    destruct (firstn 7 (filter hasSleepDebt csvData)) as [|e es] eqn:He.
    + apply (f_equal (@List.length object)) in He.
      rewrite length_firstn in He. cbn [List.length] in He. lia.
    + exists (trackingFactsFrom 0 (e :: es)), (analysisFact (e :: es)).
      split; [reflexivity|]. split; [|split; [|split; reflexivity]].
      * rewrite trackingFactsFrom_length, <- He, length_firstn. reflexivity.
      * apply trackingFactsFrom_tracking.
Qed.

Lemma sleep_debt_pass_shape_witness :
  exists tracking trend,
    sleepDebtFacts skippedNight = tracking ++ [trend]
    /\ List.length tracking = 2%nat
    /\ Forall (fun f => isTracking f = true) tracking
    /\ isString (source (metadata trend)) "sleep_debt_analysis" = true
    /\ recency (metadata trend) = Some 0.
Proof.
  apply (proj2 (sleep_debt_pass_shape skippedNight)). vm_compute. lia.
Defined.

(** X9. A sleep-debt reading that [parseFloat] cannot read (any text
    that does not start with a number) passes the filter of the pass and
    is counted as 0: its tracking fact reads "+0.0 hours (balanced)" and
    carries the value "0". *)
Theorem unreadable_debt_reads_as_balanced index record :
  isNaN (parseFloat (get record "sleep debt (min)")) = true ->
  debtOf record = pzero
  /\ content (trackingFact index record)
     = "Sleep debt " +++ timeRef index +++ ": +0.0 hours (balanced)"
  /\ value (metadata (trackingFact index record)) = "0".
Proof.
  intros Hnan.
  assert (Hd : debtOf record = pzero).
  { unfold debtOf.
    destruct (parseFloat (get record "sleep debt (min)")); try discriminate.
    reflexivity. }
  split; [exact Hd|].
  unfold trackingFact. cbv zeta. rewrite Hd. split; reflexivity.
Qed.

Lemma unreadable_debt_reads_as_balanced_witness :
  hasSleepDebt unreadableDebtRow = true
  /\ content (trackingFact 0 unreadableDebtRow)
     = "Sleep debt most recent night: +0.0 hours (balanced)".
Proof.
  split; [reflexivity|].
  apply (unreadable_debt_reads_as_balanced 0 unreadableDebtRow).
  vm_compute. reflexivity.
Defined.

Lemma filter_none {A : Type} (p : A -> bool) l :
  Forall (fun x => p x = false) l -> filter p l = [].
Proof.
  induction 1 as [|x r Hx _ IH]; simpl; [reflexivity|].
  rewrite Hx. exact IH.
Qed.

(** X10. The tracking facts count nights among the rows that have a
    sleep-debt reading, not among all rows: when the newest rows have
    none, the first row that has one is reported as the "most recent
    night", with recency 0, however many rows precede it. *)
Theorem tracking_counts_only_rows_with_debt newer record older :
  Forall (fun x => hasSleepDebt x = false) newer ->
  hasSleepDebt record = true ->
  exists more,
    sleepDebtFacts (newer ++ record :: older)
    = trackingFact 0 record :: more
    /\ recency (metadata (trackingFact 0 record)) = Some 0
    /\ exists rest,
         content (trackingFact 0 record)
         = "Sleep debt most recent night: " +++ rest.
Proof.
  intros Hnewer Hrec.
  unfold sleepDebtFacts, sleepDebtEntries.
  rewrite filter_app, (filter_none _ _ Hnewer). simpl. rewrite Hrec. simpl.
  eexists. split; [reflexivity|]. split; [reflexivity|].
  eexists. reflexivity.
Qed.

Lemma tracking_counts_only_rows_with_debt_witness :
  exists more,
    sleepDebtFacts skippedNight = trackingFact 0 (debtRow 45) :: more
    /\ recency (metadata (trackingFact 0 (debtRow 45))) = Some 0
    /\ exists rest,
         content (trackingFact 0 (debtRow 45))
         = "Sleep debt most recent night: " +++ rest.
Proof.
  apply (tracking_counts_only_rows_with_debt [plainRow 71] (debtRow 45)
           [debtRow 10]).
  - constructor; [reflexivity|constructor].
  - reflexivity.
Defined.

End BuildExtras.

(* ================================================================== *)
(** * Further properties of the forecasts *)
(* ================================================================== *)

Module PredictExtras.
Import JSNumber JSValue PredictiveAnalytics Samples MoreSamples ClosedForms
       NumberClasses NumberFacts RoundingFacts PredictProperties.

(** ** Small integers *)

Lemma numEq_eq x y : numEq x y = true -> x = y.
Proof.
  destruct x as [s|s| |s m e], y as [t|t| |t n f]; simpl; try discriminate;
    intros H.
  - apply Bool.eqb_prop in H. congruence.
  - apply Bool.eqb_prop in H. congruence.
  - reflexivity.
  - apply andb_prop in H as [H He]. apply andb_prop in H as [Hs Hm].
    apply Bool.eqb_prop in Hs. apply Pos.eqb_eq in Hm. apply Z.eqb_eq in He.
    congruence.
Qed.

Lemma In_small a : 0 <= a <= 200 -> In a small.
Proof.
  intros H. unfold small. apply in_map_iff. exists (Z.to_nat a). split.
  - apply Z2Nat.id. lia.
  - apply in_seq. lia.
Qed.

Lemma add_small a b :
  0 <= a <= 200 -> In b increments -> add (ofZ a) (ofZ b) = ofZ (a + b).
Proof.
  intros Ha Hb.
  assert (H : smallSumsExact = true) by (vm_compute; reflexivity).
  unfold smallSumsExact in H. rewrite forallb_forall in H.
  specialize (H a (In_small a Ha)). rewrite forallb_forall in H.
  apply numEq_eq. apply H. exact Hb.
Qed.

Lemma cap_small a :
  0 <= a <= 200 ->
  min (ofZ 100) (ofZ a) = ofZ (Z.min 100 a) /\ round (ofZ a) = ofZ a.
Proof.
  intros Ha.
  assert (H : smallCapExact = true) by (vm_compute; reflexivity).
  unfold smallCapExact in H. rewrite forallb_forall in H.
  specialize (H a (In_small a Ha)). apply andb_prop in H as [H1 H2].
  split; apply numEq_eq; assumption.
Qed.

(** ** The scan of the injury-risk assessment *)

Lemma scan_fold days recoveryData strainData st :
  scan days recoveryData strainData st
  = fold_left (fun st day => scanDay st (snd day) (fst day))
              (firstn days (combine recoveryData strainData)) st.
Proof.
  revert recoveryData strainData st.
  induction days as [|k IH]; intros [|r rs] [|s ss] st; simpl;
    try reflexivity.
  apply IH.
Qed.

Lemma riskyCount_le l : (riskyCount l <= List.length l)%nat.
Proof. unfold riskyCount. apply filter_length_le. Qed.

Lemma fold_closed l :
  (List.length l <= 7)%nat ->
  fold_left (fun st day => scanDay st (snd day) (fst day)) l (O, ofZ 0)
  = (oldestRun l, ofZ (15 * Z.of_nat (riskyCount l))).
Proof.
  induction l as [|x l IH] using rev_ind; intros Hlen.
  - reflexivity.
  - rewrite length_app in Hlen. simpl in Hlen.
    rewrite fold_left_app, IH by lia. cbn [fold_left].
    unfold scanDay. cbv beta iota.
    unfold oldestRun. rewrite rev_unit. cbn [leadingRun].
    unfold riskyCount. rewrite filter_app, length_app. cbn [filter].
    fold (riskyCount l).
    change (gtb (snd x) (ofZ 14) && ltb (fst x) (ofZ 50)) with (riskyDay x).
    destruct (riskyDay x); cbn [List.length].
    + rewrite add_small.
      * f_equal. f_equal. lia.
      * pose proof (riskyCount_le l). lia.
      * cbn [In increments]. tauto.
    + f_equal. f_equal. lia.
Qed.

Lemma leadingRun_le {A : Type} (p : A -> bool) l :
  (leadingRun p l <= List.length (filter p l))%nat.
Proof.
  induction l as [|x r IH]; simpl; [lia|].
  destruct (p x); simpl; lia.
Qed.

(** The scan of the injury-risk assessment in closed form. *)
Lemma strainRecoveryRisk_closed recoveryData strainData :
  let days := scannedDays recoveryData strainData in
  strainRecoveryRisk recoveryData strainData
  = (oldestRun days,
     ofZ (15 * Z.of_nat (riskyCount days)
          + (if (3 <=? oldestRun days)%nat then 25 else 0)))
  /\ (riskyCount days <= 7)%nat /\ (oldestRun days <= riskyCount days)%nat.
Proof.
  cbv zeta. unfold strainRecoveryRisk, scannedDays.
  set (days := firstn 7 (combine recoveryData strainData)).
  assert (Hlen : (List.length days <= 7)%nat) by apply firstn_le_length.
  split.
  - rewrite scan_fold, <- length_combine, firstn_min_length.
    fold days. change pzero with (ofZ 0). rewrite (fold_closed days Hlen).
    destruct (3 <=? oldestRun days)%nat.
    + rewrite add_small.
      * reflexivity.
      * pose proof (riskyCount_le days). lia.
      * cbn [In increments]. tauto.
    + rewrite Z.add_0_r. reflexivity.
  - split.
    + pose proof (riskyCount_le days). lia.
    + unfold oldestRun, riskyCount.
      rewrite <- (length_rev (filter riskyDay days)), <- filter_rev.
      apply leadingRun_le.
Qed.

(** X11. The strain-recovery part of the injury risk in closed form: over
    the scanned days (at most seven, most recent first) the score is 15
    for each day with strain above 14 and recovery below 50, wherever it
    lies, plus 25 exactly when the run of such days that ends with the
    last scanned day, the oldest one, has length 3 or more; the counter
    the method reports is the length of that run. *)
Theorem strain_recovery_risk_closed_form recoveryData strainData :
  let days := scannedDays recoveryData strainData in
  strainRecoveryRisk recoveryData strainData
  = (oldestRun days,
     ofZ (15 * Z.of_nat (riskyCount days)
          + (if (3 <=? oldestRun days)%nat then 25 else 0)))
  /\ (riskyCount days <= 7)%nat /\ (oldestRun days <= riskyCount days)%nat.
Proof. exact (strainRecoveryRisk_closed recoveryData strainData). Qed.

(** X12. The injury-risk prediction is always a whole number from 0 to
    100, on every table: 0 for the placeholder, and otherwise the sum of
    the exact amounts 15, 25, 20 and 15, capped at 100. *)
Theorem injury_risk_is_whole_and_bounded data :
  exists z, 0 <= z <= 100 /\ prediction (assessInjuryRisk data) = ofZ z.
Proof.
  unfold assessInjuryRisk. cbv zeta.
  destruct ((List.length (getMetricData data "recovery score %") <? 7)%nat
            || (List.length (getMetricData data "day strain") <? 7)%nat).
  - exists 0. split; [lia|reflexivity].
  - destruct (strainRecoveryRisk_closed
                (getMetricData data "recovery score %")
                (getMetricData data "day strain")) as (Hc & Hk & _).
    cbv zeta in Hc. rewrite Hc. cbv beta iota.
    set (a0 := 15 * Z.of_nat (riskyCount (scannedDays
                 (getMetricData data "recovery score %")
                 (getMetricData data "day strain")))
               + (if (3 <=? oldestRun (scannedDays
                        (getMetricData data "recovery score %")
                        (getMetricData data "day strain")))%nat
                  then 25 else 0)).
    assert (Ha0 : 0 <= a0 <= 130).
    { unfold a0.
      destruct (3 <=? oldestRun (scannedDays
                        (getMetricData data "recovery score %")
                        (getMetricData data "day strain")))%nat; lia. }
    clearbody a0.
    match goal with
    | |- context [if ?b then add (ofZ a0) (ofZ 20) else ofZ a0] =>
        destruct b
    end.
    + rewrite (add_small a0 20) by (cbn [In increments]; (lia || tauto)).
      match goal with
      | |- context [if ?b then add (ofZ (a0 + 20)) (ofZ 15) else _] =>
          destruct b
      end; cbn [prediction].
      * rewrite (add_small (a0 + 20) 15) by (cbn [In increments]; (lia || tauto)).
        destruct (cap_small (a0 + 20 + 15)) as [-> _]; [lia|].
        destruct (cap_small (Z.min 100 (a0 + 20 + 15))) as [_ ->]; [lia|].
        eexists. split; [|reflexivity]. lia.
      * destruct (cap_small (a0 + 20)) as [-> _]; [lia|].
        destruct (cap_small (Z.min 100 (a0 + 20))) as [_ ->]; [lia|].
        eexists. split; [|reflexivity]. lia.
    + match goal with
      | |- context [if ?b then add (ofZ a0) (ofZ 15) else _] =>
          destruct b
      end; cbn [prediction].
      * rewrite (add_small a0 15) by (cbn [In increments]; (lia || tauto)).
        destruct (cap_small (a0 + 15)) as [-> _]; [lia|].
        destruct (cap_small (Z.min 100 (a0 + 15))) as [_ ->]; [lia|].
        eexists. split; [|reflexivity]. lia.
      * destruct (cap_small a0) as [-> _]; [lia|].
        destruct (cap_small (Z.min 100 a0)) as [_ ->]; [lia|].
        eexists. split; [|reflexivity]. lia.
Qed.

(** ** The confidence of a forecast *)

Lemma total_nonneg (datasets : list (list number)) : forall acc,
  nonneg acc = true ->
  nonneg (fold_left (fun s data => add s (lengthOf data)) datasets acc) = true.
Proof.
  induction datasets as [|d r IH]; intros acc H; cbn [fold_left]; [exact H|].
  apply IH, add_nonneg; [exact H|]. apply ofZ_nonneg. lia.
Qed.

Lemma varianceStep_nonneg c data :
  nonneg c = true -> nonneg (varianceStep c data) = true.
Proof.
  intros H. unfold varianceStep.
  destruct (3 <? List.length data)%nat; [|exact H]. cbv zeta.
  destruct (gtb _ _); [|exact H].
  apply mul_nonneg_pos; [exact H|reflexivity].
Qed.

Lemma varianceSteps_nonneg datasets : forall c,
  nonneg c = true -> nonneg (fold_left varianceStep datasets c) = true.
Proof.
  induction datasets as [|d r IH]; intros c H; cbn [fold_left]; [exact H|].
  apply IH, varianceStep_nonneg, H.
Qed.

Lemma calculateConfidence_within datasets :
  finitePos (lengthOf datasets) = true ->
  within (dec 5 (-1)) (dec 95 (-2)) (calculateConfidence datasets) = true.
Proof.
  intros H. unfold calculateConfidence. cbv zeta.
  apply clamp_within; try reflexivity.
  apply nonneg_num, varianceSteps_nonneg, min_nonneg; [reflexivity|].
  apply div_nonneg_pos; [|reflexivity].
  apply div_nonneg_pos; [|exact H].
  apply total_nonneg. reflexivity.
Qed.

(** X13. Whatever the table holds, the confidence of each of the four
    forecasts is either the 0 of the placeholder or a number from 0.5 to
    0.95; it is never [NaN]. *)
Theorem forecast_confidence_range data :
  Forall (fun p => confidence p = pzero
                   \/ within (dec 5 (-1)) (dec 95 (-2)) (confidence p) = true)
         (allPredictions data).
Proof.
  unfold allPredictions. repeat apply Forall_cons; [| | | |apply Forall_nil].
  - unfold predictRecoveryScore. cbv zeta.
    destruct (List.length (getMetricData data "recovery score %") <? 7)%nat;
      [left; reflexivity|right].
    cbn [confidence]. apply calculateConfidence_within. reflexivity.
  - unfold predictSleepDebt. cbv zeta.
    destruct ((List.length (getMetricData data "sleep need (min)") <? 5)%nat
              || (List.length (getMetricData data "asleep duration (min)") <? 5)%nat);
      [left; reflexivity|right].
    cbn [confidence]. apply calculateConfidence_within. reflexivity.
  - unfold predictPerformanceReadiness. cbv zeta.
    destruct (List.length (getMetricData data "recovery score %") <? 5)%nat;
      [left; reflexivity|right].
    cbn [confidence]. apply calculateConfidence_within. reflexivity.
  - unfold assessInjuryRisk. cbv zeta.
    destruct ((List.length (getMetricData data "recovery score %") <? 7)%nat
              || (List.length (getMetricData data "day strain") <? 7)%nat);
      [left; reflexivity|right].
    destruct (strainRecoveryRisk _ _) as [c sc].
    cbn [confidence]. apply calculateConfidence_within. reflexivity.
Qed.

End PredictExtras.
(* ================================================================== *)
(** * Further properties of the goals *)
(* ================================================================== *)

Module GoalExtras.
Import JSNumber JSValue GoalSetting GoalStore Samples MoreSamples
       NumberClasses LoopInvariants NumberFacts RoundingFacts.

(** ** The current value *)

Lemma orNum_num x : isNaN (orNum x pzero) = false.
Proof. unfold orNum. destruct x; reflexivity. Qed.

Lemma getCurrentValue_num data t : isNaN (getCurrentValue data t) = false.
Proof.
  unfold getCurrentValue. destruct data as [|latest r]; [reflexivity|].
  destruct t; try apply orNum_num. reflexivity.
Qed.

(** X14. For a goal of any kind but strain whose target is a finite
    number other than zero, the progress an update stores is a number
    from 0 to 100, whatever the table holds. *)
Theorem progress_within_0_100 data now goal :
  type goal <> strain ->
  finiteNonzero (targetValue goal) = true ->
  within pzero (ofZ 100)
         (GoalSetting.progress (updateGoalProgress data now goal)) = true.
Proof.
  intros Hs Ht. cbn [updateGoalProgress GoalSetting.progress].
  assert (Hp : computeProgress (type goal) (targetValue goal)
                 (getCurrentValue data (type goal))
               = max pzero (min (ofZ 100)
                   (mul (div (getCurrentValue data (type goal))
                             (targetValue goal)) (ofZ 100))))
    by (destruct (type goal); try reflexivity; contradiction).
  rewrite Hp.
  destruct (clamp_NaN_or_in_range
              (mul (div (getCurrentValue data (type goal)) (targetValue goal))
                   (ofZ 100))) as [[Hn _] | [H1 H2]].
  - assert (Hnum : isNaN (mul (div (getCurrentValue data (type goal))
                                   (targetValue goal)) (ofZ 100)) = false).
    { apply mul_finite_num; [|reflexivity].
      apply div_finite_num; [apply getCurrentValue_num|exact Ht]. }
    rewrite Hn in Hnum. discriminate.
  - unfold within. rewrite H1, H2. reflexivity.
Qed.

Lemma progress_within_0_100_witness :
  within pzero (ofZ 100)
    (GoalSetting.progress
       (updateGoalProgress eightDays stamp (recoveryGoal 80 60))) = true.
Proof.
  apply (progress_within_0_100 eightDays stamp (recoveryGoal 80 60)).
  - discriminate.
  - reflexivity.
Defined.

(** ** The trend of a goal that is updated again *)

Lemma computeTrend_same t c :
  isNaN c = false ->
  computeTrend t c c = if isFinite c then stable else declining.
Proof.
  intros H. unfold computeTrend. rewrite sub_self.
  destruct c as [s|s| |s m e]; try discriminate; try reflexivity.
  destruct t, s; reflexivity.
Qed.

(** X15. Updating a goal a second time on the same table changes neither
    its current value, its progress nor its recommendations, and sets its
    trend to stable; a goal that was just created is stable as well. The
    exception is an infinite reading: then the trend is declining. *)
Theorem repeated_update_trend data n1 n2 goal :
  let g1 := updateGoalProgress data n1 goal in
  let g2 := updateGoalProgress data n2 g1 in
  currentValue g2 = currentValue g1
  /\ GoalSetting.progress g2 = GoalSetting.progress g1
  /\ recommendations g2 = recommendations g1
  /\ trend g2 = (if isFinite (currentValue g1) then stable else declining)
  /\ (forall newId created t ttl descr target u tf due st,
        trend (snd (createGoal data newId created n1 t ttl descr target u tf
                               due st))
        = if isFinite (getCurrentValue data t) then stable else declining).
Proof.
  cbv zeta. repeat split.
  - cbn [updateGoalProgress trend type currentValue].
    apply computeTrend_same, getCurrentValue_num.
  - intros. cbn [createGoal snd updateGoalProgress trend type currentValue].
    apply computeTrend_same, getCurrentValue_num.
Qed.

(** ** Suggested goals *)

(** X16. When the latest row has no usable HRV reading, the HRV goal
    that is always suggested has the target 0, and a goal created with
    the suggested fields has no progress: it is [NaN]. *)
Theorem hrv_suggestion_without_reading data newId created now st :
  getCurrentValue data hrv = pzero ->
  exists s,
    In s (getSuggestedGoals data)
    /\ s_type s = hrv /\ s_targetValue s = pzero
    /\ GoalSetting.progress
         (snd (createGoal data newId created now (s_type s) (s_title s)
                 (s_description s) (s_targetValue s) (s_unit s)
                 (s_timeframe s) None st)) = NaN.
Proof.
  intros H. exists (hrvSuggestion (getCurrentValue data hrv)).
  split; [|split; [reflexivity|split]].
  - unfold getSuggestedGoals. cbv zeta.
    apply in_or_app. right. apply in_or_app. right.
    apply in_or_app. left. left. reflexivity.
  - rewrite H. reflexivity.
  - cbn [createGoal snd updateGoalProgress GoalSetting.progress type
         targetValue hrvSuggestion s_type s_targetValue].
    rewrite H. reflexivity.
Qed.

Lemma hrv_suggestion_without_reading_witness :
  exists s,
    In s (getSuggestedGoals eightDays)
    /\ s_type s = hrv /\ s_targetValue s = pzero
    /\ GoalSetting.progress
         (snd (createGoal eightDays "g3" stamp stamp (s_type s) (s_title s)
                 (s_description s) (s_targetValue s) (s_unit s)
                 (s_timeframe s) None emptyStore)) = NaN.
Proof.
  apply (hrv_suggestion_without_reading eightDays "g3" stamp stamp emptyStore).
  reflexivity.
Defined.

(** X17. The target of a suggested recovery goal never exceeds 80 and
    that of a suggested sleep goal never exceeds 90; a suggested strain
    goal has the target 13, and no suggestion is of the custom kind. *)
Theorem suggested_targets_capped data s :
  In s (getSuggestedGoals data) ->
  match s_type s with
  | recovery => leb (s_targetValue s) (ofZ 80) = true
  | sleep => leb (s_targetValue s) (ofZ 90) = true
  | strain => s_targetValue s = ofZ 13
  | hrv => s_targetValue s = round (mul (getCurrentValue data hrv) (dec 11 (-1)))
  | custom => False
  end.
Proof.
  unfold getSuggestedGoals. cbv zeta. intros H.
  apply in_app_or in H as [H | H].
  { destruct (ltb _ _); [|contradiction]. destruct H as [<- | []].
    cbn [recoverySuggestion s_type s_targetValue].
    apply min_leb_bound; [reflexivity|].
    apply add_finite_num; [apply getCurrentValue_num|reflexivity]. }
  apply in_app_or in H as [H | H].
  { destruct (ltb _ _); [|contradiction]. destruct H as [<- | []].
    cbn [sleepSuggestion s_type s_targetValue].
    apply min_leb_bound; [reflexivity|].
    apply add_finite_num; [apply getCurrentValue_num|reflexivity]. }
  apply in_app_or in H as [H | H].
  { destruct H as [<- | []]. reflexivity. }
  apply in_app_or in H as [H | H].
  { destruct (7 <=? _)%nat; [|contradiction].
    destruct (gtb _ _); [|contradiction]. destruct H as [<- | []].
    reflexivity. }
  destruct (7 <=? _)%nat; [|contradiction]. cbv zeta in H.
  destruct (gtb _ _); [|contradiction]. destruct H as [<- | []].
  reflexivity.
Qed.

Lemma suggested_targets_capped_witness :
  leb (s_targetValue (recoverySuggestion (getCurrentValue steadyWeeks recovery)))
      (ofZ 80) = true.
Proof.
  apply (suggested_targets_capped steadyWeeks
           (recoverySuggestion (getCurrentValue steadyWeeks recovery))).
  vm_compute. left. reflexivity.
Defined.

(** ** The insights *)

Lemma filter_length_le {A : Type} (p : A -> bool) (l : list A) :
  (List.length (filter p l) <= List.length l)%nat.
Proof.
  induction l as [|x r IH]; cbn [filter List.length]; [lia|].
  destruct (p x); cbn [List.length]; lia.
Qed.

Lemma better_unbeaten seen top goal :
  unbeaten seen top -> unbeaten (seen ++ [goal]) (better top goal).
Proof.
  unfold unbeaten, better. destruct top as [t|].
  - intros [Hin Hall].
    destruct (gtb (GoalSetting.progress goal) (GoalSetting.progress t)) eqn:E.
    + split; [apply in_or_app; right; left; reflexivity|].
      intros g Hg. apply in_app_or in Hg as [Hg | [<- | []]].
      * destruct (gtb (GoalSetting.progress g) (GoalSetting.progress goal))
          eqn:E1; [|reflexivity].
        rewrite <- (Hall g Hg). symmetry.
        exact (ltb_trans _ _ _ E E1).
      * apply ltb_irrefl.
    + split; [apply in_or_app; left; exact Hin|].
      intros g Hg. apply in_app_or in Hg as [Hg | [<- | []]].
      * apply Hall, Hg.
      * exact E.
  - intros ->. split; [left; reflexivity|].
    intros g [<- | []]. apply ltb_irrefl.
Qed.

Lemma fold_better_unbeaten l : forall seen top,
  unbeaten seen top -> unbeaten (seen ++ l) (fold_left better l top).
Proof.
  induction l as [|goal r IH]; intros seen top H; cbn [fold_left].
  - rewrite app_nil_r. exact H.
  - replace (seen ++ goal :: r) with ((seen ++ [goal]) ++ r)
      by (rewrite <- app_assoc; reflexivity).
    apply IH, better_unbeaten, H.
Qed.

(** X18. The insights are consistent: the completed goals are among the
    active ones and these among all goals, as are the goals that need
    attention; there is a top goal exactly when a goal is active, and it
    is an active goal whose progress no active goal exceeds. *)
Theorem insights_are_consistent st :
  let r := getGoalInsights st in
  (completedGoals r <= activeGoals r <= totalGoals r)%nat
  /\ (List.length (needsAttention r) <= activeGoals r)%nat
  /\ (topPerformingGoal r = None <-> activeGoals r = 0%nat)
  /\ (forall t, topPerformingGoal r = Some t ->
        In t (goals st) /\ isActive t = true
        /\ forall g, In g (goals st) -> isActive g = true ->
             gtb (GoalSetting.progress g) (GoalSetting.progress t) = false).
Proof.
  cbv zeta. unfold getGoalInsights. cbv zeta.
  cbn [completedGoals activeGoals totalGoals needsAttention topPerformingGoal].
  pose proof (fold_better_unbeaten (getActiveGoals st) [] None eq_refl) as H.
  cbn [app] in H.
  split; [|split; [|split]].
  - split; [apply filter_length_le|]. unfold getActiveGoals.
    apply filter_length_le.
  - apply filter_length_le.
  - destruct (fold_left better (getActiveGoals st) None) as [t|];
      cbn [unbeaten] in H.
    + destruct H as [Hin _]. split; [discriminate|].
      intros E. apply length_zero_iff_nil in E. rewrite E in Hin.
      contradiction.
    + rewrite H. split; reflexivity.
  - intros t E. rewrite E in H. cbn [unbeaten] in H. destruct H as [Hin Hall].
    unfold getActiveGoals in Hin. apply filter_In in Hin as [Hin Hact].
    split; [exact Hin|]. split; [exact Hact|].
    intros g Hg Hga. apply Hall. unfold getActiveGoals.
    apply filter_In. split; assumption.
Qed.

Lemma sum_NaN (l : list Goal) :
  fold_left (fun s goal => add s (GoalSetting.progress goal)) l NaN = NaN.
Proof. induction l as [|g r IH]; cbn [fold_left]; [reflexivity|exact IH]. Qed.

Lemma sum_with_NaN (l : list Goal) g : forall acc,
  In g l -> isNaN (GoalSetting.progress g) = true ->
  fold_left (fun s goal => add s (GoalSetting.progress goal)) l acc = NaN.
Proof.
  induction l as [|h r IH]; intros acc Hin Hn; [contradiction|].
  cbn [fold_left]. destruct Hin as [-> | Hin].
  - destruct (GoalSetting.progress g); try discriminate.
    rewrite add_NaN_r. apply sum_NaN.
  - apply IH; assumption.
Qed.

(** X19. One active goal whose progress is [NaN] makes the average
    progress of the insights [NaN]; that goal is not counted as completed
    and needs attention only if its trend is declining. *)
Theorem one_stalled_goal_spoils_average st g :
  In g (goals st) -> isActive g = true ->
  isNaN (GoalSetting.progress g) = true ->
  averageProgress (getGoalInsights st) = NaN
  /\ geb (GoalSetting.progress g) (ofZ 100) = false
  /\ (In g (needsAttention (getGoalInsights st)) <-> trend g = declining).
Proof.
  intros Hin Hact Hn.
  assert (Hg : In g (getActiveGoals st))
    by (apply filter_In; split; assumption).
  unfold getGoalInsights. cbv zeta. cbn [averageProgress needsAttention].
  split; [|split].
  - destruct (getActiveGoals st) as [|h r] eqn:E; [contradiction|].
    change (0 <? List.length (h :: r))%nat with true. cbv iota.
    rewrite (sum_with_NaN (h :: r) g pzero Hg Hn). reflexivity.
  - destruct (GoalSetting.progress g); try discriminate. reflexivity.
  - rewrite filter_In.
    assert (Hl : ltb (GoalSetting.progress g) (ofZ 30) = false)
      by (destruct (GoalSetting.progress g); try discriminate; reflexivity).
    rewrite Hl. cbn [orb]. split.
    + intros [_ H]. destruct (trend g); (reflexivity || discriminate).
    + intros ->. split; [exact Hg|reflexivity].
Qed.

Lemma one_stalled_goal_spoils_average_witness :
  averageProgress (getGoalInsights stalledStore) = NaN.
Proof.
  refine (proj1 (one_stalled_goal_spoils_average stalledStore stalledGoal
                   _ _ _)).
  - vm_compute. left. reflexivity.
  - vm_compute. reflexivity.
  - vm_compute. reflexivity.
Defined.

(** ** Deleting and refreshing goals *)

Lemma findIndex_None {A : Type} (p : A -> bool) (l : list A) :
  findIndex p l = None <-> find p l = None.
Proof.
  induction l as [|x r IH]; cbn [findIndex find]; [tauto|].
  destruct (p x); [split; discriminate|].
  destruct (findIndex p r); cbn [option_map]; split; intros H;
    try discriminate; try reflexivity; try (apply IH; exact H).
  apply IH in H. discriminate.
Qed.

(** The goal [findIndex] points at is the first match; [splice] takes it
    out and keeps the rest in order. *)
Lemma findIndex_Some {A : Type} (p : A -> bool) (l : list A) : forall i,
  findIndex p l = Some i ->
  exists before x after,
    l = before ++ x :: after /\ p x = true /\ find p l = Some x
    /\ (forall y, In y before -> p y = false)
    /\ splice1 i l = before ++ after.
Proof.
  induction l as [|x r IH]; intros i H; cbn [findIndex] in H; [discriminate|].
  destruct (p x) eqn:E.
  - injection H as <-. exists [], x, r. cbn [find]. rewrite E.
    repeat split; try reflexivity. intros y [].
  - destruct (findIndex p r) as [j|]; [|discriminate]. injection H as <-.
    destruct (IH j eq_refl) as (before & y & after & Hl & Hp & Hf & Hb & Hs).
    exists (x :: before), y, after. cbn [find]. rewrite E.
    split; [rewrite Hl; reflexivity|]. split; [exact Hp|].
    split; [exact Hf|]. split.
    + intros z [<- | Hz]; [exact E|apply Hb, Hz].
    + unfold splice1 in *. cbn [firstn skipn app] in *. rewrite Hs.
      reflexivity.
Qed.

Lemma find_app_skip {A : Type} (p : A -> bool) (before : list A) rest :
  (forall y, In y before -> p y = false) ->
  find p (before ++ rest) = find p rest.
Proof.
  induction before as [|x r IH]; intros H; [reflexivity|].
  cbn [app find]. rewrite (H x (or_introl eq_refl)).
  apply IH. intros y Hy. apply H. right. exact Hy.
Qed.

Lemma find_other {A : Type} (p q : A -> bool) (before : list A) x after :
  q x = false ->
  find q (before ++ x :: after) = find q (before ++ after).
Proof.
  intros Hx. induction before as [|y r IH]; cbn [app find].
  - rewrite Hx. reflexivity.
  - destruct (q y); [reflexivity|exact IH].
Qed.

(** X20. Deleting a goal by id: an id no goal has leaves the store as it
    is and answers false; otherwise the first goal with that id is taken
    out, the other goals keep their order, the progress entries of that
    id are dropped, and the answer is true. Looking up any other id gives
    what it gave before; the deleted id is no longer found when the ids
    are distinct. *)
Theorem deleteGoal_removes_first_match i st :
  (getGoal i st = None -> deleteGoal i st = (st, false))
  /\ (forall g, getGoal i st = Some g ->
        exists before after,
          goals st = before ++ g :: after
          /\ (forall h, In h before -> id h <> i)
          /\ deleteGoal i st
             = ({| goals := before ++ after;
                   progress :=
                     filter (fun p => negb (String.eqb (goalId p) i))
                            (progress st) |}, true))
  /\ (forall j, j <> i ->
        getGoal j (fst (deleteGoal i st)) = getGoal j st)
  /\ (NoDup (map id (goals st)) -> getGoal i (fst (deleteGoal i st)) = None).
Proof.
  unfold getGoal, deleteGoal.
  destruct (findIndex (fun goal => String.eqb (id goal) i) (goals st))
    as [k|] eqn:E.
  - destruct (findIndex_Some _ _ _ E)
      as (before & x & after & Hl & Hp & Hf & Hb & Hs).
    split; [|split; [|split]].
    + intros H. rewrite Hf in H. discriminate.
    + intros g Hg. rewrite Hf in Hg. injection Hg as <-.
      exists before, after. split; [exact Hl|]. split.
      * intros h Hh Heq. apply Hb in Hh. apply String.eqb_neq in Hh.
        contradiction.
      * rewrite Hs. reflexivity.
    + intros j Hj. cbn [fst goals]. rewrite Hs, Hl. symmetry.
      apply (find_other (fun goal => String.eqb (id goal) i)).
      apply String.eqb_eq in Hp. rewrite Hp. apply String.eqb_neq.
      congruence.
    + intros Hnd. cbn [fst goals]. rewrite Hs.
      rewrite Hl in Hnd. rewrite map_app in Hnd. cbn [map] in Hnd.
      apply NoDup_remove_2 in Hnd. apply String.eqb_eq in Hp.
      destruct (find _ (before ++ after)) as [h|] eqn:Ef; [|reflexivity].
      apply find_some in Ef as [Hin Hh]. apply String.eqb_eq in Hh.
      exfalso. apply Hnd. rewrite <- map_app. rewrite Hp, <- Hh.
      apply in_map, Hin.
  - pose proof (proj1 (findIndex_None _ _) E) as Hn.
    split; [|split; [|split]].
    + reflexivity.
    + intros g Hg. rewrite Hn in Hg. discriminate.
    + reflexivity.
    + intros _. exact Hn.
Qed.

Lemma deleteGoal_removes_first_match_witness :
  getGoal "g1" (fst (deleteGoal "g1" twoGoals)) = None.
Proof.
  apply (proj2 (proj2 (proj2 (deleteGoal_removes_first_match "g1" twoGoals)))).
  cbn [twoGoals goals map id strainGoal recoveryGoal].
  apply NoDup_cons; [|apply NoDup_cons; [intros []|apply NoDup_nil]].
  intros [H | []]. discriminate.
Defined.

Lemma refreshFrom_spec data clock l : forall i,
  map id (refreshFrom data i clock l) = map id l
  /\ map isActive (refreshFrom data i clock l) = map isActive l
  /\ (forall g, In g l -> isActive g = false ->
        In g (refreshFrom data i clock l))
  /\ (forall g, In g (refreshFrom data i clock l) -> isActive g = true ->
        exists g0 now, In g0 l /\ isActive g0 = true
                       /\ g = updateGoalProgress data now g0).
Proof.
  induction l as [|h r IH]; intros i; cbn [refreshFrom map In].
  - repeat split; try reflexivity; intros g [].
  - destruct (IH (S i)) as (H1 & H2 & H3 & H4).
    split; [|split; [|split]].
    + rewrite H1. destruct (isActive h); reflexivity.
    + rewrite H2. destruct (isActive h) eqn:E.
      * cbn [updateGoalProgress isActive]. rewrite E. reflexivity.
      * rewrite E. reflexivity.
    + intros g [<- | Hg] Ha.
      * left. rewrite Ha. reflexivity.
      * right. apply H3; assumption.
    + intros g [<- | Hg] Ha.
      * destruct (isActive h) eqn:E.
        -- exists h, (clock i). split; [left; reflexivity|].
           split; [exact E|reflexivity].
        -- congruence.
      * destruct (H4 g Hg Ha) as (g0 & now & Hin & Hact & Heq).
        exists g0, now. split; [right; exact Hin|]. tauto.
Qed.

Lemma refreshFrom_nth data clock l : forall start i g0,
  nth_error l i = Some g0 ->
  nth_error (refreshFrom data start clock l) i
  = Some (if isActive g0
          then updateGoalProgress data (clock (start + i)%nat) g0 else g0).
Proof.
  induction l as [|h r IH]; intros start [|i] g0 H; cbn [nth_error] in H;
    try discriminate; cbn [refreshFrom nth_error].
  - injection H as <-. rewrite Nat.add_0_r. reflexivity.
  - rewrite Nat.add_succ_r. apply (IH (S start) i g0 H).
Qed.

Lemma refreshFrom_length data clock l : forall start,
  List.length (refreshFrom data start clock l) = List.length l.
Proof.
  induction l as [|h r IH]; intros start; cbn [refreshFrom List.length];
    [reflexivity|]. rewrite IH. reflexivity.
Qed.

Lemma refreshFrom_active data clock l : forall start,
  Forall2 (fun g0 g => exists now, g = updateGoalProgress data now g0)
          (filter isActive l)
          (filter isActive (refreshFrom data start clock l)).
Proof.
  induction l as [|h r IH]; intros start; cbn [refreshFrom filter].
  - apply Forall2_nil.
  - destruct (isActive h) eqn:E.
    + cbn [updateGoalProgress isActive]. rewrite E.
      apply Forall2_cons; [|apply IH]. exists (clock start). reflexivity.
    + rewrite E. apply IH.
Qed.

(** X21. Refreshing all goals updates every active goal in its place,
    with the time stamp read for its position, and leaves the inactive
    goals and the progress entries as they are; it returns the active
    goals of the refreshed list, which are the active goals of before,
    in order, each updated and so with the current value of the table.
    After a second refresh on the same table as many goals are returned
    and none of them is improving. *)
Theorem updateAllGoals_refreshes_active_goals data clock1 clock2 st :
  let st1 := fst (updateAllGoals data clock1 st) in
  List.length (goals st1) = List.length (goals st)
  /\ (forall i g0, nth_error (goals st) i = Some g0 ->
        nth_error (goals st1) i
        = Some (if isActive g0
                then updateGoalProgress data (clock1 i) g0 else g0))
  /\ GoalStore.progress st1 = GoalStore.progress st
  /\ snd (updateAllGoals data clock1 st) = filter isActive (goals st1)
  /\ Forall2 (fun g0 g => exists now, g = updateGoalProgress data now g0)
             (filter isActive (goals st))
             (snd (updateAllGoals data clock1 st))
  /\ map id (goals st1) = map id (goals st)
  /\ map isActive (goals st1) = map isActive (goals st)
  /\ (forall g, In g (goals st) -> isActive g = false -> In g (goals st1))
  /\ (forall g, In g (snd (updateAllGoals data clock1 st)) ->
        In g (goals st1) /\ isActive g = true
        /\ currentValue g = getCurrentValue data (type g))
  /\ List.length (snd (updateAllGoals data clock2 st1))
     = List.length (filter isActive (goals st))
  /\ (forall g, In g (snd (updateAllGoals data clock2 st1)) ->
        trend g <> improving).
Proof.
  cbv zeta. unfold updateAllGoals. cbv zeta. cbn [fst snd goals].
  destruct (refreshFrom_spec data clock1 (goals st) 0) as (H1 & H2 & H3 & H4).
  split; [apply refreshFrom_length|].
  split; [intros i g0 H; apply (refreshFrom_nth data clock1 _ 0 i g0 H)|].
  split; [reflexivity|]. split; [reflexivity|].
  split; [apply refreshFrom_active|].
  split; [exact H1|]. split; [exact H2|]. split; [exact H3|]. split; [|split].
  - intros g Hg. unfold getActiveGoals in Hg. cbn [goals] in Hg.
    apply filter_In in Hg as [Hin Hact]. split; [exact Hin|].
    split; [exact Hact|].
    destruct (H4 g Hin Hact) as (g0 & now & _ & _ & ->). reflexivity.
  - unfold getActiveGoals. cbn [goals].
    rewrite <- (Forall2_length
                  (refreshFrom_active data clock2
                     (refreshFrom data 0 clock1 (goals st)) 0)).
    symmetry.
    apply (Forall2_length (refreshFrom_active data clock1 (goals st) 0)).
  - intros g Hg. unfold getActiveGoals in Hg. cbn [goals] in Hg.
    apply filter_In in Hg as [Hin Hact].
    destruct (refreshFrom_spec data clock2
                (refreshFrom data 0 clock1 (goals st)) 0) as (_ & _ & _ & H5).
    destruct (H5 g Hin Hact) as (g1 & n2 & Hin1 & Hact1 & ->).
    destruct (H4 g1 Hin1 Hact1) as (g0 & n1 & _ & _ & ->).
    cbn [updateGoalProgress trend type currentValue].
    rewrite computeTrend_same by apply getCurrentValue_num.
    destruct (isFinite _); discriminate.
Qed.

(** ** The progress of a goal card *)

Lemma leb_not_gtb x y : leb x y = true -> gtb x y = false.
Proof.
  intros H. destruct (gtb x y) eqn:E; [|reflexivity].
  apply gtb_not_leb in E. congruence.
Qed.

(** X29. The progress a goal card shows is never below 0 and never above
    100, whatever its numbers are; it is 100 when the target does not
    lie on the far side of the baseline. *)
Theorem card_progress_stays_in_range goal :
  ltb (GoalsComponent.calculateProgress goal) pzero = false
  /\ gtb (GoalsComponent.calculateProgress goal) (ofZ 100) = false
  /\ (match GoalsComponent.improvementType goal with
      | GoalsComponent.higher =>
          leb (GoalsComponent.target goal) (GoalsComponent.baseline goal)
      | GoalsComponent.lower =>
          geb (GoalsComponent.target goal) (GoalsComponent.baseline goal)
      end = true ->
      GoalsComponent.calculateProgress goal = ofZ 100).
Proof.
  assert (Hc : forall x,
             ltb (max pzero (min (ofZ 100) x)) pzero = false
             /\ gtb (max pzero (min (ofZ 100) x)) (ofZ 100) = false).
  { intros x. destruct (clamp_NaN_or_in_range x) as [[_ ->] | [H1 H2]].
    - split; reflexivity.
    - split; [|apply leb_not_gtb, H2].
      apply (leb_not_gtb pzero) in H1. exact H1. }
  unfold GoalsComponent.calculateProgress.
  destruct (GoalsComponent.improvementType goal).
  - destruct (leb _ _).
    + repeat split; reflexivity.
    + destruct (Hc (mul (div (sub (GoalsComponent.current goal)
                                  (GoalsComponent.baseline goal))
                             (sub (GoalsComponent.target goal)
                                  (GoalsComponent.baseline goal)))
                        (ofZ 100))) as [H1 H2].
      split; [exact H1|]. split; [exact H2|discriminate].
  - destruct (geb _ _).
    + repeat split; reflexivity.
    + destruct (Hc (mul (div (sub (GoalsComponent.baseline goal)
                                  (GoalsComponent.current goal))
                             (sub (GoalsComponent.baseline goal)
                                  (GoalsComponent.target goal)))
                        (ofZ 100))) as [H1 H2].
      split; [exact H1|]. split; [exact H2|discriminate].
Qed.

End GoalExtras.
(* ================================================================== *)
(** * Further properties of the trend report *)
(* ================================================================== *)

Module TrendExtras.
Import JSNumber JSValue PredictiveAnalytics TrendReport.

Lemma metric_analyse data m : metric (analyse data m) = m.
Proof.
  unfold analyse. cbv zeta.
  destruct (List.length (getMetricData data m) <? 7)%nat; reflexivity.
Qed.

Lemma filter_map_swap {A B : Type} (f : A -> B) (p : B -> bool) (l : list A) :
  filter p (map f l) = map f (filter (fun x => p (f x)) l).
Proof.
  induction l as [|x r IH]; cbn [map filter]; [reflexivity|].
  destruct (p (f x)); cbn [map]; rewrite IH; reflexivity.
Qed.

(** X22. The trend report lists, in the fixed order of the five metric
    names and each at most once, exactly the metrics whose significance
    exceeds 2; every entry is the analysis of its metric, and a metric
    with fewer than 7 readings is never listed. *)
Theorem trend_report_lists_changed_metrics data :
  map metric (getTrendAnalysis data)
  = filter (fun m => gtb (significance (analyse data m)) (ofZ 2)) metrics
  /\ NoDup (map metric (getTrendAnalysis data))
  /\ (forall a, In a (getTrendAnalysis data) ->
        a = analyse data (metric a) /\ In (metric a) metrics
        /\ gtb (significance a) (ofZ 2) = true
        /\ (7 <= List.length (getMetricData data (metric a)))%nat).
Proof.
  assert (Hm : map metric (getTrendAnalysis data)
               = filter (fun m => gtb (significance (analyse data m)) (ofZ 2))
                        metrics).
  { unfold getTrendAnalysis. rewrite filter_map_swap, map_map.
    rewrite (map_ext _ (fun m => m)) by apply metric_analyse.
    apply map_id. }
  split; [exact Hm|]. split.
  - rewrite Hm. apply NoDup_filter. unfold metrics.
    repeat (apply NoDup_cons;
            [cbn [In]; intros H; repeat destruct H as [H | H];
             (discriminate || contradiction)|]).
    apply NoDup_nil.
  - intros a Ha. unfold getTrendAnalysis in Ha.
    apply filter_In in Ha as [Hin Hs].
    apply in_map_iff in Hin as (m & <- & Hin).
    rewrite metric_analyse. split; [reflexivity|]. split; [exact Hin|].
    split; [exact Hs|].
    destruct (List.length (getMetricData data m) <? 7)%nat eqn:E.
    + unfold analyse in Hs. cbv zeta in Hs. rewrite E in Hs.
      cbn [significance] in Hs. discriminate.
    + apply Nat.ltb_ge in E. exact E.
Qed.

End TrendExtras.
(* ================================================================== *)
(** * Properties of the CSV line parser *)
(* ================================================================== *)

Module CsvExtras.
Import JSString DataLoader CsvWriter StringFacts.

(** ** Strings *)

Lemma hasChar_append c a b : hasChar c (a +++ b) = hasChar c a || hasChar c b.
Proof.
  induction a as [|x a IH]; cbn; [reflexivity|].
  rewrite IH. apply orb_assoc.
Qed.

Lemma hasChar_trimStart c s :
  hasChar c s = false -> hasChar c (trimStart s) = false.
Proof.
  induction s as [|x s IH]; cbn; [reflexivity|].
  intros H. apply orb_false_elim in H as [Hx Hs].
  destruct (isWhite x); [apply IH, Hs|]. cbn. rewrite Hx. exact Hs.
Qed.

Lemma hasChar_trimEndAux c s : forall r,
  trimEndAux s = Some r -> hasChar c s = false -> hasChar c r = false.
Proof.
  induction s as [|x s IH]; cbn; intros r H Hc; [discriminate|].
  apply orb_false_elim in Hc as [Hx Hs].
  destruct (trimEndAux s) as [r'|].
  - injection H as <-. cbn. rewrite Hx. apply (IH r' eq_refl Hs).
  - destruct (isWhite x); [discriminate|]. injection H as <-.
    cbn. rewrite Hx. reflexivity.
Qed.

Lemma hasChar_trim c s : hasChar c s = false -> hasChar c (trim s) = false.
Proof.
  intros H. unfold trim, trimEnd.
  destruct (trimEndAux (trimStart s)) as [r|] eqn:E; [|reflexivity].
  apply (hasChar_trimEndAux c _ r E). apply hasChar_trimStart, H.
Qed.

(** ** [trim] twice is [trim] once *)

Lemma trimEndAux_idem s : forall r,
  trimEndAux s = Some r -> trimEndAux r = Some r.
Proof.
  induction s as [|x s IH]; cbn; intros r H; [discriminate|].
  destruct (trimEndAux s) as [r'|] eqn:E.
  - injection H as <-. cbn. rewrite (IH r' eq_refl). reflexivity.
  - destruct (isWhite x) eqn:W; [discriminate|]. injection H as <-.
    cbn. rewrite W. reflexivity.
Qed.

Lemma trimEndAux_head x s r :
  isWhite x = false -> trimEndAux (String x s) = Some r ->
  exists r', r = String x r'.
Proof.
  cbn. intros W H. destruct (trimEndAux s) as [r'|].
  - injection H as <-. eexists. reflexivity.
  - rewrite W in H. injection H as <-. eexists. reflexivity.
Qed.

Lemma trimStart_head s :
  trimStart s = EmptyString
  \/ exists x r, trimStart s = String x r /\ isWhite x = false.
Proof.
  induction s as [|x s IH]; cbn; [left; reflexivity|].
  destruct (isWhite x) eqn:W; [exact IH|].
  right. exists x, s. split; [reflexivity|exact W].
Qed.

Lemma trim_idem s : trim (trim s) = trim s.
Proof.
  unfold trim at 2 3. unfold trimEnd.
  destruct (trimStart_head s) as [E | (x & r & E & W)]; rewrite E.
  - reflexivity.
  - destruct (trimEndAux (String x r)) as [t|] eqn:Et.
    + destruct (trimEndAux_head x r t W Et) as [t' ->].
      unfold trim. cbn [trimStart]. rewrite W. unfold trimEnd.
      rewrite (trimEndAux_idem _ _ Et). reflexivity.
    + reflexivity.
Qed.

(** ** Fields *)

Lemma dropLeadingQuote_plain s :
  hasChar quoteChar s = false -> dropLeadingQuote s = s.
Proof.
  destruct s as [|x s]; cbn; [reflexivity|]. intros H.
  apply orb_false_elim in H as [Hx _]. rewrite Hx. reflexivity.
Qed.

Lemma dropTrailingQuote_plain s :
  hasChar quoteChar s = false -> dropTrailingQuote s = s.
Proof.
  induction s as [|x s IH]; [reflexivity|]. intros H.
  cbn [hasChar] in H. apply orb_false_elim in H as [Hx Hs].
  cbn [dropTrailingQuote]. destruct s as [|y s].
  - rewrite Hx. reflexivity.
  - rewrite (IH Hs). reflexivity.
Qed.

(** On what the loop collects, the removal of quotes changes nothing. *)
Lemma field_plain current :
  hasChar quoteChar current = false -> field current = trim current.
Proof.
  intros H. unfold field. apply hasChar_trim in H.
  rewrite (dropLeadingQuote_plain _ H). apply dropTrailingQuote_plain, H.
Qed.

Lemma field_writable current :
  hasChar quoteChar current = false -> writable (field current) = true.
Proof.
  intros H. rewrite (field_plain _ H). unfold writable.
  rewrite (hasChar_trim _ _ H), trim_idem, String.eqb_refl. reflexivity.
Qed.

(** ** The loop *)

Lemma scanLine_length line : forall current inQuotes result,
  List.length (scanLine line current inQuotes result)
  = (List.length result + S (separators inQuotes line))%nat.
Proof.
  induction line as [|c r IH]; intros current q result;
    cbn [scanLine separators].
  - rewrite length_app. cbn [List.length]. lia.
  - destruct (Ascii.eqb c quoteChar); [apply IH|].
    destruct (Ascii.eqb c commaChar && negb q).
    + rewrite IH, length_app. cbn [List.length]. lia.
    + apply IH.
Qed.

Lemma scanLine_writable line : forall current inQuotes result,
  hasChar quoteChar current = false ->
  Forall (fun f => writable f = true) result ->
  Forall (fun f => writable f = true) (scanLine line current inQuotes result).
Proof.
  induction line as [|c r IH]; intros current q result Hc Hr;
    cbn [scanLine].
  - apply Forall_app. split; [exact Hr|].
    apply Forall_cons; [apply field_writable, Hc|apply Forall_nil].
  - destruct (Ascii.eqb c quoteChar) eqn:Eq; [apply IH; assumption|].
    destruct (Ascii.eqb c commaChar && negb q).
    + apply IH; [reflexivity|]. apply Forall_app. split; [exact Hr|].
      apply Forall_cons; [apply field_writable, Hc|apply Forall_nil].
    + apply IH; [|exact Hr]. rewrite hasChar_append, Hc.
      cbn [hasChar orb]. rewrite Eq. reflexivity.
Qed.

(** X23. A line always parses to at least one field, one more than it
    has commas outside quotes; no field holds a quote and none starts or
    ends with white space. *)
Theorem parseCSVLine_fields line :
  List.length (parseCSVLine line) = S (separators false line)
  /\ Forall (fun f => hasChar quoteChar f = false /\ trim f = f)
            (parseCSVLine line).
Proof.
  split.
  - unfold parseCSVLine. rewrite scanLine_length. reflexivity.
  - assert (H : Forall (fun f => writable f = true) (parseCSVLine line))
      by (apply scanLine_writable; [reflexivity|apply Forall_nil]).
    apply (Forall_impl _ (P := fun f => writable f = true)); [|exact H].
    intros f Hf. unfold writable in Hf. apply andb_prop in Hf as [H1 H2].
    apply negb_true_iff in H1. apply String.eqb_eq in H2. tauto.
Qed.

(** ** Reading back what was written *)

Lemma scan_plain f : forall rest current inQuotes result,
  hasChar quoteChar f = false ->
  inQuotes = true \/ hasChar commaChar f = false ->
  scanLine (f +++ rest) current inQuotes result
  = scanLine rest (current +++ f) inQuotes result.
Proof.
  induction f as [|c f IH]; intros rest current q result Hq Hc.
  - cbn [String.append]. rewrite append_nil_r. reflexivity.
  - cbn [hasChar] in Hq. apply orb_false_elim in Hq as [Hq1 Hq2].
    cbn [String.append scanLine]. rewrite Hq1.
    assert (E : Ascii.eqb c commaChar && negb q = false).
    { destruct Hc as [-> | Hc]; [apply andb_false_r|].
      cbn [hasChar] in Hc. apply orb_false_elim in Hc as [-> _].
      reflexivity. }
    rewrite E. rewrite IH.
    + rewrite append_assoc. reflexivity.
    + exact Hq2.
    + destruct Hc as [Hc | Hc]; [left; exact Hc|right].
      cbn [hasChar] in Hc. apply orb_false_elim in Hc as [_ Hc]. exact Hc.
Qed.

Lemma scan_quoted f rest result :
  hasChar quoteChar f = false ->
  scanLine (quoted f +++ rest) EmptyString false result
  = scanLine rest f false result.
Proof.
  intros H. unfold quoted. cbn [String.append]. rewrite append_assoc.
  cbn [String.append].
  change (scanLine (String quoteChar (f +++ String quoteChar rest))
                   EmptyString false result)
    with (scanLine (f +++ String quoteChar rest) EmptyString true result).
  rewrite scan_plain by (try exact H; left; reflexivity).
  reflexivity.
Qed.

Lemma writable_field f : writable f = true -> field f = f.
Proof.
  unfold writable. intros H. apply andb_prop in H as [H1 H2].
  apply negb_true_iff in H1. apply String.eqb_eq in H2.
  rewrite (field_plain _ H1). exact H2.
Qed.

Lemma writable_plain f : writable f = true -> hasChar quoteChar f = false.
Proof.
  unfold writable. intros H. apply andb_prop in H as [H1 _].
  apply negb_true_iff in H1. exact H1.
Qed.

Lemma read_quoted fields : forall f result,
  Forall (fun g => writable g = true) (f :: fields) ->
  scanLine (joinFields (map quoted (f :: fields))) EmptyString false result
  = result ++ f :: fields.
Proof.
  induction fields as [|g fields IH]; intros f result H.
  - apply Forall_inv in H. cbn [map joinFields String.concat].
    rewrite <- (append_nil_r (quoted f)).
    rewrite scan_quoted by apply writable_plain, H.
    cbn [scanLine]. rewrite (writable_field _ H). reflexivity.
  - pose proof (Forall_inv H) as Hf. apply Forall_inv_tail in H.
    change (joinFields (map quoted (f :: g :: fields)))
      with (quoted f +++ String commaChar
              (joinFields (map quoted (g :: fields)))).
    rewrite scan_quoted by apply writable_plain, Hf.
    change (scanLine (String commaChar (joinFields (map quoted (g :: fields))))
                     f false result)
      with (scanLine (joinFields (map quoted (g :: fields))) EmptyString false
                     (result ++ [field f])).
    rewrite (IH g _ H), (writable_field _ Hf), <- app_assoc. reflexivity.
Qed.

Lemma read_plain fields : forall f result,
  Forall (fun g => writable g = true) (f :: fields) ->
  Forall (fun g => hasChar commaChar g = false) (f :: fields) ->
  scanLine (joinFields (f :: fields)) EmptyString false result
  = result ++ f :: fields.
Proof.
  induction fields as [|g fields IH]; intros f result H Hc.
  - apply Forall_inv in H. apply Forall_inv in Hc.
    cbn [joinFields String.concat].
    rewrite <- (append_nil_r f) at 1.
    rewrite scan_plain by (try (apply writable_plain, H); right; exact Hc).
    cbn [scanLine String.append]. rewrite (writable_field _ H). reflexivity.
  - pose proof (Forall_inv H) as Hf. apply Forall_inv_tail in H.
    pose proof (Forall_inv Hc) as Hfc. apply Forall_inv_tail in Hc.
    change (joinFields (f :: g :: fields))
      with (f +++ String commaChar (joinFields (g :: fields))).
    rewrite scan_plain by (try (apply writable_plain, Hf); right; exact Hfc).
    cbn [String.append].
    change (scanLine (String commaChar (joinFields (g :: fields)))
                     f false result)
      with (scanLine (joinFields (g :: fields)) EmptyString false
                     (result ++ [field f])).
    rewrite (IH g _ H Hc), (writable_field _ Hf), <- app_assoc. reflexivity.
Qed.

(** X24. Reading back a written line of ASCII text: one or more fields
    of ASCII characters that hold no quote and have no white space at
    their ends, each put between quotes and joined by commas, parse to
    the same fields, commas inside a field included; without the quotes
    they do so when no field holds a comma. *)
Theorem parseCSVLine_reads_back fields :
  fields <> [] ->
  Forall (fun f => asciiOnly f = true) fields ->
  Forall (fun f => writable f = true) fields ->
  parseCSVLine (joinFields (map quoted fields)) = fields
  /\ (Forall (fun f => hasChar commaChar f = false) fields ->
      parseCSVLine (joinFields fields) = fields).
Proof.
  intros Hne _ H. destruct fields as [|f fields]; [contradiction|].
  split.
  - apply (read_quoted fields f [] H).
  - intros Hc. apply (read_plain fields f [] H Hc).
Qed.

Lemma parseCSVLine_reads_back_witness :
  parseCSVLine (joinFields (map quoted ["Recovery score %"; "Smith, Jo"; ""]))
  = ["Recovery score %"; "Smith, Jo"; ""].
Proof.
  apply (proj1 (parseCSVLine_reads_back
                  ["Recovery score %"; "Smith, Jo"; ""]
                  ltac:(discriminate)
                  ltac:(repeat constructor)
                  ltac:(repeat constructor))).
Defined.

End CsvExtras.
(* ================================================================== *)
(** * Properties of the context summaries *)
(* ================================================================== *)

Module ContextExtras.
Import JSNumber JSValue RAGService RAGContext Samples MoreSamples
       LoopInvariants StringFacts RetrieveProperties.

(** ** The grouping *)

Lemma hasOwn_In key acc : hasOwn key acc = true <-> In key (map fst acc).
Proof.
  unfold hasOwn. rewrite existsb_exists, in_map_iff. split.
  - intros (kv & Hin & E). apply String.eqb_eq in E. exists kv. tauto.
  - intros (kv & E & Hin). exists kv. split; [exact Hin|].
    apply String.eqb_eq, E.
Qed.

Lemma lookup_absent key acc : hasOwn key acc = false -> lookup key acc = [].
Proof.
  unfold lookup, hasOwn. intros H.
  destruct (find _ acc) as [kv|] eqn:E; [|reflexivity].
  apply find_some in E as [Hin Hk].
  assert (Ht : existsb (fun kv => String.eqb (fst kv) key) acc = true)
    by (apply existsb_exists; exists kv; tauto).
  congruence.
Qed.

Lemma pushTo_keys key d acc : map fst (pushTo key d acc) = map fst acc.
Proof.
  induction acc as [|[k ps] r IH]; cbn [pushTo map fst]; [reflexivity|].
  destruct (String.eqb k key); cbn [map fst]; [reflexivity|].
  rewrite IH. reflexivity.
Qed.

Lemma lookup_pushTo key d acc k :
  hasOwn key acc = true ->
  lookup k (pushTo key d acc)
  = lookup k acc ++ (if String.eqb key k then [d] else []).
Proof.
  unfold lookup, hasOwn.
  induction acc as [|[k0 ps] r IH]; cbn [pushTo find existsb fst];
    [discriminate|].
  intros H. destruct (String.eqb k0 key) eqn:E0.
  - apply String.eqb_eq in E0. subst k0. cbn [find fst].
    destruct (String.eqb key k) eqn:E; cbn [snd].
    + reflexivity.
    + destruct (find _ r); rewrite app_nil_r; reflexivity.
  - cbn [orb] in H. cbn [find fst].
    destruct (String.eqb k0 k) eqn:E1.
    + apply String.eqb_eq in E1. subst k0. rewrite String.eqb_sym, E0.
      cbn [snd]. rewrite app_nil_r. reflexivity.
    + apply IH, H.
Qed.

Lemma lookup_new key d acc k :
  hasOwn key acc = false ->
  lookup k (acc ++ [(key, [d])])
  = lookup k acc ++ (if String.eqb key k then [d] else []).
Proof.
  unfold lookup, hasOwn.
  induction acc as [|[k0 ps] r IH]; cbn [app find existsb fst].
  - intros _. destruct (String.eqb key k); reflexivity.
  - intros H. apply orb_false_elim in H as [E0 H].
    destruct (String.eqb k0 k) eqn:E1.
    + apply String.eqb_eq in E1. subst k0. rewrite String.eqb_sym, E0.
      cbn [snd]. rewrite app_nil_r. reflexivity.
    + apply IH, H.
Qed.

Lemma NoDup_snoc {A : Type} (l : list A) x :
  NoDup l -> ~ In x l -> NoDup (l ++ [x]).
Proof.
  induction l as [|y r IH]; intros Hnd Hx; cbn [app].
  - apply NoDup_cons; [intros []|apply NoDup_nil].
  - apply NoDup_cons_iff in Hnd as [Hy Hr]. apply NoDup_cons.
    + intros Hin. apply in_app_or in Hin as [Hin | [E | []]].
      * contradiction.
      * apply Hx. left. symmetry. exact E.
    + apply IH; [exact Hr|]. intros Hin. apply Hx. right. exact Hin.
Qed.

Lemma filter_snoc {A : Type} (p : A -> bool) (l : list A) x :
  filter p (l ++ [x]) = filter p l ++ (if p x then [x] else []).
Proof. rewrite filter_app. reflexivity. Qed.

Lemma groupStep_grouped acc seen d acc' :
  grouped acc seen -> groupStep acc d = Some acc' ->
  grouped acc' (seen ++ [d]).
Proof.
  intros (Hnd & Hl & Hk). unfold groupStep. cbv zeta.
  fold (keyOf d).
  destruct (hasOwn (keyOf d) acc) eqn:Eo.
  - intros H. injection H as <-. split; [|split].
    + rewrite pushTo_keys. exact Hnd.
    + intros k. rewrite (lookup_pushTo _ _ _ _ Eo), filter_snoc, Hl.
      reflexivity.
    + intros k. rewrite pushTo_keys, Hk. split.
      * intros (e & He & E). exists e. split; [|exact E].
        apply in_or_app. left. exact He.
      * intros (e & He & E). apply in_app_or in He as [He | [<- | []]].
        -- exists e. tauto.
        -- apply Hk. rewrite <- E. apply hasOwn_In, Eo.
  - destruct (JSString.mem (keyOf d) inheritedKeys); [discriminate|].
    intros H. injection H as <-. split; [|split].
    + rewrite map_app. cbn [map fst].
      apply NoDup_snoc; [exact Hnd|].
      intros Hin. apply hasOwn_In in Hin. congruence.
    + intros k. rewrite (lookup_new _ _ _ _ Eo), filter_snoc, Hl.
      reflexivity.
    + intros k. rewrite map_app, in_app_iff, Hk. cbn [map fst In]. split.
      * intros [(e & He & E) | [E | []]].
        -- exists e. split; [|exact E]. apply in_or_app. left. exact He.
        -- exists d. split; [|exact E]. apply in_or_app. right. left.
           reflexivity.
      * intros (e & He & E). apply in_app_or in He as [He | [<- | []]].
        -- left. exists e. tauto.
        -- right. left. exact E.
Qed.

Lemma groupFrom_grouped l : forall acc seen acc',
  grouped acc seen -> groupFrom acc l = Some acc' ->
  grouped acc' (seen ++ l).
Proof.
  induction l as [|d r IH]; intros acc seen acc' Hg H; cbn [groupFrom] in H.
  - injection H as <-. rewrite app_nil_r. exact Hg.
  - destruct (groupStep acc d) as [acc1|] eqn:E; [|discriminate].
    replace (seen ++ d :: r) with ((seen ++ [d]) ++ r)
      by (rewrite <- app_assoc; reflexivity).
    apply (IH acc1); [|exact H]. apply (groupStep_grouped acc); assumption.
Qed.

(** The [push] fails exactly on a data point whose metric is an inherited
    key. *)
Lemma groupFrom_None l : forall acc seen,
  grouped acc seen ->
  (forall d, In d seen -> JSString.mem (keyOf d) inheritedKeys = false) ->
  (groupFrom acc l = None
   <-> exists d, In d l /\ JSString.mem (keyOf d) inheritedKeys = true).
Proof.
  induction l as [|d r IH]; intros acc seen Hg Hs; cbn [groupFrom].
  - split; [discriminate|]. intros (d & [] & _).
  - destruct (JSString.mem (keyOf d) inheritedKeys) eqn:Em.
    + assert (Eo : hasOwn (keyOf d) acc = false).
      { destruct (hasOwn (keyOf d) acc) eqn:Eo; [|reflexivity].
        apply hasOwn_In in Eo. apply (proj2 (proj2 Hg)) in Eo.
        destruct Eo as (e & He & E). apply Hs in He. congruence. }
      unfold groupStep. cbv zeta. fold (keyOf d). rewrite Eo, Em.
      split; [|reflexivity]. intros _. exists d. split; [left; reflexivity|].
      exact Em.
    + destruct (groupStep acc d) as [acc1|] eqn:E.
      * rewrite (IH acc1 (seen ++ [d])).
        -- split; intros (e & He & Hm); exists e; (split; [|exact Hm]).
           ++ right. exact He.
           ++ destruct He as [<- | He]; [congruence|exact He].
        -- apply (groupStep_grouped acc); assumption.
        -- intros e He. apply in_app_or in He as [He | [<- | []]];
             [apply Hs, He|exact Em].
      * exfalso. unfold groupStep in E. cbv zeta in E. fold (keyOf d) in E.
        rewrite Em in E. destruct (hasOwn (keyOf d) acc); discriminate.
Qed.

Lemma grouped_nil : grouped [] [].
Proof.
  split; [apply NoDup_nil|]. split; [reflexivity|].
  intros k. split; [intros []|intros (d & [] & _)].
Qed.

(** ** Object.keys *)

Lemma In_insertIndex x y l : In x (insertIndex y l) <-> x = y \/ In x l.
Proof.
  induction l as [|z r IH]; cbn [insertIndex In].
  - split; [intros [H | []]; left; congruence|].
    intros [H | []]. left. congruence.
  - destruct (fst y <=? fst z); cbn [In]; [|rewrite IH];
      intuition congruence.
Qed.

Lemma In_indexKeys i k keys :
  In (i, k) (indexKeys keys) <-> In k keys /\ arrayIndex k = Some i.
Proof.
  unfold indexKeys. induction keys as [|k0 r IH]; cbn [fold_right In].
  - tauto.
  - destruct (arrayIndex k0) as [i0|] eqn:E.
    + rewrite In_insertIndex, IH. split.
      * intros [H | [H1 H2]]; [injection H as -> ->; tauto|tauto].
      * intros [[<- | H1] H2]; [left; congruence|tauto].
    + rewrite IH. split; [tauto|].
      intros [[<- | H1] H2]; [congruence|tauto].
Qed.

(** Every own key is listed. *)
Lemma In_objectKeys k o : In k (objectKeys o) <-> In k (map fst o).
Proof.
  unfold objectKeys. rewrite in_app_iff, filter_In, in_map_iff. split.
  - intros [((i & k0) & E & H) | [H _]]; [|exact H].
    cbn [snd] in E. subst k0. apply In_indexKeys in H. tauto.
  - intros H. destruct (arrayIndex k) as [i|] eqn:E.
    + left. exists (i, k). split; [reflexivity|].
      apply In_indexKeys. tauto.
    + right. tauto.
Qed.

(** ** Text *)

Lemma concat_cons x xs :
  String.concat "" (x :: xs) = x +++ String.concat "" xs.
Proof.
  destruct xs as [|y r]; cbn [String.concat].
  - rewrite append_nil_r. reflexivity.
  - reflexivity.
Qed.

Lemma occursIn_concat x l : In x l -> occursIn x (String.concat "" l).
Proof.
  induction l as [|y r IH]; intros H; [contradiction|].
  rewrite concat_cons. destruct H as [-> | H].
  - exists EmptyString, (String.concat "" r). reflexivity.
  - destruct (IH H) as (pre & post & E). exists (y +++ pre), post.
    rewrite E, append_assoc. reflexivity.
Qed.

Lemma occursIn_trans a b c : occursIn a b -> occursIn b c -> occursIn a c.
Proof.
  intros (p1 & q1 & E1) (p2 & q2 & E2). exists (p2 +++ p1), (q1 +++ q2).
  rewrite E2, E1, !append_assoc. reflexivity.
Qed.

Lemma occursIn_inside pre t post : occursIn t (pre +++ t +++ post).
Proof. exists pre, post. reflexivity. Qed.

(** A text that starts and ends with something other than white space
    survives [trim] wherever it occurs. *)
Lemma trimStart_keeps c m post : forall pre,
  JSString.isWhite c = false ->
  exists pre', JSString.trimStart (pre +++ String c m +++ post)
               = pre' +++ String c m +++ post.
Proof.
  induction pre as [|x pre IH]; intros W.
  - exists EmptyString. cbn [String.append JSString.trimStart].
    rewrite W. reflexivity.
  - cbn [String.append JSString.trimStart].
    destruct (JSString.isWhite x); [apply IH, W|].
    exists (String x pre). reflexivity.
Qed.

Lemma trimEndAux_last c post :
  JSString.isWhite c = false ->
  exists post', JSString.trimEndAux (String c post) = Some (String c post').
Proof.
  intros W. cbn [JSString.trimEndAux].
  destruct (JSString.trimEndAux post) as [r|]; [exists r; reflexivity|].
  rewrite W. exists EmptyString. reflexivity.
Qed.

Lemma trimEndAux_prefix pre : forall s r,
  JSString.trimEndAux s = Some r ->
  JSString.trimEndAux (pre +++ s) = Some (pre +++ r).
Proof.
  induction pre as [|x pre IH]; intros s r H; cbn [String.append]; [exact H|].
  cbn [JSString.trimEndAux]. rewrite (IH s r H). reflexivity.
Qed.

Lemma occursIn_trim c1 m c2 s :
  JSString.isWhite c1 = false -> JSString.isWhite c2 = false ->
  occursIn (String c1 (m +++ String c2 EmptyString)) s ->
  occursIn (String c1 (m +++ String c2 EmptyString)) (JSString.trim s).
Proof.
  intros W1 W2 (pre & post & ->). unfold JSString.trim, JSString.trimEnd.
  destruct (trimStart_keeps c1 (m +++ String c2 EmptyString) post pre W1)
    as (pre' & ->).
  destruct (trimEndAux_last c2 post W2) as (post' & E).
  replace (pre' +++ String c1 (m +++ String c2 EmptyString) +++ post)
    with ((pre' +++ String c1 m) +++ String c2 post).
  - rewrite (trimEndAux_prefix _ _ _ E). exists pre', post'.
    repeat (cbn [String.append]; rewrite ?append_assoc). reflexivity.
  - repeat (cbn [String.append]; rewrite ?append_assoc). reflexivity.
Qed.

(** ** The two summaries *)

Lemma plainEntry_shape d :
  exists m, plainEntry d = String "-" (m +++ String ")" EmptyString).
Proof.
  exists (String " " (content d +++ " (Source: "
                      +++ toString (source (metadata d)))).
  unfold plainEntry.
  repeat (cbn [String.append]; rewrite ?append_assoc). reflexivity.
Qed.

Lemma enhancedEntry_shape key d :
  exists m, enhancedEntry key d = String "-" (m +++ String ")" EmptyString).
Proof.
  exists (String " " (content d +++ " [" +++ interpretationOf key d
                      +++ "] (Source: " +++ toString (source (metadata d)))).
  unfold enhancedEntry.
  repeat (cbn [String.append]; rewrite ?append_assoc). reflexivity.
Qed.

Lemma title_shape key :
  "**" +++ key +++ ":**"
  = String "*" ((String "*" (key +++ ":*")) +++ String "*" EmptyString).
Proof.
  repeat (cbn [String.append]; rewrite ?append_assoc). reflexivity.
Qed.

(** Both summaries: every retrieved data point has its entry in the
    text, and its metric has its title there. *)
Lemma contextWith_lists heading lineOf entry kb query data summary :
  (forall key d, lineOf key d = entry key d +++ nl) ->
  (forall key d, exists m,
      entry key d = String "-" (m +++ String ")" EmptyString)) ->
  contextWith heading lineOf kb query = Some (data, summary) ->
  data = retrieveRelevantData kb query 8
  /\ forall d, In d data ->
       occursIn ("**" +++ keyOf d +++ ":**") summary
       /\ occursIn (entry (keyOf d) d) summary.
Proof.
  intros Hline Hshape. unfold contextWith. cbv zeta.
  destruct (groupByMetric (retrieveRelevantData kb query 8)) as [o|] eqn:E;
    [|discriminate].
  intros H. injection H as <- <-. split; [reflexivity|].
  intros d Hd.
  pose proof (groupFrom_grouped _ [] [] o grouped_nil E) as (_ & Hl & Hk).
  cbn [app] in Hl, Hk.
  assert (Hkey : In (keyOf d) (objectKeys o)).
  { apply In_objectKeys, Hk. exists d. split; [exact Hd|reflexivity]. }
  assert (Hsec : occursIn (sectionOf lineOf o (keyOf d))
                          (summaryText heading lineOf o)).
  { unfold summaryText.
    destruct (occursIn_concat (sectionOf lineOf o (keyOf d))
                (map (sectionOf lineOf o) (objectKeys o))
                (in_map _ _ _ Hkey)) as (pre & post & ->).
    exists (heading +++ pre), post. rewrite append_assoc. reflexivity. }
  split.
  - rewrite title_shape. apply occursIn_trim; try reflexivity.
    rewrite <- title_shape.
    apply (occursIn_trans _ (sectionOf lineOf o (keyOf d)) _);
      [|exact Hsec].
    exists EmptyString,
      (nl +++ String.concat "" (map (lineOf (keyOf d)) (lookup (keyOf d) o))
          +++ nl).
    unfold sectionOf.
    repeat (cbn [String.append]; rewrite ?append_assoc). reflexivity.
  - destruct (Hshape (keyOf d) d) as (m & Em). rewrite Em.
    apply occursIn_trim; try reflexivity. rewrite <- Em.
    apply (occursIn_trans _ (sectionOf lineOf o (keyOf d)) _);
      [|exact Hsec].
    assert (Hin : In d (lookup (keyOf d) o)).
    { rewrite Hl. apply filter_In. split; [exact Hd|].
      apply String.eqb_refl. }
    destruct (occursIn_concat (lineOf (keyOf d) d)
                (map (lineOf (keyOf d)) (lookup (keyOf d) o))
                (in_map _ _ _ Hin)) as (pre & post & Ec).
    unfold sectionOf. rewrite Ec, Hline.
    exists ("**" +++ keyOf d +++ ":**" +++ nl +++ pre), (nl +++ post +++ nl).
    repeat (cbn [String.append]; rewrite ?append_assoc). reflexivity.
Qed.

(** X25. When a summary is produced, the data it returns is the
    retrieval with limit 8, and for every retrieved data point the text
    holds the title of its metric and its entry: content and source, in
    the enhanced summary also the interpretation of its value. *)
Theorem context_lists_every_retrieved_fact kb query :
  (forall data summary,
     generateRAGContext kb query = Some (data, summary) ->
     data = retrieveRelevantData kb query 8
     /\ forall d, In d data ->
          occursIn ("**" +++ metric (metadata d) +++ ":**") summary
          /\ occursIn (plainEntry d) summary)
  /\ (forall data summary,
        generateEnhancedRAGContext kb query = Some (data, summary) ->
        data = retrieveRelevantData kb query 8
        /\ forall d, In d data ->
             occursIn ("**" +++ metric (metadata d) +++ ":**") summary
             /\ occursIn (enhancedEntry (metric (metadata d)) d) summary).
Proof.
  split; intros data summary H.
  - apply (contextWith_lists plainHeading plainLine (fun _ d => plainEntry d)
             kb query data summary); [reflexivity| |exact H].
    intros _ d. apply plainEntry_shape.
  - apply (contextWith_lists enhancedHeading enhancedLine enhancedEntry
             kb query data summary); [reflexivity| |exact H].
    intros key d. apply enhancedEntry_shape.
Qed.

Lemma context_lists_every_retrieved_fact_witness :
  match generateRAGContext plainKB "how is my recovery" with
  | Some (_, summary) => occursIn (plainEntry plainRecoveryFact) summary
  | None => False
  end.
Proof.
  destruct (generateRAGContext plainKB "how is my recovery")
    as [[data summary]|] eqn:E; [|vm_compute in E; discriminate].
  destruct (proj1 (context_lists_every_retrieved_fact plainKB
                     "how is my recovery") data summary E) as [Hd H].
  apply H. rewrite Hd. vm_compute. tauto.
Defined.

(** X26. The summaries fail, with the type error of the [push], exactly
    when a retrieved data point has a metric named like a property that
    every object inherits, [constructor] for one; otherwise both are
    produced. *)
Theorem context_fails_exactly_on_inherited_keys kb query :
  let clash :=
    exists d, In d (retrieveRelevantData kb query 8)
              /\ JSString.mem (metric (metadata d)) inheritedKeys = true in
  (generateRAGContext kb query = None <-> clash)
  /\ (generateEnhancedRAGContext kb query = None <-> clash).
Proof.
  cbv zeta.
  assert (H : forall heading lineOf,
             contextWith heading lineOf kb query = None
             <-> exists d, In d (retrieveRelevantData kb query 8)
                           /\ JSString.mem (metric (metadata d)) inheritedKeys
                              = true).
  { intros heading lineOf. unfold contextWith. cbv zeta.
    rewrite <- (groupFrom_None (retrieveRelevantData kb query 8) [] []
                  grouped_nil) by (intros d []).
    unfold groupByMetric.
    destruct (groupFrom [] (retrieveRelevantData kb query 8));
      split; intros; (reflexivity || discriminate). }
  split; apply H.
Qed.

Lemma context_fails_exactly_on_inherited_keys_witness :
  generateRAGContext inheritedKB "constructor" = None.
Proof.
  apply (proj1 (context_fails_exactly_on_inherited_keys inheritedKB
                  "constructor")).
  exists (RAGService.mkDataPoint "most recently, your constructor was 5"
            (RAGService.mkMetadata (VString "day 1") "constructor" "5"
               (VString "csv_data") (Some 0))).
  vm_compute. tauto.
Defined.

(** X27. Grouping by metric: when it succeeds, the keys are distinct,
    under each key stand exactly the data points of that metric in the
    order of the retrieval, and [Object.keys] lists exactly the metrics
    that occur. *)
Theorem groups_hold_each_metric_in_order relevantData o :
  groupByMetric relevantData = Some o ->
  NoDup (map fst o)
  /\ (forall key, lookup key o
                  = filter (fun d => String.eqb (metric (metadata d)) key)
                           relevantData)
  /\ (forall key, In key (objectKeys o)
                  <-> exists d, In d relevantData /\ metric (metadata d) = key).
Proof.
  intros H.
  pose proof (groupFrom_grouped _ [] [] o grouped_nil H) as (Hnd & Hl & Hk).
  cbn [app] in Hl, Hk. split; [exact Hnd|]. split; [exact Hl|].
  intros key. rewrite In_objectKeys. apply Hk.
Qed.

Lemma groups_hold_each_metric_in_order_witness :
  exists o, groupByMetric plainKB = Some o
            /\ lookup "recovery score %" o
               = filter (fun d => String.eqb (metric (metadata d))
                                             "recovery score %") plainKB.
Proof.
  destruct (groupByMetric plainKB) as [o|] eqn:E;
    [|vm_compute in E; discriminate].
  exists o. split; [reflexivity|].
  apply (proj1 (proj2 (groups_hold_each_metric_in_order plainKB o E))).
Defined.

(** X28. When no data point scores above 0, which the three most recent
    rows always do, nothing is retrieved and the summary is the first
    line alone, without the blank line that follows it. *)
Theorem context_without_match_is_bare_heading kb query :
  Forall (fun f => scoreOf query f <= 0) kb ->
  generateRAGContext kb query
  = Some ([], "Relevant data from your health records:")
  /\ generateEnhancedRAGContext kb query
     = Some ([], "Your personal Whoop health data with metric interpretation (most recent data points listed first):").
Proof.
  intros H.
  assert (E : retrieveRelevantData kb query 8 = []).
  { unfold retrieveRelevantData, ranked, scoredData.
    replace (filter (fun item => 0 <? snd item)
                    (map (fun dp => (dp, scoreOf query dp)) kb))
      with (@nil (DataPoint * Z)); [reflexivity|].
    symmetry. induction H as [|f r Hf Hr IH]; [reflexivity|].
    cbn [map filter snd].
    destruct (0 <? scoreOf query f) eqn:E; [|exact IH].
    apply Z.ltb_lt in E. lia. }
  unfold generateRAGContext, generateEnhancedRAGContext, contextWith.
  cbv zeta. rewrite E. split; reflexivity.
Qed.

Lemma context_without_match_is_bare_heading_witness :
  generateRAGContext weekOldKB "zzz"
  = Some ([], "Relevant data from your health records:").
Proof.
  assert (H : Forall (fun f => scoreOf "zzz" f <= 0) weekOldKB).
  { apply Forall_forall. intros f Hf. vm_compute in Hf.
    repeat (destruct Hf as [<- | Hf]; [vm_compute; discriminate|]).
    contradiction. }
  exact (proj1 (context_without_match_is_bare_heading weekOldKB "zzz" H)).
Defined.

End ContextExtras.
